(** * Poker bankroll tracker: reconciliation, aggregation and ledger mutations

    A shallow embedding of [bankrollManagement.py].  The Streamlit widgets are
    left out; what remains is the data each page computes and the effect of
    each button on the three SQLite tables.

    Conventions.
    - A calendar date is the number of days since 1970-01-01 (the integer part
      of a pandas Timestamp at midnight), so the daily grid is an interval of
      [Z].  The ISO text of the [date] columns is ordered like this number.
    - The REAL columns hold amounts of money.  They are modelled by exact
      integers (an amount in the smallest currency unit); rounding of binary
      floating point is not modelled.
    - A cell of a pandas float column is [option Z]; [None] is NaN. *)

From Stdlib Require Import ZArith List Lia Bool String Ascii Sorted Permutation.
Import ListNotations.
Open Scope Z_scope.

(** ** Exceptions *)

Inductive exn : Type :=
| IndexError      (* single positional indexer is out-of-bounds *)
| ValueError      (* cannot reindex on an axis with duplicate labels *)
| IntegrityError. (* sqlite3: UNIQUE constraint failed *)

Inductive result (A : Type) : Type :=
| Ok (a : A)
| Raise (e : exn).
Arguments Ok {A} a.
Arguments Raise {A} e.

Definition bind {A B : Type} (m : result A) (k : A -> result B) : result B :=
  match m with
  | Ok a => k a
  | Raise e => Raise e
  end.

Notation "x <- m ;; k" := (bind m (fun x => k))
  (at level 61, m at next level, right associativity).

(** ** Tables *)

Definition date := Z.

(** A row of [rooms]: id, name, initial_bankroll, init_date. *)
Record room : Type := mk_room {
  r_id : Z;
  r_name : string;
  r_initial_bankroll : Z;
  r_init_date : date
}.

(** A row of [sessions]: id, room_id, date, tournaments, cashflow, bankroll.
    Every write path binds numbers to the three value columns, so they are
    never NULL.  A query that selects fewer columns is modelled by the list of
    whole rows. *)
Record session : Type := mk_session {
  s_id : Z;
  s_room_id : Z;
  s_date : date;
  s_tournaments : Z;
  s_cashflow : Z;
  s_bankroll : Z
}.

(** ** The pandas operations the program calls *)

Definition cell := option Z.

Definition isna (x : cell) : bool :=
  match x with
  | None => true
  | Some _ => false
  end.

(** [pd.date_range(start, end, freq='D')]: every day from [start] to [stop],
    both included; empty when [stop] is before [start]. *)
Definition date_range (start stop : date) : list date :=
  map (fun i => start + Z.of_nat i) (seq 0 (Z.to_nat (stop - start + 1))).

Fixpoint is_unique (idx : list date) : bool :=
  match idx with
  | [] => true
  | d :: rest => negb (existsb (Z.eqb d) rest) && is_unique rest
  end.

(** [df.set_index('date').reindex(new_index)]: one row per label of
    [new_index], the row of [df] carrying that date or a row of NaN.  pandas
    refuses to reindex a frame whose own index has duplicate labels. *)
Definition reindex (df : list session) (new_index : list date)
  : result (list (option session)) :=
  if is_unique (map s_date df)
  then Ok (map (fun d => find (fun s => s_date s =? d) df) new_index)
  else Raise ValueError.

(** [df[name]] on a reindexed frame. *)
Definition column (f : session -> Z) (df : list (option session)) : list cell :=
  map (option_map f) df.

(** [series.iloc[0]] read and write. *)
Definition iloc0 (c : list cell) : result cell :=
  match c with
  | [] => Raise IndexError
  | x :: _ => Ok x
  end.

Definition set_iloc0 (v : cell) (c : list cell) : result (list cell) :=
  match c with
  | [] => Raise IndexError
  | _ :: rest => Ok (v :: rest)
  end.

(** [series.ffill()]. *)
Fixpoint ffill_from (last : cell) (c : list cell) : list cell :=
  match c with
  | [] => []
  | x :: rest =>
      let v := match x with Some _ => x | None => last end in
      v :: ffill_from v rest
  end.

Definition ffill (c : list cell) : list cell := ffill_from None c.

(** [series.fillna(v)]. *)
Definition fillna (v : Z) (c : list cell) : list cell :=
  map (fun x => match x with Some _ => x | None => Some v end) c.

(** [series.shift(1)]. *)
Definition shift1 (c : list cell) : list cell :=
  match c with
  | [] => []
  | _ :: _ => None :: removelast c
  end.

(** Subtraction of two cells and of two columns of one frame; NaN absorbs. *)
Definition cell_sub (x y : cell) : cell :=
  match x, y with
  | Some a, Some b => Some (a - b)
  | _, _ => None
  end.

Definition series_sub (a b : list cell) : list cell :=
  map (fun xy => cell_sub (fst xy) (snd xy)) (combine a b).

(** [series.sum()]: NaN cells are skipped and an empty sum is 0. *)
Definition cell_value (x : cell) : Z :=
  match x with
  | Some v => v
  | None => 0
  end.

Definition sum_skipna (c : list cell) : Z :=
  fold_right (fun x acc => cell_value x + acc) 0 c.

(** ** Reconciliation of one room *)

(** A row of the frame [process_room_data] returns. *)
Record day : Type := mk_day {
  d_date : date;
  d_bankroll : cell;
  d_cashflow : cell;
  d_tournaments : cell;
  d_pure_profit : cell
}.

(** [df.reset_index().rename(columns={'index': 'date'})]: the index becomes
    the [date] column next to the four value columns. *)
Fixpoint reset_index (index : list date) (b c t p : list cell) : list day :=
  match index, b, c, t, p with
  | i :: index', x :: b', y :: c', z :: t', w :: p' =>
      mk_day i x y z w :: reset_index index' b' c' t' p'
  | _, _, _, _, _ => []
  end.

(** [process_room_data(sessions_df, initial_bankroll, init_date, end_date)].
    Reading [df['bankroll'].iloc[0]] fails on an empty grid.  The assignment
    [df['bankroll'].iloc[0] = initial_bankroll] is taken to write into the
    frame, as the comment above it in the source intends. *)
Definition process_room_data (sessions_df : list session)
    (initial_bankroll : Z) (init_date end_date : date) : result (list day) :=
  let full_date_range := date_range init_date end_date in
  df <- reindex sessions_df full_date_range ;;
  first <- iloc0 (column s_bankroll df) ;;
  bankroll <- (if isna first
               then set_iloc0 (Some initial_bankroll) (column s_bankroll df)
               else Ok (column s_bankroll df)) ;;
  let bankroll := ffill bankroll in
  let cashflow := fillna 0 (column s_cashflow df) in
  let tournaments := fillna 0 (column s_tournaments df) in
  shifted_bankroll <- set_iloc0 (Some initial_bankroll) (shift1 bankroll) ;;
  let pure_profit := series_sub (series_sub bankroll cashflow) shifted_bankroll in
  Ok (reset_index full_date_range bankroll cashflow tournaments pure_profit).

(** *** What the reconciliation computes, day by day

    [obs_at df d] is the session recorded on day [d], if any; [filled] is the
    forward-filled balance of the [i]-th grid day and [previous] the balance
    it is compared with. *)
Definition obs_at (df : list session) (d : date) : option session :=
  find (fun s => s_date s =? d) df.

Fixpoint filled (df : list session) (initial : Z) (init : date) (i : nat) : Z :=
  match obs_at df (init + Z.of_nat i) with
  | Some s => s_bankroll s
  | None =>
      match i with
      | O => initial
      | S j => filled df initial init j
      end
  end.

Definition previous (df : list session) (initial : Z) (init : date) (i : nat) : Z :=
  match i with
  | O => initial
  | S j => filled df initial init j
  end.

Definition flow_at (df : list session) (init : date) (i : nat) : Z :=
  match obs_at df (init + Z.of_nat i) with
  | Some s => s_cashflow s
  | None => 0
  end.

Definition activity_at (df : list session) (init : date) (i : nat) : Z :=
  match obs_at df (init + Z.of_nat i) with
  | Some s => s_tournaments s
  | None => 0
  end.

Definition reconciled_day (df : list session) (initial : Z) (init : date)
    (i : nat) : day :=
  mk_day (init + Z.of_nat i)
         (Some (filled df initial init i))
         (Some (flow_at df init i))
         (Some (activity_at df init i))
         (Some (filled df initial init i - flow_at df init i
                - previous df initial init i)).

(** Number of days of the grid from [init] to [stop]. *)
Definition grid_days (init stop : date) : nat := Z.to_nat (stop - init + 1).

(** The bankroll column once its first cell is seeded. *)
Definition seeded (df : list session) (initial : Z) (init : date) (i : nat) : cell :=
  match i with
  | O => match obs_at df init with
         | Some s => Some (s_bankroll s)
         | None => Some initial
         end
  | S _ => option_map s_bankroll (obs_at df (init + Z.of_nat i))
  end.

(** The balance a grid day is compared with, read off the returned rows: the
    balance of the row before it, and [initial] for the first row. *)
Definition previous_balance (rows : list day) (initial : Z) (i : nat) : cell :=
  match i with
  | O => Some initial
  | S j => match nth_error rows j with
           | Some q => d_bankroll q
           | None => None
           end
  end.

(** ** The calendar behind [resample] and [strftime]

    The Gregorian calendar from the month of the first day a pandas
    Timestamp can hold: 1677-09-22, which is day -106751. *)

Definition timestamp_min : date := -106751.

Definition is_leap (y : Z) : bool :=
  (y mod 4 =? 0) && (negb (y mod 100 =? 0) || (y mod 400 =? 0)).

Definition days_in_month (y m : Z) : Z :=
  if m =? 2 then (if is_leap y then 29 else 28)
  else if (m =? 4) || (m =? 6) || (m =? 9) || (m =? 11) then 30
  else 31.

(** The day after (year, month, day). *)
Definition civil_next (c : Z * Z * Z) : Z * Z * Z :=
  let y := fst (fst c) in
  let m := snd (fst c) in
  let d := snd c in
  if d <? days_in_month y m then (y, m, d + 1)
  else if m <? 12 then (y, m + 1, 1)
  else (y + 1, 1, 1).

(** (year, month, day) of day [z], found by stepping over whole months from
    [first], the first day of month [m] of year [y]; a month has at least 28
    days, which bounds the number of steps. *)
Fixpoint civil_go (fuel : nat) (y m : Z) (first z : date) : Z * Z * Z :=
  match fuel with
  | O => (y, m, z - first + 1)
  | S k =>
      let n := days_in_month y m in
      if z <? first + n then (y, m, z - first + 1)
      else if m <? 12 then civil_go k y (m + 1) (first + n) z
      else civil_go k (y + 1) 1 (first + n) z
  end.

(** 1677-09-01, the first day of the month of [timestamp_min]. *)
Definition month_start_min : date := -106772.

Definition civil_from_days (z : date) : Z * Z * Z :=
  civil_go (Z.to_nat ((z - month_start_min) / 28)) 1677 9 month_start_min z.

Definition year_of (d : date) : Z := fst (fst (civil_from_days d)).
Definition month_of (d : date) : Z := snd (fst (civil_from_days d)).
Definition day_of (d : date) : Z := snd (civil_from_days d).

(** A (year, month, day) the calendar has. *)
Definition valid_civil (c : Z * Z * Z) : Prop :=
  1 <= snd (fst c) <= 12 /\
  1 <= snd c <= days_in_month (fst (fst c)) (snd (fst c)).

(** Number of days in the first [k] months of year [y]. *)
Fixpoint days_before (y : Z) (k : nat) : Z :=
  match k with
  | O => 0
  | S j => days_before y j + days_in_month y (Z.of_nat (S j))
  end.

(** [Timestamp.weekday()]: Monday is 0 and Sunday is 6 (1970-01-01 was a
    Thursday). *)
Definition weekday (d : date) : Z := (d + 3) mod 7.

(** Day of the year, from 0 ([tm_yday]). *)
Definition yday (d : date) : Z :=
  days_before (year_of d) (Z.to_nat (month_of d - 1)) + day_of d - 1.

(** [%U]: week of the year with Sunday as first day of the week; the days
    before the first Sunday are in week 0. *)
Definition week_U (d : date) : Z :=
  let wday_sunday0 := (weekday d + 1) mod 7 in
  (yday d + 7 - wday_sunday0) / 7.

(** The ISO 8601 week of a date: the week runs from Monday to Sunday and
    belongs to the year of its Thursday.  This is the numbering the
    specification names; the program never computes it. *)
Definition iso_week (d : date) : Z * Z :=
  let thursday := d - weekday d + 3 in
  (year_of thursday, yday thursday / 7 + 1).

(** Decimal digits, zero padded. *)
Definition digit (n : Z) : string :=
  String (ascii_of_nat (48 + Z.to_nat (n mod 10))) EmptyString.

Definition pad2 (n : Z) : string := (digit (n / 10) ++ digit n)%string.

Definition pad4 (n : Z) : string := (pad2 (n / 100) ++ pad2 (n mod 100))%string.

(** [strftime('Sem. %U %Y')], [strftime('%Y-%m')] and [strftime('%Y')]. *)
Definition strftime_week (d : date) : string :=
  ("Sem. " ++ pad2 (week_U d) ++ " " ++ pad4 (year_of d))%string.

Definition strftime_month (d : date) : string :=
  (pad4 (year_of d) ++ "-" ++ pad2 (month_of d))%string.

Definition strftime_year (d : date) : string := pad4 (year_of d).

(** ** Resampling

    The three rules the program passes to [resample].  All three close a bin
    on its right edge and label it with that edge: ['W-MON'] is the weekly
    frequency anchored on Monday, so a bin ends on a Monday; ['ME'] and ['YE']
    end a bin on the last day of the month and of the year. *)
Inductive rule : Type := W_MON | ME | YE.

Definition week_end_monday (d : date) : date := d + (- weekday d) mod 7.

(** The last day of the month and of the year of a day. *)
Definition month_end (d : date) : date :=
  d + (days_in_month (year_of d) (month_of d) - day_of d).

Definition year_end (d : date) : date :=
  d + (days_before (year_of d) 12 - 1 - yday d).

Definition bin_label (r : rule) (d : date) : date :=
  match r with
  | W_MON => week_end_monday d
  | ME => month_end d
  | YE => year_end d
  end.

Definition list_min (x : Z) (l : list Z) : Z := fold_left Z.min l x.
Definition list_max (x : Z) (l : list Z) : Z := fold_left Z.max l x.

(** [frame.set_index('date').resample(rule).agg({column: 'sum'}).reset_index()]:
    one row per bin between the earliest and the latest date of the frame, in
    order, holding the sum of the column over the rows of the bin. *)
Definition resample_sum {A : Type} (date_of : A -> date) (value : A -> Z)
    (r : rule) (data : list A) : list (date * Z) :=
  match map date_of data with
  | [] => []
  | d0 :: ds =>
      let bins := nodup Z.eq_dec
                    (map (bin_label r) (date_range (list_min d0 ds) (list_max d0 ds))) in
      map (fun b =>
             (b, fold_right Z.add 0
                   (map value (filter (fun x => bin_label r (date_of x) =? b) data))))
          bins
  end.

(** The label drawn under a bar of the chart. *)
Definition date_label (r : rule) (b : date) : string :=
  match r with
  | W_MON => strftime_week b
  | ME => strftime_month b
  | YE => strftime_year b
  end.

(** The frame plotted by the "Profit net" and "Tournois" tabs of
    [room_stats]. *)
Definition room_profit_chart (r : rule) (data : list day) : list (string * Z) :=
  map (fun bv => (date_label r (fst bv), snd bv))
      (resample_sum d_date (fun x => cell_value (d_pure_profit x)) r data).

Definition room_tournaments_chart (r : rule) (data : list day) : list (string * Z) :=
  map (fun bv => (date_label r (fst bv), snd bv))
      (resample_sum d_date (fun x => cell_value (d_tournaments x)) r data).

(** ** The merge of all rooms in [global_stats] *)

(** A row of a frame of [processed_room_dfs]: the columns of [day] and the
    four columns the loop adds. *)
Record global_day : Type := mk_global_day {
  g_day : day;
  g_is_original_session : bool;
  g_daily_profit : cell;
  g_room_id : Z;
  g_room_name : string
}.

Definition add_columns (rows : list day) (is_original : list bool)
    (daily_profit : list cell) (room_id : Z) (room_name : string)
  : list global_day :=
  map (fun x => mk_global_day (fst (fst x)) (snd (fst x)) (snd x) room_id room_name)
      (combine (combine rows is_original) daily_profit).

(** [index.min()] and [series.loc[label] = v]. *)
Definition index_min (idx : list date) : option date :=
  match idx with
  | [] => None
  | d :: rest => Some (list_min d rest)
  end.

Definition set_loc (index : list date) (label : date) (v : cell) (c : list cell)
  : list cell :=
  map (fun dx => if fst dx =? label then v else snd dx) (combine index c).

(** The body of the loop over the rooms; [Ok None] is [continue]. *)
Definition process_room_global (all_sessions_df : list session)
    (full_date_range : list date) (r : room) : result (option (list global_day)) :=
  let initial_bankroll := r_initial_bankroll r in
  let room_init_date := r_init_date r in
  let original_room_sessions_df :=
    filter (fun s => s_room_id s =? r_id r) all_sessions_df in
  let room_specific_date_range :=
    filter (fun d => room_init_date <=? d) full_date_range in
  match room_specific_date_range with
  | [] => Ok None
  | _ :: _ =>
      room_sessions_df <- reindex original_room_sessions_df room_specific_date_range ;;
      let is_original_session :=
        map (fun x => negb (isna x)) (column s_bankroll room_sessions_df) in
      first <- iloc0 (column s_bankroll room_sessions_df) ;;
      bankroll <- (if isna first
                   then set_iloc0 (Some initial_bankroll)
                          (column s_bankroll room_sessions_df)
                   else Ok (column s_bankroll room_sessions_df)) ;;
      let bankroll := ffill bankroll in
      let cashflow := fillna 0 (column s_cashflow room_sessions_df) in
      let tournaments := fillna 0 (column s_tournaments room_sessions_df) in
      let shifted_bankroll := shift1 bankroll in
      let shifted_bankroll :=
        match index_min room_specific_date_range with
        | Some m =>
            if m =? room_init_date
            then set_loc room_specific_date_range room_init_date
                   (Some initial_bankroll) shifted_bankroll
            else shifted_bankroll
        | None => shifted_bankroll
        end in
      let pure_profit :=
        series_sub (series_sub bankroll cashflow) shifted_bankroll in
      let daily_profit := series_sub bankroll (fillna 0 shifted_bankroll) in
      Ok (Some (add_columns
                  (reset_index room_specific_date_range
                     bankroll cashflow tournaments pure_profit)
                  is_original_session daily_profit (r_id r) (r_name r)))
  end.

Fixpoint process_rooms (all_sessions_df : list session)
    (full_date_range : list date) (rooms : list room)
  : result (list (list global_day)) :=
  match rooms with
  | [] => Ok []
  | r :: rest =>
      f <- process_room_global all_sessions_df full_date_range r ;;
      fs <- process_rooms all_sessions_df full_date_range rest ;;
      Ok (match f with
          | Some frame => frame :: fs
          | None => fs
          end)
  end.

(** [df.groupby('date')]: the distinct dates in increasing order. *)
Fixpoint insert_key (d : date) (keys : list date) : list date :=
  match keys with
  | [] => [d]
  | k :: rest =>
      if d <? k then d :: keys
      else if d =? k then keys
      else k :: insert_key d rest
  end.

Definition group_keys (dates : list date) : list date :=
  fold_right insert_key [] dates.

(** A row of [data]: date, total_bankroll, pure_profit, total_tournaments. *)
Record total : Type := mk_total {
  t_date : date;
  t_total_bankroll : Z;
  t_pure_profit : Z;
  t_total_tournaments : Z
}.

Definition group_of (d : date) (df : list global_day) : list global_day :=
  filter (fun x => d_date (g_day x) =? d) df.

Definition groupby_date_sum (df : list global_day) : list total :=
  map (fun d =>
         let g := group_of d df in
         mk_total d
           (sum_skipna (map (fun x => d_bankroll (g_day x)) g))
           (sum_skipna (map (fun x => d_pure_profit (g_day x)) g))
           (sum_skipna (map (fun x => d_tournaments (g_day x)) g)))
      (group_keys (map (fun x => d_date (g_day x)) df)).

(** [full_date_range]: from the earliest start date of a room or date of a
    session to [today], which is [pd.Timestamp.now().floor('D')]. *)
Definition overall_date_range (rooms : list room) (all_sessions_df : list session)
    (today : date) : list date :=
  let min_date_room :=
    match map r_init_date rooms with
    | [] => today
    | d :: ds => list_min d ds
    end in
  let min_date_session :=
    match map s_date all_sessions_df with
    | [] => today
    | d :: ds => list_min d ds
    end in
  let min_overall_date := Z.min min_date_room min_date_session in
  let max_overall_date := today in
  date_range min_overall_date max_overall_date.

(** The list [processed_room_dfs] when the loop over the rooms is over. *)
Definition processed_room_dfs (rooms : list room) (all_sessions_df : list session)
    (today : date) : result (list (list global_day)) :=
  process_rooms all_sessions_df
    (overall_date_range rooms all_sessions_df today) rooms.

(** The frame [data] of [global_stats]; [Ok None] when the page stops on a
    warning. *)
Definition global_stats (rooms : list room) (all_sessions_df : list session)
    (today : date) : result (option (list total)) :=
  match rooms with
  | [] => Ok None
  | _ :: _ =>
      dfs <- processed_room_dfs rooms all_sessions_df today ;;
      match dfs with
      | [] => Ok None
      | _ :: _ => Ok (Some (groupby_date_sum (List.concat dfs)))
      end
  end.

(** *** What the loop computes for one room

    The frame appended for a room whose grid has [n] days: the reconciled
    rows, the flag of the days that have a session, and the raw change of the
    balance. *)
Definition global_frame (df : list session) (initial : Z) (init : date)
    (room_id : Z) (room_name : string) (n : nat) : list global_day :=
  map (fun i =>
         mk_global_day (reconciled_day df initial init i)
           (negb (isna (option_map s_bankroll (obs_at df (init + Z.of_nat i)))))
           (Some (filled df initial init i - previous df initial init i))
           room_id room_name)
      (seq 0 n).

Definition frame_of (all_sessions_df : list session) (today : date) (r : room)
  : list global_day :=
  global_frame (filter (fun s => s_room_id s =? r_id r) all_sessions_df)
    (r_initial_bankroll r) (r_init_date r) (r_id r) (r_name r)
    (grid_days (r_init_date r) today).

(** The row a room contributes to the group of day [d]. *)
Definition room_row (ss : list session) (r : room) (d : date) : day :=
  reconciled_day (filter (fun s => s_room_id s =? r_id r) ss)
    (r_initial_bankroll r) (r_init_date r) (Z.to_nat (d - r_init_date r)).

(** The reconciled row of room [r] for day [d], as [process_room_data]
    computes it from the sessions of that room up to [today]. *)
Definition reconciled_at (all_sessions_df : list session) (today : date)
    (r : room) (d : date) : option day :=
  match process_room_data
          (filter (fun s => s_room_id s =? r_id r) all_sessions_df)
          (r_initial_bankroll r) (r_init_date r) today with
  | Ok rows => find (fun x => d_date x =? d) rows
  | Raise _ => None
  end.

(** The rooms active on day [d]: those that started on or before it. *)
Definition active_rooms (rooms : list room) (d : date) : list room :=
  filter (fun r => r_init_date r <=? d) rooms.

(** ** The ledger: three tables and the buttons that write them *)

(** What is written in [old_value] and [new_value]: the text of a row, of
    [None], of the dictionary built by [add_session], or a fixed word. *)
Inductive value : Type :=
| RoomTuple (r : room)
| SessionTuple (s : session)
| NoneText
| SessionDict (d : date) (tournaments cashflow bankroll : Z)
| Literal (s : string).

(** A row of [edits_history], without its own id and its [edit_time]. *)
Record edit : Type := mk_edit {
  e_table_name : string;
  e_record_id : Z;
  e_old_value : value;
  e_new_value : value;
  e_user_action : string
}.

Record db : Type := mk_db {
  rooms : list room;
  sessions : list session;
  edits_history : list edit
}.

(** The rowid SQLite gives to a row inserted without an id: one more than the
    largest in use, 1 in an empty table. *)
Definition next_rowid (ids : list Z) : Z :=
  match ids with
  | [] => 1
  | i :: rest => list_max i rest + 1
  end.

Definition same_key (room_id : Z) (d : date) (s : session) : bool :=
  (s_room_id s =? room_id) && (s_date s =? d).

(** [INSERT INTO rooms (name, initial_bankroll, init_date)]: the name is
    UNIQUE.  Returns the table and [lastrowid]. *)
Definition insert_room (rs : list room) (name : string) (br : Z) (init_date : date)
  : result (list room * Z) :=
  if existsb (fun r => String.eqb (r_name r) name) rs
  then Raise IntegrityError
  else let id := next_rowid (map r_id rs) in
       Ok (rs ++ [mk_room id name br init_date], id).

(** [INSERT INTO sessions (room_id, date, tournaments, cashflow, bankroll)]:
    (room_id, date) is UNIQUE. *)
Definition insert_session (ss : list session) (room_id : Z) (d : date)
    (tournaments cashflow bankroll : Z) : result (list session * Z) :=
  if existsb (same_key room_id d) ss
  then Raise IntegrityError
  else let id := next_rowid (map s_id ss) in
       Ok (ss ++ [mk_session id room_id d tournaments cashflow bankroll], id).

(** The "Valider" button of [setup_rooms] for one room.  The two inserts are
    committed together; on [IntegrityError] the connection is closed without
    a commit and the page shows a warning ([false]). *)
Definition setup_rooms (st : db) (room : string) (br : Z) (init_date : date)
  : db * bool :=
  match (ins <- insert_room (rooms st) room br init_date ;;
         let room_id := snd ins in
         ins' <- insert_session (sessions st) room_id init_date 0 0 br ;;
         Ok (mk_db (fst ins) (fst ins') (edits_history st))) with
  | Ok st' => (st', true)
  | Raise _ => (st, false)
  end.

(** The upsert of [add_session], run through a cursor of a connection that
    was just opened.  After [execute] of an INSERT statement the sqlite3
    module sets [lastrowid] to [sqlite3_last_insert_rowid()] of the
    connection: the rowid of the latest row inserted through it, and 0 while
    nothing was inserted.  The DO UPDATE branch changes a row and inserts
    none, so it leaves that number at 0; [lastrowid] is [None] only before
    the first [execute]. *)
Definition upsert_session (ss : list session) (room_id : Z) (d : date)
    (tournaments cashflow bankroll : Z) : list session * option Z :=
  if existsb (same_key room_id d) ss
  then (map (fun s =>
               if same_key room_id d s
               then mk_session (s_id s) (s_room_id s) (s_date s)
                      (s_tournaments s + tournaments)
                      (s_cashflow s + cashflow)
                      bankroll
               else s) ss,
        Some 0)
  else let id := next_rowid (map s_id ss) in
       (ss ++ [mk_session id room_id d tournaments cashflow bankroll], Some id).

(** The "Enregistrer la session" button of [add_session].  An exception
    rolls the transaction back. *)
Definition add_session (st : db) (room_id : Z) (d : date)
    (tournaments cashflow bankroll : Z) : db :=
  let up := upsert_session (sessions st) room_id d tournaments cashflow bankroll in
  let sessions' := fst up in
  let lastrowid := snd up in
  match (match lastrowid with
         | None =>
             match find (same_key room_id d) sessions' with
             | Some s => Ok (s_id s, "UPDATE"%string)
             | None => Raise ValueError
             end
         | Some session_id => Ok (session_id, "CREATE"%string)
         end) with
  | Ok (session_id, action_type) =>
      let old_value_str :=
        if String.eqb action_type "CREATE"
        then Literal "INITIAL_INSERT"
        else Literal "PREVIOUS_STATE_NOT_CAPTURED" in
      let new_value_dict := SessionDict d tournaments cashflow bankroll in
      mk_db (rooms st) sessions'
            (edits_history st ++
             [mk_edit "sessions" session_id old_value_str new_value_dict action_type])
  | Raise _ => st
  end.

(** The "Supprimer la Room et ses sessions" button of [delete_room]. *)
Definition delete_room (st : db) (room_id : Z) : db :=
  let old_room_data := find (fun r => r_id r =? room_id) (rooms st) in
  let history :=
    edits_history st ++
    [mk_edit "rooms" room_id
       (match old_room_data with Some r => RoomTuple r | None => NoneText end)
       (Literal "DELETED") "DELETE"] in
  let session_data := filter (fun s => s_room_id s =? room_id) (sessions st) in
  let history :=
    history ++
    map (fun s => mk_edit "sessions" (s_id s) (SessionTuple s)
                    (Literal "DELETED") "DELETE_CASCADE") session_data in
  mk_db (filter (fun r => negb (r_id r =? room_id)) (rooms st))
        (filter (fun s => negb (s_room_id s =? room_id)) (sessions st))
        history.

(** The rows [room_stats] reads for a room (its sessions dated on or after
    its start date) and the frame it reconciles up to [today].  ORDER BY only
    sorts the rows, and they are looked up by date. *)
Definition room_sessions (st : db) (r : room) : list session :=
  filter (fun s => (s_room_id s =? r_id r) && (r_init_date r <=? s_date s))
         (sessions st).

Definition room_stats (st : db) (r : room) (today : date) : result (list day) :=
  process_room_data (room_sessions st r) (r_initial_bankroll r) (r_init_date r) today.

(** The constraint UNIQUE(room_id, date) of the [sessions] table. *)
Fixpoint unique_keys (ss : list session) : bool :=
  match ss with
  | [] => true
  | s :: rest =>
      negb (existsb (same_key (s_room_id s) (s_date s)) rest) && unique_keys rest
  end.

(** ** Weeks as the specification describes them

    The Monday that opens the week of a day, and the label a weekly bar would
    carry if it showed the ISO week and year of that day. *)
Definition monday_of (d : date) : date := d - weekday d.

Definition iso_week_label (d : date) : string :=
  ("Sem. " ++ pad2 (snd (iso_week d)) ++ " " ++ pad4 (fst (iso_week d)))%string.

(** Sum of a column over the rows of a frame. *)
Definition total_of {A : Type} (value : A -> Z) (l : list A) : Z :=
  fold_right Z.add 0 (map value l).

(** ** Sample data

    Two rooms and their sessions in the first days of January 2024; day 19723
    is 2024-01-01. *)
Definition sample_rooms : list room :=
  [mk_room 1 "Winamax" 100 19723; mk_room 2 "PMU" 10 19725].

Definition sample_sessions : list session :=
  [mk_session 1 1 19725 0 50 170; mk_session 2 2 19725 0 0 10;
   mk_session 3 2 19726 1 0 30].

Definition sample_db : db := mk_db sample_rooms sample_sessions [].

Definition empty_db : db := mk_db [] [] [].

(** ** The other pages of the program *)

(** *** [get_room_bankroll] *)

(** [ORDER BY date DESC LIMIT 1]: the row with the latest date.  The rows of
    one room have different dates, so there is no tie to break. *)
Fixpoint latest_session (ss : list session) : option session :=
  match ss with
  | [] => None
  | s :: rest =>
      match latest_session rest with
      | Some t => if s_date s <? s_date t then Some t else Some s
      | None => Some s
      end
  end.

(** [SELECT ... FROM sessions WHERE room_id = ?]. *)
Definition sessions_of (st : db) (room_id : Z) : list session :=
  filter (fun s => s_room_id s =? room_id) (sessions st).

(** [get_room_bankroll(room_id)]: the bankroll of the latest session of the
    room, 0 when it has none. *)
Definition get_room_bankroll (st : db) (room_id : Z) : Z :=
  match latest_session (sessions_of st room_id) with
  | Some s => s_bankroll s
  | None => 0
  end.

(** *** [dashboard] *)

(** A row of the query of [dashboard]. *)
Record dashboard_row : Type := mk_dashboard_row {
  k_name : string;
  k_initial_bankroll : Z;
  k_init_date : date;
  k_current_bankroll : Z;
  k_last_cashflow : Z;
  k_total_sessions : Z;
  k_total_tournaments : Z;
  k_gross_profit : Z;
  k_net_profit : Z
}.

(** The row of room [r]: [last_sessions] with [rn = 1] is its latest session,
    [room_stats] the count and sums over its sessions; COALESCE supplies the
    initial bankroll and 0 for a room without session. *)
Definition dashboard_row_of (st : db) (r : room) : dashboard_row :=
  let mine := sessions_of st (r_id r) in
  let ls := latest_session mine in
  let current_bankroll :=
    match ls with
    | Some s => s_bankroll s
    | None => r_initial_bankroll r
    end in
  let total_cashflow := total_of s_cashflow mine in
  mk_dashboard_row (r_name r) (r_initial_bankroll r) (r_init_date r)
    current_bankroll
    (match ls with Some s => s_cashflow s | None => 0 end)
    (Z.of_nat (List.length mine))
    (total_of s_tournaments mine)
    (current_bankroll - r_initial_bankroll r)
    ((current_bankroll - total_cashflow) - r_initial_bankroll r).

(** [ORDER BY r.name]. *)
Fixpoint insert_by_name (x : dashboard_row) (l : list dashboard_row)
  : list dashboard_row :=
  match l with
  | [] => [x]
  | y :: rest =>
      if String.leb (k_name x) (k_name y) then x :: l
      else y :: insert_by_name x rest
  end.

Definition order_by_name (l : list dashboard_row) : list dashboard_row :=
  fold_right insert_by_name [] l.

(** [rooms_data], the rows the page shows. *)
Definition dashboard (st : db) : list dashboard_row :=
  order_by_name (map (dashboard_row_of st) (rooms st)).

(** The totals above the table: initial and current bankroll, net profit and
    tournaments (the percentage next to the profit is not modelled). *)
Definition dashboard_totals (st : db) : Z * Z * Z * Z :=
  let df_rooms := dashboard st in
  (total_of k_initial_bankroll df_rooms,
   total_of k_current_bankroll df_rooms,
   total_of k_net_profit df_rooms,
   total_of k_total_tournaments df_rooms).

(** *** The daily profit chart and the figures of [global_stats] *)

(** [series.cumsum()]: NaN cells stay NaN and add nothing. *)
Fixpoint cumsum_from (acc : Z) (c : list cell) : list cell :=
  match c with
  | [] => []
  | Some v :: rest => Some (acc + v) :: cumsum_from (acc + v) rest
  | None :: rest => None :: cumsum_from acc rest
  end.

Definition cumsum (c : list cell) : list cell := cumsum_from 0 c.

(** The column [cumulative_pure_profit] of the "Journalier" chart of
    [room_stats]. *)
Definition cumulative_pure_profit (data : list day) : list cell :=
  cumsum (map d_pure_profit data).

(** The three figures of "Synthèse Globale": [current_bankroll] is
    [data['total_bankroll'].iloc[-1]], the two others are sums of columns of
    [data]; nothing is shown for an empty frame. *)
Definition global_synthesis (data : list total) : option (Z * Z * Z) :=
  match data with
  | [] => None
  | t :: rest =>
      Some (t_total_bankroll (last rest t),
            total_of t_pure_profit data,
            total_of t_total_tournaments data)
  end.

(** *** [session_history] and [edit_initial_bankroll]

    Both write to the history the text Python's [str] gives for a tuple.
    These texts are parameters: [str_view] for (date, room name, tournaments,
    cashflow, bankroll), [str_new] for (date, tournaments, cashflow,
    bankroll) and [str_initial] for (initial bankroll, start date). *)

(** The row "Charger la session" keeps: id, date, room name, tournaments,
    cashflow, bankroll. *)
Record session_view : Type := mk_session_view {
  v_id : Z;
  v_date : date;
  v_room : string;
  v_tournaments : Z;
  v_cashflow : Z;
  v_bankroll : Z
}.

(** [SELECT ... FROM sessions s JOIN rooms r ON s.room_id = r.id
    WHERE s.id = ?]: a session whose room is missing is not found. *)
Definition load_session (st : db) (session_id : Z) : option session_view :=
  match find (fun s => s_id s =? session_id) (sessions st) with
  | Some s =>
      match find (fun r => r_id r =? s_room_id s) (rooms st) with
      | Some r =>
          Some (mk_session_view (s_id s) (s_date s) (r_name r)
                  (s_tournaments s) (s_cashflow s) (s_bankroll s))
      | None => None
      end
  | None => None
  end.

(** [UPDATE sessions SET date = ?, tournaments = ?, cashflow = ?,
    bankroll = ? WHERE id = ?]: refused when another row of the same room
    already has the new date. *)
Definition update_session_row (ss : list session) (session_id : Z)
    (new_date : date) (new_tournaments new_cashflow new_bankroll : Z)
  : result (list session) :=
  if existsb (fun s =>
                (s_id s =? session_id)
                && existsb (fun o => negb (s_id o =? session_id)
                                     && same_key (s_room_id s) new_date o) ss)
             ss
  then Raise IntegrityError
  else Ok (map (fun s =>
                  if s_id s =? session_id
                  then mk_session (s_id s) (s_room_id s) new_date
                         new_tournaments new_cashflow new_bankroll
                  else s) ss).

Section Rendering.
Variable str_view : date -> string -> Z -> Z -> Z -> value.
Variable str_new : date -> Z -> Z -> Z -> value.
Variable str_initial : Z -> date -> value.

(** "Enregistrer les modifications": [session_data] is the row loaded
    earlier, [session_id] the number in the input field now.  The history
    entry is written first; an exception rolls both writes back. *)
Definition save_session (st : db) (session_data : session_view)
    (session_id : Z) (new_date : date)
    (new_tournaments new_cashflow new_bankroll : Z) : db :=
  let history :=
    edits_history st ++
    [mk_edit "sessions" session_id
       (str_view (v_date session_data) (v_room session_data)
          (v_tournaments session_data) (v_cashflow session_data)
          (v_bankroll session_data))
       (str_new new_date new_tournaments new_cashflow new_bankroll)
       "UPDATE"] in
  match update_session_row (sessions st) session_id new_date
          new_tournaments new_cashflow new_bankroll with
  | Ok sessions' => mk_db (rooms st) sessions' history
  | Raise _ => st
  end.

(** "Supprimer la session"; [false] is the warning "Session introuvable". *)
Definition delete_session (st : db) (session_id_to_delete : Z) : db * bool :=
  match load_session st session_id_to_delete with
  | Some old_session =>
      (mk_db (rooms st)
         (filter (fun s => negb (s_id s =? session_id_to_delete)) (sessions st))
         (edits_history st ++
          [mk_edit "sessions" session_id_to_delete
             (str_view (v_date old_session) (v_room old_session)
                (v_tournaments old_session) (v_cashflow old_session)
                (v_bankroll old_session))
             (Literal "DELETED") "DELETE"]),
       true)
  | None => (st, false)
  end.

(** "Enregistrer" of [edit_initial_bankroll]; [room_data] is the row of the
    room chosen in the list. *)
Definition edit_initial_bankroll (st : db) (room_data : room) (new_br : Z)
    (new_date : date) : db :=
  mk_db
    (map (fun r =>
            if r_id r =? r_id room_data
            then mk_room (r_id r) (r_name r) new_br new_date
            else r) (rooms st))
    (sessions st)
    (edits_history st ++
     [mk_edit "rooms" (r_id room_data)
        (str_initial (r_initial_bankroll room_data) (r_init_date room_data))
        (str_initial new_br new_date)
        "UPDATE_INITIAL_BR_DATE"]).

End Rendering.

(** *** The table of [session_history]

    The query behind the table, for the filter "Toutes".  [LAG(e, 1, d) OVER
    (PARTITION BY s.room_id ORDER BY s.date)] is [e] on the session of the
    same room that comes just before in date, and [d] for the first session
    of a room.  The join keeps the sessions whose room exists.  The order of
    the rows of the table (ORDER BY s.date DESC) is not modelled. *)
Definition previous_session (ss : list session) (s : session) : option session :=
  latest_session
    (filter (fun o => s_date o <? s_date s)
            (filter (fun o => s_room_id o =? s_room_id s) ss)).

Record history_row : Type := mk_history_row {
  h_id : Z;
  h_room : string;
  h_date : date;
  h_tournaments : Z;
  h_cashflow : Z;
  h_bankroll : Z;
  h_session_profit : Z;
  h_pure_profit : Z
}.

Definition history_row_of (st : db) (r : room) (s : session) : history_row :=
  let lag (e : session -> Z) :=
    match previous_session (sessions st) s with
    | Some p => e p
    | None => r_initial_bankroll r
    end in
  mk_history_row (s_id s) (r_name r) (s_date s)
    (s_tournaments s) (s_cashflow s) (s_bankroll s)
    (s_bankroll s - lag s_bankroll)
    ((s_bankroll s - s_cashflow s) - lag (fun p => s_bankroll p - s_cashflow p)).

Definition session_history (st : db) : list history_row :=
  flat_map (fun s =>
              match find (fun r => r_id r =? s_room_id s) (rooms st) with
              | Some r => [history_row_of st r s]
              | None => []
              end)
           (sessions st).

(** A room with a deposit of 50 on its first day and 10 won on the second. *)
Definition deposit_room : room := mk_room 1 "Winamax" 100 19723.

Definition deposit_session : session := mk_session 2 1 19724 3 0 160.

Definition deposit_db : db :=
  mk_db [deposit_room] [mk_session 1 1 19723 0 50 150; deposit_session] [].

(** The sessions of a room dated from its start date to [today], and the
    balance the room has on [today]: the bankroll of the latest of these
    sessions, or the initial bankroll of the room. *)
Definition in_period (ss : list session) (today : date) (r : room) : list session :=
  filter (fun s => (r_init_date r <=? s_date s) && (s_date s <=? today))
         (filter (fun s => s_room_id s =? r_id r) ss).

Definition balance_on (ss : list session) (today : date) (r : room) : Z :=
  match latest_session (in_period ss today r) with
  | Some s => s_bankroll s
  | None => r_initial_bankroll r
  end.

(** *** The constraints of the tables

    Primary keys, the UNIQUE name of a room and the UNIQUE (room_id, date)
    of a session. *)
Definition wf_db (st : db) : Prop :=
  unique_keys (sessions st) = true /\
  NoDup (map s_id (sessions st)) /\
  NoDup (map r_id (rooms st)) /\
  NoDup (map r_name (rooms st)).

(** The history only grows: [old] is the beginning of [new]. *)
Definition extends (old new : list edit) : Prop :=
  exists added, new = old ++ added.

(** When the UPDATE is refused: another session of the room of the session
    edited already has the new date. *)
Definition date_taken (ss : list session) (session_id : Z) (new_date : date)
  : Prop :=
  exists s o, In s ss /\ In o ss /\ s_id s = session_id /\
              s_id o <> session_id /\
              s_room_id o = s_room_id s /\ s_date o = new_date.

(** * Properties *)

(** ** Columns as functions of the position *)

Lemma reset_index_map {A : Type} (l : list A) (fi : A -> date)
    (fb fc ft fp : A -> cell) :
  reset_index (map fi l) (map fb l) (map fc l) (map ft l) (map fp l)
  = map (fun x => mk_day (fi x) (fb x) (fc x) (ft x) (fp x)) l.
Proof.
  induction l as [|x l IH]; simpl; [reflexivity|].
  now rewrite IH.
Qed.

Lemma series_sub_map {A : Type} (l : list A) (f g : A -> cell) :
  series_sub (map f l) (map g l) = map (fun x => cell_sub (f x) (g x)) l.
Proof.
  unfold series_sub.
  induction l as [|x l IH]; simpl; [reflexivity|].
  now rewrite IH.
Qed.

Lemma removelast_map_seq {A : Type} (f : nat -> A) (n : nat) :
  removelast (map f (seq 0 (S n))) = map f (seq 0 n).
Proof.
  rewrite seq_S, map_app. simpl.
  apply removelast_last.
Qed.

Lemma ffill_from_seq (g : nat -> cell) (v : nat -> Z) :
  (forall i, g (S i) = None -> v (S i) = v i) ->
  (forall i x, g i = Some x -> v i = x) ->
  forall m k last,
    (k = O -> g O <> None) ->
    (forall j, k = S j -> last = Some (v j)) ->
    ffill_from last (map g (seq k m)) = map (fun i => Some (v i)) (seq k m).
Proof.
  intros Hstep Hobs m.
  induction m as [|m IH]; intros k last H0 HS; simpl; [reflexivity|].
  assert (Hv : match g k with Some _ => g k | None => last end = Some (v k)).
  { destruct (g k) as [x|] eqn:E.
    - now rewrite (Hobs k x E).
    - destruct k as [|j]; [now elim (H0 eq_refl)|].
      rewrite (HS j eq_refl). now rewrite (Hstep j E). }
  rewrite Hv. f_equal.
  apply IH; [discriminate|].
  intros j Hj. now inversion Hj.
Qed.

Lemma map_seq_tail {A : Type} (f g : nat -> A) (m : nat) :
  (forall i, g (S i) = f (S i)) ->
  map g (seq 1 m) = map f (seq 1 m).
Proof.
  intros H. apply map_ext_in. intros i Hi.
  apply in_seq in Hi. destruct i as [|i]; [lia|apply H].
Qed.

Lemma iloc0_map_seq (g : nat -> cell) (m : nat) :
  iloc0 (map g (seq 0 (S m))) = Ok (g O).
Proof. reflexivity. Qed.

Lemma set_iloc0_map_seq (v : cell) (g : nat -> cell) (m : nat) :
  set_iloc0 v (map g (seq 0 (S m)))
  = Ok (map (fun i => match i with O => v | S _ => g i end) (seq 0 (S m))).
Proof.
  cbn [seq map set_iloc0]. do 2 f_equal.
  apply map_seq_tail. reflexivity.
Qed.

Lemma shift1_map_seq (h : nat -> cell) (m : nat) :
  shift1 (map h (seq 0 (S m)))
  = map (fun i => match i with O => None | S j => h j end) (seq 0 (S m)).
Proof.
  unfold shift1.
  change (map h (seq 0 (S m))) with (h O :: map h (seq 1 m)) at 1.
  cbv iota. rewrite removelast_map_seq.
  cbn [seq map]. f_equal.
  rewrite <- seq_shift, map_map. reflexivity.
Qed.

Lemma filled_seeded_none df initial init i :
  seeded df initial init (S i) = None ->
  filled df initial init (S i) = filled df initial init i.
Proof.
  unfold seeded. cbn [filled].
  destruct (obs_at df (init + Z.of_nat (S i))); [discriminate|reflexivity].
Qed.

Lemma filled_seeded_some df initial init i x :
  seeded df initial init i = Some x -> filled df initial init i = x.
Proof.
  destruct i as [|i]; unfold seeded; cbn [filled].
  - replace (init + Z.of_nat 0) with init by (simpl; lia).
    destruct (obs_at df init); intros H; now inversion H.
  - destruct (obs_at df (init + Z.of_nat (S i))); simpl; intros H;
      [now inversion H|discriminate].
Qed.

Lemma grid_days_pos init stop :
  init <= stop -> exists m, grid_days init stop = S m.
Proof.
  intros H. unfold grid_days.
  destruct (Z.to_nat (stop - init + 1)) as [|m] eqn:E; [lia|now exists m].
Qed.

(** Seeding the first cell of the reindexed bankroll column. *)
Lemma seed_first_cell df initial init m :
  let c := map (fun i => option_map s_bankroll (obs_at df (init + Z.of_nat i)))
               (seq 0 (S m)) in
  (first <- iloc0 c ;;
   (if isna first then set_iloc0 (Some initial) c else Ok c))
  = Ok (map (seeded df initial init) (seq 0 (S m))).
Proof.
  intros c. subst c. rewrite iloc0_map_seq. cbn [bind].
  replace (init + Z.of_nat 0) with init by (simpl; lia).
  destruct (obs_at df init) as [s|] eqn:E; cbn [option_map isna].
  - f_equal. apply map_ext_in. intros i _. destruct i as [|i]; [|reflexivity].
    unfold seeded. replace (init + Z.of_nat 0) with init by (simpl; lia).
    now rewrite E.
  - rewrite set_iloc0_map_seq. f_equal. apply map_ext. intros i.
    destruct i as [|i]; [|reflexivity].
    unfold seeded. now rewrite E.
Qed.

Lemma seed_then {C : Type} df initial init m (k : list cell -> result C) :
  let c := map (fun i => option_map s_bankroll (obs_at df (init + Z.of_nat i)))
               (seq 0 (S m)) in
  (first <- iloc0 c ;;
   bankroll <- (if isna first then set_iloc0 (Some initial) c else Ok c) ;;
   k bankroll)
  = k (map (seeded df initial init) (seq 0 (S m))).
Proof.
  intros c. pose proof (seed_first_cell df initial init m) as H.
  cbv zeta in H. fold c in H.
  destruct (iloc0 c) as [first|e]; cbn [bind] in H |- *; [|discriminate].
  now rewrite H.
Qed.

(** With unique session dates and a grid of at least one day, the pipeline of
    [process_room_data] returns the rows [reconciled_day 0 .. n-1]. *)
Lemma process_room_data_spec df initial init stop :
  is_unique (map s_date df) = true ->
  init <= stop ->
  process_room_data df initial init stop
  = Ok (map (reconciled_day df initial init) (seq 0 (grid_days init stop))).
Proof.
  intros Hu Hle.
  destruct (grid_days_pos init stop Hle) as [m Hm].
  unfold process_room_data, reindex, date_range. rewrite Hu.
  fold (grid_days init stop). rewrite Hm. cbn [bind].
  unfold column. rewrite !map_map.
  refine (eq_trans (seed_then df initial init m _) _).
  unfold ffill.
  rewrite (ffill_from_seq (seeded df initial init) (filled df initial init)
             (filled_seeded_none df initial init)
             (filled_seeded_some df initial init) (S m) O None).
  2:{ intros _. unfold seeded. destruct (obs_at df init); discriminate. }
  2:{ intros j Hj; discriminate. }
  rewrite shift1_map_seq, set_iloc0_map_seq. cbn [bind].
  unfold fillna. rewrite !map_map.
  rewrite !series_sub_map, reset_index_map.
  f_equal. apply map_ext. intros i.
  unfold reconciled_day, flow_at, activity_at, obs_at.
  destruct (find (fun s => s_date s =? init + Z.of_nat i) df);
    destruct i; reflexivity.
Qed.

(** ** The reconciled series of one room *)

Lemma nth_error_map_seq {A : Type} (f : nat -> A) (n i : nat) (x : A) :
  nth_error (map f (seq 0 n)) i = Some x -> (i < n)%nat /\ x = f i.
Proof.
  intros H.
  assert (Hi : (i < n)%nat).
  { assert (Hn : nth_error (map f (seq 0 n)) i <> None) by congruence.
    apply nth_error_Some in Hn. now rewrite length_map, length_seq in Hn. }
  split; [exact Hi|].
  rewrite nth_error_map, nth_error_seq in H.
  apply Nat.ltb_lt in Hi. rewrite Hi in H. simpl in H. now inversion H.
Qed.

Lemma nth_error_map_seq_lt {A : Type} (f : nat -> A) (n i : nat) :
  (i < n)%nat -> nth_error (map f (seq 0 n)) i = Some (f i).
Proof.
  intros Hi. rewrite nth_error_map, nth_error_seq.
  apply Nat.ltb_lt in Hi. now rewrite Hi.
Qed.

Lemma grid_days_length init stop :
  init <= stop -> Z.of_nat (grid_days init stop) = stop - init + 1.
Proof. intros H. unfold grid_days. lia. Qed.

(** C2: when the room started on or before the end date, the reconciled
    series has (stop - init) + 1 rows, one for each day from [init] to [stop]
    in order, whatever sessions were recorded. *)
Theorem grid_complete (df : list session) (initial : Z) (init stop : date) :
  is_unique (map s_date df) = true ->
  init <= stop ->
  exists rows,
    process_room_data df initial init stop = Ok rows /\
    Z.of_nat (List.length rows) = stop - init + 1 /\
    map d_date rows = date_range init stop /\
    forall i r, nth_error rows i = Some r -> d_date r = init + Z.of_nat i.
Proof.
  intros Hu Hle. eexists. split; [now apply process_room_data_spec|].
  split; [|split].
  - rewrite length_map, length_seq. now apply grid_days_length.
  - rewrite map_map. reflexivity.
  - intros i r Hr. apply nth_error_map_seq in Hr. now destruct Hr as [_ ->].
Qed.

Lemma grid_complete_witness :
  is_unique (map s_date [mk_session 1 1 19725 0 50 170]) = true /\
  19723 <= 19725 /\
  exists rows,
    process_room_data [mk_session 1 1 19725 0 50 170] 100 19723 19725 = Ok rows /\
    Z.of_nat (List.length rows) = 19725 - 19723 + 1 /\
    map d_date rows = date_range 19723 19725 /\
    forall i r, nth_error rows i = Some r -> d_date r = 19723 + Z.of_nat i.
Proof.
  split; [reflexivity|]. split; [lia|].
  apply (grid_complete [mk_session 1 1 19725 0 50 170] 100 19723 19725);
    [reflexivity|lia].
Defined.

(** The forward-filled balance is the balance of the latest session on or
    before the day, and [initial] when the grid has none up to that day. *)
Lemma filled_latest_session df initial init i :
  (exists k s, (k <= i)%nat /\ obs_at df (init + Z.of_nat k) = Some s /\
               (forall j, (k < j <= i)%nat -> obs_at df (init + Z.of_nat j) = None) /\
               filled df initial init i = s_bankroll s)
  \/ ((forall j, (j <= i)%nat -> obs_at df (init + Z.of_nat j) = None) /\
      filled df initial init i = initial).
Proof.
  induction i as [|i IH]; cbn [filled].
  - destruct (obs_at df (init + Z.of_nat 0)) as [s|] eqn:E.
    + left. exists O, s. repeat split; auto. intros j Hj. lia.
    + right. split; [|reflexivity]. intros j Hj.
      assert (j = O) by lia. now subst.
  - destruct (obs_at df (init + Z.of_nat (S i))) as [s|] eqn:E.
    + left. exists (S i), s. repeat split; auto. intros j Hj. lia.
    + destruct IH as [(k & s & Hk & Hs & Hgap & Hf)|[Hall Hf]].
      * left. exists k, s. repeat split; auto.
        intros j Hj. destruct (Nat.eq_dec j (S i)) as [->|Hne]; [exact E|].
        apply Hgap. lia.
      * right. split; [|exact Hf]. intros j Hj.
        destruct (Nat.eq_dec j (S i)) as [->|Hne]; [exact E|].
        apply Hall. lia.
Qed.

(** C3: [process_room_data] returns one row for each day of the grid.  A
    day with a session shows the balance, the flow and the activity count of
    that session.  On a day without a session the flow and the activity count
    are 0; the balance is [initial] if it is the first day of the grid and
    the (filled) balance of the day before otherwise.  So the balance of a
    day is the balance of the latest session on or before it, and [initial]
    when the grid has no session up to that day. *)
Theorem forward_fill (df : list session) (initial : Z) (init stop : date) :
  is_unique (map s_date df) = true ->
  init <= stop ->
  exists rows,
    process_room_data df initial init stop = Ok rows /\
    List.length rows = grid_days init stop /\
    forall i r, nth_error rows i = Some r ->
      d_date r = init + Z.of_nat i /\
      (forall s, obs_at df (d_date r) = Some s ->
         d_bankroll r = Some (s_bankroll s) /\
         d_cashflow r = Some (s_cashflow s) /\
         d_tournaments r = Some (s_tournaments s)) /\
      (obs_at df (d_date r) = None ->
         d_cashflow r = Some 0 /\
         d_tournaments r = Some 0 /\
         match i with
         | O => d_bankroll r = Some initial
         | S j => exists q b, nth_error rows j = Some q /\
                              d_bankroll q = Some b /\ d_bankroll r = Some b
         end) /\
      ((exists k s, (k <= i)%nat /\
                    obs_at df (init + Z.of_nat k) = Some s /\
                    (forall j, (k < j <= i)%nat ->
                               obs_at df (init + Z.of_nat j) = None) /\
                    d_bankroll r = Some (s_bankroll s))
       \/ ((forall j, (j <= i)%nat -> obs_at df (init + Z.of_nat j) = None) /\
           d_bankroll r = Some initial)).
Proof.
  intros Hu Hle. eexists. split; [now apply process_room_data_spec|].
  split; [now rewrite length_map, length_seq|].
  intros i r Hr. apply nth_error_map_seq in Hr. destruct Hr as [Hi ->].
  cbn [reconciled_day d_date d_cashflow d_tournaments d_bankroll] in *.
  unfold flow_at, activity_at.
  split; [reflexivity|]. split; [|split].
  - intros s Hs. rewrite Hs.
    split; [|split; reflexivity].
    destruct i; cbn [filled]; now rewrite Hs.
  - intros Hnone. rewrite Hnone.
    split; [reflexivity|]. split; [reflexivity|].
    destruct i as [|j].
    + cbn [filled]. now rewrite Hnone.
    + exists (reconciled_day df initial init j), (filled df initial init j).
      split; [apply nth_error_map_seq_lt; lia|].
      split; [reflexivity|].
      cbn [filled]. now rewrite Hnone.
  - destruct (filled_latest_session df initial init i)
      as [(k & s & Hk & Hs & Hgap & Hf)|[Hall Hf]].
    + left. exists k, s. rewrite Hf. repeat split; assumption.
    + right. rewrite Hf. split; [assumption|reflexivity].
Qed.

Lemma forward_fill_witness :
  is_unique (map s_date [mk_session 1 1 19725 0 50 170]) = true /\
  19723 <= 19725 /\
  exists rows,
    process_room_data [mk_session 1 1 19725 0 50 170] 100 19723 19725 = Ok rows /\
    List.length rows = grid_days 19723 19725 /\
    forall i r, nth_error rows i = Some r ->
      d_date r = 19723 + Z.of_nat i /\
      (forall s, obs_at [mk_session 1 1 19725 0 50 170] (d_date r) = Some s ->
         d_bankroll r = Some (s_bankroll s) /\
         d_cashflow r = Some (s_cashflow s) /\
         d_tournaments r = Some (s_tournaments s)) /\
      (obs_at [mk_session 1 1 19725 0 50 170] (d_date r) = None ->
         d_cashflow r = Some 0 /\
         d_tournaments r = Some 0 /\
         match i with
         | O => d_bankroll r = Some 100
         | S j => exists q b, nth_error rows j = Some q /\
                              d_bankroll q = Some b /\ d_bankroll r = Some b
         end) /\
      ((exists k s, (k <= i)%nat /\
                    obs_at [mk_session 1 1 19725 0 50 170] (19723 + Z.of_nat k)
                    = Some s /\
                    (forall j, (k < j <= i)%nat ->
                               obs_at [mk_session 1 1 19725 0 50 170]
                                 (19723 + Z.of_nat j) = None) /\
                    d_bankroll r = Some (s_bankroll s))
       \/ ((forall j, (j <= i)%nat ->
                      obs_at [mk_session 1 1 19725 0 50 170] (19723 + Z.of_nat j)
                      = None) /\
           d_bankroll r = Some 100)).
Proof.
  split; [reflexivity|]. split; [lia|].
  apply (forward_fill [mk_session 1 1 19725 0 50 170] 100 19723 19725);
    [reflexivity|lia].
Defined.

(** *** An end date before the start date *)

Lemma date_range_empty init stop : stop < init -> date_range init stop = [].
Proof.
  intros H. unfold date_range.
  replace (Z.to_nat (stop - init + 1)) with O by lia. reflexivity.
Qed.

(** On an empty grid [process_room_data] never returns a frame; with unique
    session dates the exception is the [IndexError] of [.iloc[0]]. *)
Lemma process_room_data_empty_grid df initial init stop :
  stop < init ->
  (exists e, process_room_data df initial init stop = Raise e) /\
  (is_unique (map s_date df) = true ->
   process_room_data df initial init stop = Raise IndexError).
Proof.
  intros H. unfold process_room_data, reindex.
  rewrite (date_range_empty init stop H).
  destruct (is_unique (map s_date df)); cbn [bind column map iloc0].
  - split; [now exists IndexError|reflexivity].
  - split; [now exists ValueError|discriminate].
Qed.

(** C8: a room set up with a start date of 2024-01-02 (day 19724) and shown
    on 2024-01-01 (day 19723).  The claim asks for an empty series; reading the first cell
    of the empty bankroll column raises [IndexError]. *)
Example empty_grid_raises :
  process_room_data [mk_session 1 1 19724 0 0 100] 100 19724 19723
  = Raise IndexError.
Proof. reflexivity. Qed.

(** A room without any session is reconciled to its initial balance with no
    profit on every day. *)
Lemma process_room_data_no_session initial init stop :
  init <= stop ->
  process_room_data [] initial init stop
  = Ok (map (fun i => mk_day (init + Z.of_nat i) (Some initial) (Some 0) (Some 0) (Some 0))
            (seq 0 (grid_days init stop))).
Proof.
  intros H. rewrite process_room_data_spec by (auto; reflexivity).
  f_equal. apply map_ext. intros i.
  unfold reconciled_day, flow_at, activity_at. cbn [obs_at find].
  assert (Hf : forall k, filled [] initial init k = initial).
  { induction k; cbn [filled obs_at find]; auto. }
  rewrite Hf. f_equal. f_equal.
  destruct i; cbn [previous]; rewrite ?Hf; lia.
Qed.

(** ** The ledger *)

Lemma same_key_spec room_id d s :
  same_key room_id d s = true <-> s_room_id s = room_id /\ s_date s = d.
Proof.
  unfold same_key. rewrite andb_true_iff, !Z.eqb_eq. reflexivity.
Qed.

(** Under the UNIQUE constraint the sessions selected for one room have
    pairwise different dates, so [reindex] accepts them. *)
Lemma unique_keys_room_dates (p : session -> bool) (id : Z) (ss : list session) :
  (forall s, p s = true -> s_room_id s = id) ->
  unique_keys ss = true ->
  is_unique (map s_date (filter p ss)) = true.
Proof.
  intros Hp. induction ss as [|a rest IH]; intros Hu; [reflexivity|].
  cbn [unique_keys] in Hu. apply andb_true_iff in Hu. destruct Hu as [Ha Hrest].
  cbn [filter]. destruct (p a) eqn:Epa; [|now apply IH].
  cbn [map is_unique]. rewrite (IH Hrest), andb_true_r.
  apply negb_true_iff. apply negb_true_iff in Ha.
  destruct (existsb (Z.eqb (s_date a)) (map s_date (filter p rest))) eqn:E;
    [|reflexivity].
  apply existsb_exists in E. destruct E as (x & Hx & Hxa).
  apply in_map_iff in Hx. destruct Hx as (s & <- & Hs).
  apply filter_In in Hs. destruct Hs as [Hin Hps].
  apply Z.eqb_eq in Hxa.
  assert (Hex : existsb (same_key (s_room_id a) (s_date a)) rest = true).
  { apply existsb_exists. exists s. split; [exact Hin|].
    apply same_key_spec. rewrite (Hp s Hps), (Hp a Epa). auto. }
  congruence.
Qed.

Lemma unique_keys_insert ss id room_id d t c b :
  unique_keys ss = true ->
  existsb (same_key room_id d) ss = false ->
  unique_keys (ss ++ [mk_session id room_id d t c b]) = true.
Proof.
  induction ss as [|a rest IH]; intros Hu Hn; [reflexivity|].
  cbn [unique_keys existsb app] in *.
  apply andb_true_iff in Hu. destruct Hu as [Ha Hrest].
  apply orb_false_iff in Hn. destruct Hn as [Hna Hnrest].
  rewrite (IH Hrest Hnrest), andb_true_r.
  rewrite existsb_app. cbn [existsb].
  apply negb_true_iff in Ha. rewrite Ha, orb_false_r. cbn [orb].
  apply negb_true_iff.
  unfold same_key in *. cbn [s_room_id s_date].
  rewrite (Z.eqb_sym room_id), (Z.eqb_sym d). exact Hna.
Qed.

(** *** [add_session] *)

(** What the upsert does to the table: a new row when the key is free, and
    otherwise the counts added and the balance replaced in the row that holds
    the key. *)
Lemma upsert_session_new ss room_id d t c b :
  existsb (same_key room_id d) ss = false ->
  upsert_session ss room_id d t c b
  = (ss ++ [mk_session (next_rowid (map s_id ss)) room_id d t c b],
     Some (next_rowid (map s_id ss))).
Proof. intros H. unfold upsert_session. now rewrite H. Qed.

Lemma upsert_session_existing ss room_id d t c b s :
  In s ss -> s_room_id s = room_id -> s_date s = d ->
  In (mk_session (s_id s) room_id d (s_tournaments s + t) (s_cashflow s + c) b)
     (fst (upsert_session ss room_id d t c b))
  /\ snd (upsert_session ss room_id d t c b) = Some 0
  /\ List.length (fst (upsert_session ss room_id d t c b)) = List.length ss.
Proof.
  intros Hin Hr Hd.
  assert (Hk : same_key room_id d s = true) by (now apply same_key_spec).
  assert (Hex : existsb (same_key room_id d) ss = true).
  { apply existsb_exists. now exists s. }
  unfold upsert_session. rewrite Hex. cbn [fst snd].
  split; [|split; [reflexivity|now rewrite length_map]].
  apply in_map_iff. exists s. split; [|exact Hin].
  rewrite Hk. now rewrite Hr, Hd.
Qed.

(** Whatever the table holds, the entry written to the history says CREATE:
    [lastrowid] is a number after the upsert, never [None]. *)
Lemma add_session_always_create st room_id d t c b :
  exists id,
    add_session st room_id d t c b
    = mk_db (rooms st)
            (fst (upsert_session (sessions st) room_id d t c b))
            (edits_history st ++
             [mk_edit "sessions" id (Literal "INITIAL_INSERT")
                (SessionDict d t c b) "CREATE"]).
Proof.
  unfold add_session, upsert_session.
  destruct (existsb (same_key room_id d) (sessions st)); cbn [fst snd];
    eexists; reflexivity.
Qed.

(** C4: recording twice the same session (2 tournaments, a deposit of 10,
    balance 120) for a room and a date (2024-01-05, day 19727) that had none.  The second call adds
    the counts and keeps the balance, as claimed, but it is written to the
    history as CREATE of record 0 with INITIAL_INSERT as old value, where the
    claim says UPDATE. *)
Example add_session_twice :
  let st0 := mk_db [mk_room 1 "Winamax" 100 19723]
                   [mk_session 1 1 19723 0 0 100] [] in
  let st1 := add_session st0 1 19727 2 10 120 in
  let st2 := add_session st1 1 19727 2 10 120 in
  sessions st1 = [mk_session 1 1 19723 0 0 100;
                  mk_session 2 1 19727 2 10 120] /\
  sessions st2 = [mk_session 1 1 19723 0 0 100;
                  mk_session 2 1 19727 4 20 120] /\
  edits_history st2
  = [mk_edit "sessions" 2 (Literal "INITIAL_INSERT")
       (SessionDict 19727 2 10 120) "CREATE";
     mk_edit "sessions" 0 (Literal "INITIAL_INSERT")
       (SessionDict 19727 2 10 120) "CREATE"].
Proof. repeat split. Qed.

(** *** [delete_room] *)

Lemma filter_negb_same {A : Type} (p : A -> bool) (l : list A) :
  filter p (filter (fun x => negb (p x)) l) = [].
Proof.
  induction l as [|a l IH]; [reflexivity|].
  cbn [filter]. destruct (p a) eqn:E; cbn [negb filter]; [exact IH|].
  now rewrite E.
Qed.

(** C5: deleting a room that has N sessions appends N+1 entries to the
    history, the entry of the room first and then one per session, each with
    the whole row as old value, and leaves no session of that room. *)
Theorem delete_room_cascade (st : db) (room_id : Z) (r : room) :
  find (fun x => r_id x =? room_id) (rooms st) = Some r ->
  let children := filter (fun s => s_room_id s =? room_id) (sessions st) in
  let st' := delete_room st room_id in
  edits_history st'
  = edits_history st
    ++ mk_edit "rooms" room_id (RoomTuple r) (Literal "DELETED") "DELETE"
       :: map (fun s => mk_edit "sessions" (s_id s) (SessionTuple s)
                          (Literal "DELETED") "DELETE_CASCADE") children
  /\ List.length (edits_history st')
     = (List.length (edits_history st) + (List.length children + 1))%nat
  /\ filter (fun s => s_room_id s =? room_id) (sessions st') = []
  /\ (forall s, In s (sessions st') <-> In s (sessions st) /\ s_room_id s <> room_id)
  /\ (forall x, In x (rooms st') -> r_id x <> room_id).
Proof.
  intros Hfind children st'. subst st'. unfold delete_room. rewrite Hfind.
  cbn [edits_history sessions rooms]. fold children.
  split; [now rewrite <- app_assoc|].
  split; [rewrite !length_app, length_map; cbn [List.length]; lia|].
  split; [apply (filter_negb_same (fun s => s_room_id s =? room_id))|].
  split.
  - intros s. rewrite filter_In, negb_true_iff, Z.eqb_neq. reflexivity.
  - intros x Hx. apply filter_In in Hx. destruct Hx as [_ Hx].
    now apply negb_true_iff, Z.eqb_neq in Hx.
Qed.

Lemma delete_room_cascade_witness :
  find (fun x => r_id x =? 1) (rooms sample_db)
  = Some (mk_room 1 "Winamax" 100 19723) /\
  edits_history (delete_room sample_db 1)
  = edits_history sample_db
    ++ mk_edit "rooms" 1 (RoomTuple (mk_room 1 "Winamax" 100 19723))
         (Literal "DELETED") "DELETE"
       :: map (fun s => mk_edit "sessions" (s_id s) (SessionTuple s)
                          (Literal "DELETED") "DELETE_CASCADE")
              (filter (fun s => s_room_id s =? 1) (sessions sample_db))
  /\ List.length (edits_history (delete_room sample_db 1))
     = (List.length (edits_history sample_db)
        + (List.length (filter (fun s => (s_room_id s =? 1)%Z) (sessions sample_db)) + 1))%nat
  /\ filter (fun s => s_room_id s =? 1) (sessions (delete_room sample_db 1)) = []
  /\ (forall s, In s (sessions (delete_room sample_db 1))
                <-> In s (sessions sample_db) /\ s_room_id s <> 1)
  /\ (forall x, In x (rooms (delete_room sample_db 1)) -> r_id x <> 1).
Proof.
  split; [reflexivity|].
  apply (delete_room_cascade sample_db 1 (mk_room 1 "Winamax" 100 19723)).
  reflexivity.
Defined.

(** *** [setup_rooms] *)

Lemma setup_rooms_success st room br init_date st' :
  setup_rooms st room br init_date = (st', true) ->
  let room_id := next_rowid (map r_id (rooms st)) in
  existsb (fun r => String.eqb (r_name r) room) (rooms st) = false /\
  existsb (same_key room_id init_date) (sessions st) = false /\
  st' = mk_db (rooms st ++ [mk_room room_id room br init_date])
              (sessions st ++
               [mk_session (next_rowid (map s_id (sessions st)))
                  room_id init_date 0 0 br])
              (edits_history st).
Proof.
  unfold setup_rooms, insert_room, insert_session.
  destruct (existsb (fun r => String.eqb (r_name r) room) (rooms st));
    cbn [bind]; [discriminate|].
  cbn [snd fst].
  destruct (existsb (same_key (next_rowid (map r_id (rooms st))) init_date)
              (sessions st)); cbn [bind fst]; [discriminate|].
  intros H. inversion H. auto.
Qed.

Lemma find_app_none {A : Type} (p : A -> bool) (l : list A) (x : A) :
  existsb p l = false -> p x = true -> find p (l ++ [x]) = Some x.
Proof.
  induction l as [|a l IH]; cbn [existsb app find]; intros Hn Hx.
  - now rewrite Hx.
  - apply orb_false_iff in Hn. destruct Hn as [Ha Hl].
    rewrite Ha. now apply IH.
Qed.


(** C10: when [setup_rooms] succeeds it has inserted, with the room, a
    session on the start date with 0 tournaments, 0 cashflow and the initial
    bankroll as balance.  The first day of the room's grid then finds this
    session (its bankroll cell is not NaN, so nothing is seeded) and the
    first reconciled row carries the initial bankroll and no profit. *)
Theorem setup_rooms_initial_session (st st' : db) (room : string) (br : Z)
    (init_date today : date) :
  unique_keys (sessions st) = true ->
  setup_rooms st room br init_date = (st', true) ->
  init_date <= today ->
  exists r s,
    rooms st' = rooms st ++ [r] /\
    r = mk_room (r_id r) room br init_date /\
    sessions st' = sessions st ++ [s] /\
    s = mk_session (s_id s) (r_id r) init_date 0 0 br /\
    obs_at (room_sessions st' r) init_date = Some s /\
    (exists df, reindex (room_sessions st' r) (date_range init_date today)
                = Ok (Some s :: df)) /\
    (exists rows, room_stats st' r today
                  = Ok (mk_day init_date (Some br) (Some 0) (Some 0) (Some 0) :: rows)).
Proof.
  intros Hu Hsetup Hle.
  destruct (setup_rooms_success _ _ _ _ _ Hsetup) as (_ & Hfree & ->).
  set (room_id := next_rowid (map r_id (rooms st))) in *.
  set (s := mk_session (next_rowid (map s_id (sessions st))) room_id init_date 0 0 br).
  set (r := mk_room room_id room br init_date).
  exists r, s. cbn [rooms sessions].
  assert (Hobs : obs_at (room_sessions
                           (mk_db (rooms st ++ [r]) (sessions st ++ [s]) (edits_history st))
                           r) init_date = Some s).
  { unfold obs_at, room_sessions. cbn [sessions r_id r_init_date r].
    rewrite filter_app. cbn [filter s s_room_id s_date].
    rewrite Z.eqb_refl, Z.leb_refl. cbn [andb].
    apply find_app_none; [|cbn [s_date]; apply Z.eqb_refl].
    destruct (existsb (fun x => s_date x =? init_date)
                (filter (fun x => (s_room_id x =? room_id) && (init_date <=? s_date x))
                        (sessions st))) eqn:E; [|reflexivity].
    apply existsb_exists in E. destruct E as (x & Hx & Hd).
    apply filter_In in Hx. destruct Hx as [Hin Hx].
    apply andb_true_iff in Hx. destruct Hx as [Hx _].
    assert (Hex : existsb (same_key room_id init_date) (sessions st) = true).
    { apply existsb_exists. exists x. split; [exact Hin|].
      unfold same_key. now rewrite Hx, Hd. }
    congruence. }
  assert (Huniq : is_unique (map s_date
                    (room_sessions
                       (mk_db (rooms st ++ [r]) (sessions st ++ [s]) (edits_history st))
                       r)) = true).
  { unfold room_sessions. cbn [sessions].
    apply (unique_keys_room_dates _ (r_id r)).
    - intros x Hx. apply andb_true_iff in Hx. now apply Z.eqb_eq.
    - now apply unique_keys_insert. }
  destruct (grid_days_pos init_date today Hle) as [m Hm].
  repeat split; try reflexivity; try exact Hobs.
  - unfold reindex. rewrite Huniq. unfold date_range.
    fold (grid_days init_date today). rewrite Hm. cbn [seq map].
    replace (init_date + Z.of_nat 0) with init_date by (simpl; lia).
    fold (obs_at (room_sessions
                    (mk_db (rooms st ++ [r]) (sessions st ++ [s]) (edits_history st)) r)
                 init_date).
    rewrite Hobs. eexists. reflexivity.
  - unfold room_stats. rewrite process_room_data_spec by assumption.
    cbn [r_init_date r_initial_bankroll r]. rewrite Hm. cbn [seq map].
    eexists. f_equal. f_equal.
    unfold reconciled_day, flow_at, activity_at. cbn [filled previous].
    replace (init_date + Z.of_nat 0) with init_date by (simpl; lia).
    rewrite Hobs. cbn [s s_bankroll s_cashflow s_tournaments].
    do 2 f_equal. lia.
Qed.

Lemma setup_rooms_initial_session_witness :
  unique_keys (sessions empty_db) = true /\
  setup_rooms empty_db "Winamax" 100 19723
  = (mk_db [mk_room 1 "Winamax" 100 19723] [mk_session 1 1 19723 0 0 100] [], true) /\
  19723 <= 19725 /\
  exists r s,
    rooms (mk_db [mk_room 1 "Winamax" 100 19723] [mk_session 1 1 19723 0 0 100] [])
    = rooms empty_db ++ [r] /\
    r = mk_room (r_id r) "Winamax" 100 19723 /\
    sessions (mk_db [mk_room 1 "Winamax" 100 19723] [mk_session 1 1 19723 0 0 100] [])
    = sessions empty_db ++ [s] /\
    s = mk_session (s_id s) (r_id r) 19723 0 0 100 /\
    obs_at (room_sessions
              (mk_db [mk_room 1 "Winamax" 100 19723] [mk_session 1 1 19723 0 0 100] [])
              r) 19723 = Some s /\
    (exists df,
        reindex (room_sessions
                   (mk_db [mk_room 1 "Winamax" 100 19723]
                          [mk_session 1 1 19723 0 0 100] []) r)
                (date_range 19723 19725)
        = Ok (Some s :: df)) /\
    (exists rows,
        room_stats (mk_db [mk_room 1 "Winamax" 100 19723]
                          [mk_session 1 1 19723 0 0 100] []) r 19725
        = Ok (mk_day 19723 (Some 100) (Some 0) (Some 0) (Some 0) :: rows)).
Proof.
  split; [reflexivity|]. split; [reflexivity|]. split; [lia|].
  apply (setup_rooms_initial_session empty_db
           (mk_db [mk_room 1 "Winamax" 100 19723] [mk_session 1 1 19723 0 0 100] [])
           "Winamax" 100 19723 19725);
    [reflexivity|reflexivity|lia].
Defined.

(** ** Resampling *)

Section Sums.
Context {A : Type}.

Lemma total_of_cons (value : A -> Z) a l :
  total_of value (a :: l) = value a + total_of value l.
Proof. reflexivity. Qed.

Lemma total_of_zero (l : list A) : total_of (fun _ => 0) l = 0.
Proof. induction l as [|a l IH]; [reflexivity|]. rewrite total_of_cons. lia. Qed.

Lemma total_of_add (f g : A -> Z) (l : list A) :
  total_of (fun x => f x + g x) l = total_of f l + total_of g l.
Proof.
  induction l as [|a l IH]; [reflexivity|].
  rewrite !total_of_cons, IH. lia.
Qed.

Lemma total_of_ext (f g : A -> Z) (l : list A) :
  (forall x, In x l -> f x = g x) -> total_of f l = total_of g l.
Proof.
  intros H. unfold total_of. f_equal. now apply map_ext_in.
Qed.

End Sums.

(** A value counted in the one bin that carries its key. *)
Lemma total_of_single (k v : Z) (bins : list Z) :
  NoDup bins -> In k bins ->
  total_of (fun b => if k =? b then v else 0) bins = v.
Proof.
  induction bins as [|b bins IH]; intros Hnd Hin; [contradiction|].
  inversion Hnd as [|? ? Hnotin Hnd']; subst.
  rewrite total_of_cons. destruct Hin as [->|Hin].
  - rewrite Z.eqb_refl.
    rewrite (total_of_ext _ (fun _ => 0)), total_of_zero; [lia|].
    intros x Hx. destruct (Z.eqb_spec k x) as [->|]; [contradiction|reflexivity].
  - destruct (Z.eqb_spec k b) as [->|_]; [contradiction|].
    rewrite IH by assumption. lia.
Qed.

(** Summing the rows bin by bin, over bins that are pairwise different and
    cover the key of every row, gives the sum of all rows. *)
Lemma total_of_bins {A : Type} (key value : A -> Z) (bins : list Z) (data : list A) :
  NoDup bins ->
  (forall x, In x data -> In (key x) bins) ->
  total_of (fun b => total_of value (filter (fun x => key x =? b) data)) bins
  = total_of value data.
Proof.
  intros Hnd. induction data as [|a data IH]; intros Hcover.
  - cbn [filter]. apply total_of_zero.
  - rewrite total_of_cons.
    rewrite <- IH by (intros x Hx; apply Hcover; now right).
    rewrite <- (total_of_single (key a) (value a) bins Hnd)
      by (apply Hcover; now left).
    rewrite <- total_of_add. apply total_of_ext. intros b _.
    cbn [filter]. destruct (key a =? b); [apply total_of_cons|reflexivity].
Qed.

Lemma list_min_le (l : list Z) : forall x,
  list_min x l <= x /\ forall y, In y l -> list_min x l <= y.
Proof.
  unfold list_min. induction l as [|a l IH]; intros x; cbn [fold_left].
  - split; [lia|contradiction].
  - destruct (IH (Z.min x a)) as [H1 H2]. split; [lia|].
    intros y [->|Hy]; [lia|now apply H2].
Qed.

Lemma list_max_ge (l : list Z) : forall x,
  x <= list_max x l /\ forall y, In y l -> y <= list_max x l.
Proof.
  unfold list_max. induction l as [|a l IH]; intros x; cbn [fold_left].
  - split; [lia|contradiction].
  - destruct (IH (Z.max x a)) as [H1 H2]. split; [lia|].
    intros y [->|Hy]; [lia|now apply H2].
Qed.

Lemma in_date_range (a b d : date) : In d (date_range a b) <-> a <= d <= b.
Proof.
  unfold date_range. rewrite in_map_iff. split.
  - intros (i & <- & Hi). apply in_seq in Hi. lia.
  - intros H. exists (Z.to_nat (d - a)). split; [lia|].
    apply in_seq. lia.
Qed.

(** The bins of [resample_sum] are pairwise different and every row falls in
    one of them. *)
Lemma resample_sum_bins {A : Type} (date_of : A -> date) (value : A -> Z)
    (r : rule) (data : list A) :
  NoDup (map fst (resample_sum date_of value r data)) /\
  forall x, In x data ->
    In (bin_label r (date_of x)) (map fst (resample_sum date_of value r data)).
Proof.
  unfold resample_sum.
  destruct (map date_of data) as [|d0 ds] eqn:E.
  - destruct data; [|discriminate]. split; [constructor|contradiction].
  - rewrite map_map. cbn [fst]. rewrite map_id. split; [apply NoDup_nodup|].
    intros x Hx. apply nodup_In. apply in_map. apply in_date_range.
    assert (Hin : In (date_of x) (d0 :: ds)) by (rewrite <- E; now apply in_map).
    destruct (list_min_le ds d0) as [Hm1 Hm2].
    destruct (list_max_ge ds d0) as [HM1 HM2].
    destruct Hin as [<-|Hin]; [lia|].
    specialize (Hm2 _ Hin). specialize (HM2 _ Hin). lia.
Qed.

Lemma resample_sum_total {A : Type} (date_of : A -> date) (value : A -> Z)
    (r : rule) (data : list A) :
  total_of snd (resample_sum date_of value r data) = total_of value data.
Proof.
  pose proof (resample_sum_bins date_of value r data) as [Hnd Hcover].
  unfold resample_sum in *.
  destruct (map date_of data) as [|d0 ds] eqn:E.
  - destruct data; [reflexivity|discriminate].
  - rewrite map_map in Hnd, Hcover. cbn [fst] in Hnd, Hcover.
    rewrite map_id in Hnd, Hcover.
    unfold total_of at 1. rewrite map_map. cbn [snd].
    apply (total_of_bins (fun x => bin_label r (date_of x)) value); assumption.
Qed.

Lemma sum_skipna_total {A : Type} (col : A -> cell) (l : list A) :
  sum_skipna (map col l) = total_of (fun x => cell_value (col x)) l.
Proof.
  unfold sum_skipna, total_of.
  induction l as [|a l IH]; [reflexivity|]. cbn [map fold_right]. now rewrite IH.
Qed.

(** C7: for each of the three rules, the bins of a daily series are pairwise
    different, every day falls in one of them, and the bin sums of the profit
    (and of the tournaments) add up to the sum over the days; the same holds
    for the merged frame of [global_stats]. *)
Theorem resample_partition (r : rule) (data : list day) (merged : list total) :
  (NoDup (map fst (resample_sum d_date (fun x => cell_value (d_pure_profit x)) r data)) /\
   forall x, In x data ->
     In (bin_label r (d_date x))
        (map fst (resample_sum d_date (fun x => cell_value (d_pure_profit x)) r data))) /\
  fold_right Z.add 0
    (map snd (resample_sum d_date (fun x => cell_value (d_pure_profit x)) r data))
  = sum_skipna (map d_pure_profit data) /\
  fold_right Z.add 0
    (map snd (resample_sum d_date (fun x => cell_value (d_tournaments x)) r data))
  = sum_skipna (map d_tournaments data) /\
  fold_right Z.add 0 (map snd (resample_sum t_date t_pure_profit r merged))
  = fold_right Z.add 0 (map t_pure_profit merged) /\
  fold_right Z.add 0 (map snd (resample_sum t_date t_total_tournaments r merged))
  = fold_right Z.add 0 (map t_total_tournaments merged).
Proof.
  split; [apply resample_sum_bins|].
  rewrite !sum_skipna_total.
  repeat split; apply resample_sum_total.
Qed.

(** The bars of the weekly profit chart of the sample room (initial balance
    100 on 2024-01-01, one session on 2024-01-03 with a deposit of 50 and a
    balance of 170): Monday the 1st closes a bin of its own, the 2nd and 3rd
    fall in the bin closed by Monday the 8th. *)
Example room_profit_chart_sample :
  process_room_data [mk_session 1 1 19725 0 50 170] 100 19723 19725
  = Ok [mk_day 19723 (Some 100) (Some 0) (Some 0) (Some 0);
        mk_day 19724 (Some 100) (Some 0) (Some 0) (Some 0);
        mk_day 19725 (Some 170) (Some 50) (Some 0) (Some 20)] /\
  room_profit_chart W_MON
    [mk_day 19723 (Some 100) (Some 0) (Some 0) (Some 0);
     mk_day 19724 (Some 100) (Some 0) (Some 0) (Some 0);
     mk_day 19725 (Some 170) (Some 50) (Some 0) (Some 20)]
  = [("Sem. 00 2024"%string, 0); ("Sem. 01 2024"%string, 20)] /\
  room_tournaments_chart YE
    [mk_day 19723 (Some 100) (Some 0) (Some 0) (Some 0);
     mk_day 19724 (Some 100) (Some 0) (Some 0) (Some 0);
     mk_day 19725 (Some 170) (Some 50) (Some 0) (Some 20)]
  = [("2024"%string, 0)].
Proof. repeat split; vm_compute; reflexivity. Qed.

(** ** Bins and labels *)


Lemma week_end_monday_spec d :
  weekday (week_end_monday d) = 0 /\ d <= week_end_monday d <= d + 6.
Proof.
  unfold week_end_monday, weekday.
  split; Z.div_mod_to_equations; lia.
Qed.

(** The days sharing a weekly bin are the seven days that end on its
    Monday. *)
Lemma week_end_monday_bin d d' :
  week_end_monday d' = week_end_monday d
  <-> week_end_monday d - 6 <= d' <= week_end_monday d.
Proof.
  unfold week_end_monday, weekday.
  split; intros H; Z.div_mod_to_equations; lia.
Qed.

(** *** The calendar *)

Lemma days_in_month_range y m : 28 <= days_in_month y m <= 31.
Proof.
  unfold days_in_month.
  destruct (m =? 2); [destruct (is_leap y); lia|].
  destruct ((m =? 4) || (m =? 6) || (m =? 9) || (m =? 11)); lia.
Qed.

(** One more step than needed does not change the result. *)
Lemma civil_go_more : forall fuel y m f z,
  f <= z -> z - f < 28 * (Z.of_nat fuel + 1) ->
  civil_go (S fuel) y m f z = civil_go fuel y m f z.
Proof.
  induction fuel as [|k IH]; intros y m f z Hf Hz;
    pose proof (days_in_month_range y m) as Hr.
  - cbn [civil_go]. cbv zeta.
    destruct (Z.ltb_spec z (f + days_in_month y m)); [reflexivity|lia].
  - change (civil_go (S (S k)) y m f z)
      with (let n := days_in_month y m in
            if z <? f + n then (y, m, z - f + 1)
            else if m <? 12 then civil_go (S k) y (m + 1) (f + n) z
            else civil_go (S k) (y + 1) 1 (f + n) z).
    change (civil_go (S k) y m f z)
      with (let n := days_in_month y m in
            if z <? f + n then (y, m, z - f + 1)
            else if m <? 12 then civil_go k y (m + 1) (f + n) z
            else civil_go k (y + 1) 1 (f + n) z).
    cbv zeta.
    destruct (Z.ltb_spec z (f + days_in_month y m)); [reflexivity|].
    destruct (m <? 12); apply IH; lia.
Qed.

Lemma civil_go_fuel : forall (extra fuel : nat) y m f z,
  f <= z -> z - f < 28 * (Z.of_nat fuel + 1) ->
  civil_go (extra + fuel) y m f z = civil_go fuel y m f z.
Proof.
  induction extra as [|e IH]; intros fuel y m f z Hf Hz; [reflexivity|].
  cbn [Nat.add]. rewrite civil_go_more by lia. now apply IH.
Qed.

Lemma civil_go_first fuel y m f : civil_go fuel y m f f = (y, m, 1).
Proof.
  pose proof (days_in_month_range y m) as Hr.
  destruct fuel as [|k]; cbn [civil_go]; cbv zeta.
  - f_equal. lia.
  - destruct (Z.ltb_spec f (f + days_in_month y m)); [f_equal; lia|lia].
Qed.

Lemma civil_go_succ : forall fuel y m f z,
  f <= z -> z + 1 - f < 28 * (Z.of_nat fuel + 1) ->
  civil_go fuel y m f (z + 1) = civil_next (civil_go fuel y m f z).
Proof.
  induction fuel as [|k IH]; intros y m f z Hf Hz;
    pose proof (days_in_month_range y m) as Hr.
  - cbn [civil_go]. unfold civil_next. cbn [fst snd].
    destruct (Z.ltb_spec (z - f + 1) (days_in_month y m)); [f_equal; lia|lia].
  - cbn [civil_go]. cbv zeta.
    destruct (Z.ltb_spec (z + 1) (f + days_in_month y m)) as [H1|H1];
      destruct (Z.ltb_spec z (f + days_in_month y m)) as [H2|H2]; try lia.
    + unfold civil_next. cbn [fst snd].
      destruct (Z.ltb_spec (z - f + 1) (days_in_month y m)); [f_equal; lia|lia].
    + assert (Hz1 : z + 1 = f + days_in_month y m) by lia. rewrite Hz1.
      unfold civil_next. cbn [fst snd].
      destruct (Z.ltb_spec (z - f + 1) (days_in_month y m)); [lia|].
      destruct (m <? 12); apply civil_go_first.
    + destruct (m <? 12); apply IH; lia.
Qed.

Lemma civil_succ z :
  timestamp_min <= z ->
  civil_from_days (z + 1) = civil_next (civil_from_days z).
Proof.
  intros H. unfold timestamp_min in H. unfold civil_from_days, month_start_min.
  set (a := Z.to_nat ((z - -106772) / 28)).
  set (b := Z.to_nat ((z + 1 - -106772) / 28)).
  assert (Hab : exists e, b = (e + a)%nat).
  { exists (b - a)%nat. subst a b.
    assert ((z - -106772) / 28 <= (z + 1 - -106772) / 28)
      by (apply Z.div_le_mono; lia).
    assert (0 <= (z - -106772) / 28) by (apply Z.div_pos; lia).
    lia. }
  destruct Hab as [e He].
  assert (Ha : z - -106772 < 28 * (Z.of_nat a + 1)).
  { subst a. rewrite Z2Nat.id by (apply Z.div_pos; lia).
    pose proof (Z.mod_pos_bound (z - -106772) 28 ltac:(lia)).
    pose proof (Z.div_mod (z - -106772) 28 ltac:(lia)). lia. }
  assert (Hb : z + 1 - -106772 < 28 * (Z.of_nat b + 1)).
  { subst b. rewrite Z2Nat.id by (apply Z.div_pos; lia).
    pose proof (Z.mod_pos_bound (z + 1 - -106772) 28 ltac:(lia)).
    pose proof (Z.div_mod (z + 1 - -106772) 28 ltac:(lia)). lia. }
  rewrite civil_go_succ by lia.
  f_equal. rewrite He. apply civil_go_fuel; lia.
Qed.

Lemma civil_next_valid c : valid_civil c -> valid_civil (civil_next c).
Proof.
  destruct c as [[y m] d]. unfold valid_civil, civil_next. cbn [fst snd].
  intros [Hm Hd].
  pose proof (days_in_month_range y (m + 1)).
  pose proof (days_in_month_range (y + 1) 1).
  destruct (Z.ltb_spec d (days_in_month y m)); cbn [fst snd]; [lia|].
  destruct (Z.ltb_spec m 12); cbn [fst snd]; lia.
Qed.

Lemma civil_valid z : timestamp_min <= z -> valid_civil (civil_from_days z).
Proof.
  intros H.
  replace z with (timestamp_min + Z.of_nat (Z.to_nat (z - timestamp_min))) by lia.
  induction (Z.to_nat (z - timestamp_min)) as [|n IH].
  - cbv. intuition discriminate.
  - replace (timestamp_min + Z.of_nat (S n))
      with (timestamp_min + Z.of_nat n + 1) by lia.
    rewrite civil_succ by lia. now apply civil_next_valid.
Qed.

(** Moving forward inside a month changes the day only. *)
Lemma civil_add_in_month z y m dd :
  timestamp_min <= z -> civil_from_days z = (y, m, dd) ->
  forall k : nat,
    dd + Z.of_nat k <= days_in_month y m ->
    civil_from_days (z + Z.of_nat k) = (y, m, dd + Z.of_nat k).
Proof.
  intros Hz Hc. induction k as [|k IH]; intros Hk.
  - replace (z + Z.of_nat 0) with z by lia.
    replace (dd + Z.of_nat 0) with dd by lia. exact Hc.
  - replace (z + Z.of_nat (S k)) with (z + Z.of_nat k + 1) by lia.
    rewrite civil_succ by lia. rewrite IH by lia.
    unfold civil_next. cbn [fst snd].
    destruct (Z.ltb_spec (dd + Z.of_nat k) (days_in_month y m)); [|lia].
    f_equal. lia.
Qed.

Lemma month_end_spec z :
  timestamp_min <= z ->
  civil_from_days (month_end z)
  = (year_of z, month_of z, days_in_month (year_of z) (month_of z))
  /\ z <= month_end z.
Proof.
  intros Hz. pose proof (civil_valid z Hz) as Hv.
  unfold month_end, year_of, month_of, day_of, valid_civil in *.
  destruct (civil_from_days z) as [[y m] dd] eqn:E. cbn [fst snd] in *.
  split; [|lia].
  pose proof (civil_add_in_month z y m dd Hz E
                (Z.to_nat (days_in_month y m - dd))) as H.
  rewrite Z2Nat.id in H by lia.
  replace (dd + (days_in_month y m - dd)) with (days_in_month y m) in H by lia.
  apply H. lia.
Qed.

Lemma days_before_succ y m :
  1 <= m ->
  days_before y (Z.to_nat m)
  = days_before y (Z.to_nat (m - 1)) + days_in_month y m.
Proof.
  intros H. replace (Z.to_nat m) with (S (Z.to_nat (m - 1))) by lia.
  cbn [days_before]. do 2 f_equal. lia.
Qed.

Lemma days_before_mono y (a b : nat) :
  (a <= b)%nat -> days_before y a <= days_before y b.
Proof.
  induction 1 as [|b Hab IH]; [lia|].
  cbn [days_before]. pose proof (days_in_month_range y (Z.of_nat (S b))). lia.
Qed.

(** From a day of month [m] to the 31st of December of its year. *)
Lemma civil_to_year_end : forall (n : nat) z y m dd,
  timestamp_min <= z -> civil_from_days z = (y, m, dd) ->
  1 <= m -> 1 <= dd <= days_in_month y m ->
  m = 12 - Z.of_nat n ->
  civil_from_days (z + (days_before y 12 - days_before y (Z.to_nat (m - 1)) - dd))
  = (y, 12, 31).
Proof.
  induction n as [|n IH]; intros z y m dd Hz Hc Hm Hd Hn.
  - assert (Hm12 : m = 12) by lia. clear Hn. subst m.
    change (Z.to_nat (12 - 1)) with 11%nat.
    assert (E : days_before y 12 - days_before y 11 - dd = 31 - dd).
    { cbn [days_before].
      change (days_in_month y (Z.of_nat 12)) with 31. lia. }
    rewrite E.
    change (days_in_month y 12) with 31 in Hd.
    pose proof (civil_add_in_month z y 12 dd Hz Hc (Z.to_nat (31 - dd))) as H.
    rewrite Z2Nat.id in H by lia.
    replace (dd + (31 - dd)) with 31 in H by lia.
    apply H. change (days_in_month y 12) with 31. lia.
  - set (dim := days_in_month y m) in *.
    assert (H1 : civil_from_days (z + (dim - dd)) = (y, m, dim)).
    { pose proof (civil_add_in_month z y m dd Hz Hc (Z.to_nat (dim - dd))) as H.
      rewrite Z2Nat.id in H by lia.
      replace (dd + (dim - dd)) with dim in H by lia.
      apply H. fold dim. lia. }
    assert (H2 : civil_from_days (z + (dim - dd) + 1) = (y, m + 1, 1)).
    { rewrite civil_succ by lia. rewrite H1.
      unfold civil_next. cbn [fst snd]. fold dim.
      destruct (Z.ltb_spec dim dim); [lia|].
      destruct (Z.ltb_spec m 12); [reflexivity|lia]. }
    pose proof (days_in_month_range y (m + 1)) as Hr.
    pose proof (IH (z + (dim - dd) + 1) y (m + 1) 1
                  ltac:(lia) H2 ltac:(lia) ltac:(lia) ltac:(lia)) as H3.
    replace (m + 1 - 1) with m in H3 by lia.
    rewrite (days_before_succ y m Hm) in H3. fold dim in H3.
    replace (z + (days_before y 12 - days_before y (Z.to_nat (m - 1)) - dd))
      with (z + (dim - dd) + 1
            + (days_before y 12 - (days_before y (Z.to_nat (m - 1)) + dim) - 1))
      by lia.
    exact H3.
Qed.

Lemma year_end_spec z :
  timestamp_min <= z ->
  civil_from_days (year_end z) = (year_of z, 12, 31) /\ z <= year_end z.
Proof.
  intros Hz. pose proof (civil_valid z Hz) as Hv.
  unfold year_end, yday, year_of, month_of, day_of, valid_civil in *.
  destruct (civil_from_days z) as [[y m] dd] eqn:E. cbn [fst snd] in *.
  destruct Hv as [Hm Hd].
  replace (z + (days_before y 12 - 1
                - (days_before y (Z.to_nat (m - 1)) + dd - 1)))
    with (z + (days_before y 12 - days_before y (Z.to_nat (m - 1)) - dd)) by lia.
  split.
  - apply (civil_to_year_end (Z.to_nat (12 - m)) z y m dd); auto; lia.
  - pose proof (days_before_mono y (Z.to_nat m) 12 ltac:(lia)) as Hmono.
    rewrite (days_before_succ y m) in Hmono by lia. lia.
Qed.

(** For every day from the first a Timestamp can hold, the last day of its
    month has its month and year, the last day of its year has its year, and
    neither is before the day. *)
Lemma period_end_spec d :
  timestamp_min <= d ->
  year_of (month_end d) = year_of d /\ month_of (month_end d) = month_of d /\
  d <= month_end d /\
  year_of (year_end d) = year_of d /\ d <= year_end d.
Proof.
  intros H.
  destruct (month_end_spec d H) as [Hm Hmle].
  destruct (year_end_spec d H) as [Hy Hyle].
  split; [unfold year_of at 1; now rewrite Hm|].
  split; [unfold month_of at 1; now rewrite Hm|].
  split; [exact Hmle|].
  split; [unfold year_of at 1; now rewrite Hy|exact Hyle].
Qed.

(** Known days. *)
Example civil_from_days_known :
  civil_from_days timestamp_min = (1677, 9, 22) /\
  civil_from_days 19723 = (2024, 1, 1) /\ weekday 19723 = 0.
Proof. repeat split; vm_compute; reflexivity. Qed.

(** The claim of C9 fails on Tuesday 2024-01-02 (day 19724): its weekly bin
    is not the bin of the Monday before it (2024-01-01, day 19723) but the
    one closed by the Monday after it (2024-01-08, day 19730), and the bar is
    labelled week 01 of 2024 although that closing Monday lies in ISO week
    2. *)
Lemma weekly_bin_not_monday_iso :
  civil_from_days 19724 = (2024, 1, 2) /\ weekday 19724 = 1 /\
  monday_of 19724 = 19723 /\
  bin_label W_MON 19724 <> bin_label W_MON (monday_of 19724) /\
  bin_label W_MON 19724 = 19730 /\
  bin_label W_MON 19730 = 19730 /\
  date_label W_MON (bin_label W_MON 19730) = "Sem. 01 2024"%string /\
  iso_week 19730 = (2024, 2) /\
  date_label W_MON (bin_label W_MON 19730) <> iso_week_label 19730 /\
  ~ (forall d, timestamp_min <= d ->
       bin_label W_MON d = bin_label W_MON (monday_of d) /\
       date_label W_MON (bin_label W_MON d) = iso_week_label d).
Proof.
  assert (Hne : bin_label W_MON 19724 <> bin_label W_MON (monday_of 19724)).
  { vm_compute. discriminate. }
  split; [vm_compute; reflexivity|].
  split; [vm_compute; reflexivity|].
  split; [vm_compute; reflexivity|].
  split; [exact Hne|].
  split; [vm_compute; reflexivity|].
  split; [vm_compute; reflexivity|].
  split; [vm_compute; reflexivity|].
  split; [vm_compute; reflexivity|].
  split; [vm_compute; discriminate|].
  intros H.
  destruct (H 19724) as [Hb _]; [vm_compute; discriminate|].
  exact (Hne Hb).
Qed.

(** C9, as the program has it: a weekly bin ends on a Monday and holds the
    seven days from the Tuesday before, and its bar is labelled with the %U
    week number and the year of that Monday; a monthly bar is labelled with
    the year and month of its days (YYYY-MM) and a yearly bar with their year
    (YYYY). *)
Theorem bins_and_labels (d : date) :
  timestamp_min <= d ->
  (weekday (bin_label W_MON d) = 0 /\
   weekday (bin_label W_MON d - 6) = 1 /\
   (forall d', bin_label W_MON d' = bin_label W_MON d
               <-> bin_label W_MON d - 6 <= d' <= bin_label W_MON d) /\
   date_label W_MON (bin_label W_MON d)
   = ("Sem. " ++ pad2 (week_U (bin_label W_MON d)) ++ " "
      ++ pad4 (year_of (bin_label W_MON d)))%string) /\
  (d <= bin_label ME d /\
   date_label ME (bin_label ME d)
   = (pad4 (year_of d) ++ "-" ++ pad2 (month_of d))%string) /\
  (d <= bin_label YE d /\
   date_label YE (bin_label YE d) = pad4 (year_of d)).
Proof.
  intros Hd. destruct (period_end_spec d Hd) as (Hmy & Hmm & Hmle & Hyy & Hyle).
  cbn [bin_label date_label].
  split; [|split].
  - destruct (week_end_monday_spec d) as [Hw Hr].
    split; [exact Hw|]. split.
    + unfold weekday in *. Z.div_mod_to_equations. lia.
    + split; [intros d'; apply week_end_monday_bin|reflexivity].
  - split; [assumption|]. unfold strftime_month. congruence.
  - split; [assumption|]. unfold strftime_year. congruence.
Qed.

Lemma bins_and_labels_witness :
  timestamp_min <= 19724 /\
  (weekday (bin_label W_MON 19724) = 0 /\
   weekday (bin_label W_MON 19724 - 6) = 1 /\
   (forall d', bin_label W_MON d' = bin_label W_MON 19724
               <-> bin_label W_MON 19724 - 6 <= d' <= bin_label W_MON 19724) /\
   date_label W_MON (bin_label W_MON 19724)
   = ("Sem. " ++ pad2 (week_U (bin_label W_MON 19724)) ++ " "
      ++ pad4 (year_of (bin_label W_MON 19724)))%string) /\
  (19724 <= bin_label ME 19724 /\
   date_label ME (bin_label ME 19724)
   = (pad4 (year_of 19724) ++ "-" ++ pad2 (month_of 19724))%string) /\
  (19724 <= bin_label YE 19724 /\
   date_label YE (bin_label YE 19724) = pad4 (year_of 19724)).
Proof.
  assert (Hd : timestamp_min <= 19724) by (unfold timestamp_min; lia).
  split; [exact Hd|].
  apply (bins_and_labels 19724 Hd).
Defined.

(** ** The merge of all rooms *)

Lemma date_range_seq init stop :
  date_range init stop
  = map (fun i => init + Z.of_nat i) (seq 0 (grid_days init stop)).
Proof. reflexivity. Qed.

Lemma date_range_cons a b :
  a <= b -> date_range a b = a :: date_range (a + 1) b.
Proof.
  intros H. unfold date_range.
  replace (Z.to_nat (b - a + 1)) with (S (Z.to_nat (b - (a + 1) + 1))) by lia.
  cbn [seq map]. f_equal; [lia|].
  rewrite <- seq_shift, map_map. apply map_ext. intros i. lia.
Qed.

Lemma filter_all {A : Type} (p : A -> bool) (l : list A) :
  (forall x, In x l -> p x = true) -> filter p l = l.
Proof.
  induction l as [|a l IH]; intros H; [reflexivity|].
  cbn [filter]. rewrite (H a (or_introl eq_refl)). f_equal.
  apply IH. intros x Hx. apply H. now right.
Qed.

(** The days of the overall range on which a room is open are the days of
    its own grid. *)
Lemma filter_date_range init today : forall n lo,
  n = Z.to_nat (init - lo) -> lo <= init ->
  filter (fun d => init <=? d) (date_range lo today) = date_range init today.
Proof.
  induction n as [|n IH]; intros lo Hn Hlo.
  - assert (lo = init) by lia. subst lo.
    apply filter_all. intros x Hx. apply in_date_range in Hx.
    apply Z.leb_le. lia.
  - destruct (Z_le_gt_dec lo today) as [Hle|Hgt].
    + rewrite (date_range_cons lo today Hle). cbn [filter].
      replace (init <=? lo) with false by (symmetry; apply Z.leb_gt; lia).
      apply IH; lia.
    + rewrite (date_range_empty lo today) by lia.
      rewrite (date_range_empty init today) by lia. reflexivity.
Qed.

Lemma list_min_eq (l : list Z) : forall x,
  (forall y, In y l -> x <= y) -> list_min x l = x.
Proof.
  unfold list_min. induction l as [|a l IH]; intros x H; [reflexivity|].
  cbn [fold_left]. rewrite Z.min_l by (apply H; now left).
  apply IH. intros y Hy. apply H. now right.
Qed.

Lemma index_min_seq init m :
  index_min (map (fun i => init + Z.of_nat i) (seq 0 (S m))) = Some init.
Proof.
  cbn [seq map index_min]. f_equal.
  rewrite list_min_eq; [lia|].
  intros y Hy. apply in_map_iff in Hy. destruct Hy as (i & <- & _). lia.
Qed.

Lemma combine_map {A B C : Type} (f : A -> B) (g : A -> C) (l : list A) :
  combine (map f l) (map g l) = map (fun x => (f x, g x)) l.
Proof.
  induction l as [|a l IH]; [reflexivity|]. cbn [map combine]. now rewrite IH.
Qed.

Lemma set_loc_seq init (v : cell) (h : nat -> cell) m :
  set_loc (map (fun i => init + Z.of_nat i) (seq 0 (S m))) init v
          (map h (seq 0 (S m)))
  = map (fun i => match i with O => v | S _ => h i end) (seq 0 (S m)).
Proof.
  unfold set_loc. rewrite combine_map, map_map. apply map_ext. intros i.
  cbn [fst snd]. destruct i as [|i].
  - replace (init + Z.of_nat 0) with init by (simpl; lia). now rewrite Z.eqb_refl.
  - replace (init + Z.of_nat (S i) =? init) with false; [reflexivity|].
    symmetry. apply Z.eqb_neq. lia.
Qed.

Lemma add_columns_map {A : Type} (f : A -> day) (o : A -> bool) (p : A -> cell)
    (id : Z) (name : string) (l : list A) :
  add_columns (map f l) (map o l) (map p l) id name
  = map (fun x => mk_global_day (f x) (o x) (p x) id name) l.
Proof.
  unfold add_columns. rewrite !combine_map, map_map. reflexivity.
Qed.

Lemma match_nonempty {A B : Type} (l : list A) (x y : B) :
  l <> [] -> match l with [] => x | _ :: _ => y end = y.
Proof. destruct l; [congruence|reflexivity]. Qed.

(** The body of the loop: nothing for a room that starts after [today], and
    otherwise the rows [process_room_data] computes for the room next to the
    added columns. *)
Lemma process_room_global_spec ss lo today r :
  is_unique (map s_date (filter (fun s => s_room_id s =? r_id r) ss)) = true ->
  lo <= r_init_date r ->
  process_room_global ss (date_range lo today) r
  = Ok (if r_init_date r <=? today then Some (frame_of ss today r) else None).
Proof.
  intros Hu Hlo. unfold process_room_global, frame_of.
  set (df := filter (fun s => s_room_id s =? r_id r) ss) in *.
  set (init := r_init_date r) in *. set (initial := r_initial_bankroll r).
  rewrite (filter_date_range init today _ lo eq_refl Hlo).
  destruct (Z.leb_spec init today) as [Hle|Hgt].
  2:{ now rewrite (date_range_empty init today Hgt). }
  destruct (grid_days_pos init today Hle) as [m Hm].
  rewrite date_range_seq, Hm.
  rewrite match_nonempty by (cbn [seq map]; discriminate).
  unfold reindex. rewrite Hu. cbn [bind].
  unfold column. rewrite !map_map.
  refine (eq_trans (seed_then df initial init m _) _).
  unfold ffill.
  rewrite (ffill_from_seq (seeded df initial init) (filled df initial init)
             (filled_seeded_none df initial init)
             (filled_seeded_some df initial init) (S m) O None).
  2:{ intros _. unfold seeded. destruct (obs_at df init); discriminate. }
  2:{ intros j Hj; discriminate. }
  rewrite index_min_seq, Z.eqb_refl.
  rewrite shift1_map_seq, set_loc_seq.
  unfold fillna. rewrite !map_map.
  rewrite !series_sub_map, reset_index_map, add_columns_map.
  unfold global_frame. do 2 f_equal. apply map_ext. intros i.
  unfold reconciled_day, flow_at, activity_at, obs_at.
  destruct (find (fun s => s_date s =? init + Z.of_nat i) df);
    destruct i; reflexivity.
Qed.

Lemma process_rooms_spec ss lo today : forall rs,
  unique_keys ss = true ->
  (forall r, In r rs -> lo <= r_init_date r) ->
  process_rooms ss (date_range lo today) rs
  = Ok (map (frame_of ss today)
            (filter (fun r => r_init_date r <=? today) rs)).
Proof.
  induction rs as [|r rs IH]; intros Hu Hlo; [reflexivity|].
  cbn [process_rooms].
  rewrite process_room_global_spec.
  2:{ apply (unique_keys_room_dates _ (r_id r)); [|exact Hu].
      intros s Hs. now apply Z.eqb_eq. }
  2:{ apply Hlo. now left. }
  cbn [bind]. rewrite IH by (auto; intros x Hx; apply Hlo; now right).
  cbn [bind filter].
  destruct (r_init_date r <=? today); reflexivity.
Qed.

(** The overall range starts on or before the start date of every room. *)
Lemma overall_date_range_spec rooms ss today :
  exists lo, overall_date_range rooms ss today = date_range lo today /\
             forall r, In r rooms -> lo <= r_init_date r.
Proof.
  unfold overall_date_range. eexists. split; [reflexivity|].
  intros r Hr.
  assert (Hin : In (r_init_date r) (map r_init_date rooms)) by now apply in_map.
  destruct (map r_init_date rooms) as [|d ds]; [contradiction|].
  destruct (list_min_le ds d) as [H1 H2].
  destruct Hin as [<-|Hin]; [lia|].
  specialize (H2 _ Hin). lia.
Qed.

Lemma processed_room_dfs_spec rooms ss today :
  unique_keys ss = true ->
  processed_room_dfs rooms ss today
  = Ok (map (frame_of ss today)
            (filter (fun r => r_init_date r <=? today) rooms)).
Proof.
  intros Hu. unfold processed_room_dfs.
  destruct (overall_date_range_spec rooms ss today) as (lo & -> & Hlo).
  now apply process_rooms_spec.
Qed.

(** C1: [process_room_data] returns one row for each day of the grid, and
    for every reconciled day the balance and the flow are those of the
    session of that day (the balance of the row before, or [initial] on the
    first day, and no flow, on a day without session), and
    profit = (balance - flow) - previous balance, the previous balance being
    the balance of the row before and [initial] for the first row, whether or
    not the first day has a session; so previous + profit + flow = balance.
    The loop of [global_stats] builds the same rows for the room. *)
Theorem profit_invariant (df : list session) (initial : Z) (init stop : date) :
  is_unique (map s_date df) = true ->
  init <= stop ->
  exists rows,
    process_room_data df initial init stop = Ok rows /\
    List.length rows = grid_days init stop /\
    (forall i r, nth_error rows i = Some r ->
      exists balance flow profit before,
        d_date r = init + Z.of_nat i /\
        d_bankroll r = Some balance /\
        d_cashflow r = Some flow /\
        d_pure_profit r = Some profit /\
        previous_balance rows initial i = Some before /\
        match obs_at df (init + Z.of_nat i) with
        | Some s => balance = s_bankroll s /\ flow = s_cashflow s
        | None => balance = before /\ flow = 0
        end /\
        profit = (balance - flow) - before /\
        before + profit + flow = balance) /\
    (forall ss lo r,
       filter (fun s => s_room_id s =? r_id r) ss = df ->
       r_initial_bankroll r = initial ->
       r_init_date r = init ->
       lo <= init ->
       exists frame,
         process_room_global ss (date_range lo stop) r = Ok (Some frame) /\
         map g_day frame = rows).
Proof.
  intros Hu Hle. eexists. split; [now apply process_room_data_spec|].
  split; [now rewrite length_map, length_seq|].
  split.
  - intros i r Hr. apply nth_error_map_seq in Hr. destruct Hr as [Hi ->].
    exists (filled df initial init i), (flow_at df init i),
      (filled df initial init i - flow_at df init i - previous df initial init i),
      (previous df initial init i).
    split; [reflexivity|]. split; [reflexivity|]. split; [reflexivity|].
    split; [reflexivity|].
    split.
    { destruct i as [|j]; [reflexivity|].
      cbn [previous_balance previous].
      rewrite nth_error_map_seq_lt by lia. reflexivity. }
    split; [|split; lia].
    unfold flow_at.
    destruct i as [|j]; cbn [filled previous];
      destruct (obs_at df _); split; reflexivity.
  - intros ss lo r Hdf Hinitial Hinit Hlo. subst df initial init.
    rewrite process_room_global_spec by assumption.
    replace (r_init_date r <=? stop) with true by (symmetry; now apply Z.leb_le).
    eexists. split; [reflexivity|].
    unfold frame_of, global_frame. rewrite map_map. reflexivity.
Qed.

Lemma profit_invariant_witness :
  is_unique (map s_date [mk_session 1 1 19725 0 50 170]) = true /\
  19723 <= 19725 /\
  exists rows,
    process_room_data [mk_session 1 1 19725 0 50 170] 100 19723 19725 = Ok rows /\
    List.length rows = grid_days 19723 19725 /\
    (forall i r, nth_error rows i = Some r ->
      exists balance flow profit before,
        d_date r = 19723 + Z.of_nat i /\
        d_bankroll r = Some balance /\
        d_cashflow r = Some flow /\
        d_pure_profit r = Some profit /\
        previous_balance rows 100 i = Some before /\
        match obs_at [mk_session 1 1 19725 0 50 170] (19723 + Z.of_nat i) with
        | Some s => balance = s_bankroll s /\ flow = s_cashflow s
        | None => balance = before /\ flow = 0
        end /\
        profit = (balance - flow) - before /\
        before + profit + flow = balance) /\
    (forall ss lo r,
       filter (fun s => s_room_id s =? r_id r) ss
       = [mk_session 1 1 19725 0 50 170] ->
       r_initial_bankroll r = 100 ->
       r_init_date r = 19723 ->
       lo <= 19723 ->
       exists frame,
         process_room_global ss (date_range lo 19725) r = Ok (Some frame) /\
         map g_day frame = rows).
Proof.
  split; [reflexivity|]. split; [lia|].
  apply (profit_invariant [mk_session 1 1 19725 0 50 170] 100 19723 19725);
    [reflexivity|lia].
Defined.

(** *** Grouping by date *)

Lemma insert_key_In d k keys : In k (insert_key d keys) <-> k = d \/ In k keys.
Proof.
  induction keys as [|x keys IH]; cbn [insert_key In].
  - intuition.
  - destruct (Z.ltb_spec d x); [cbn [In]; intuition|].
    destruct (Z.eqb_spec d x) as [->|]; cbn [In]; [intuition|].
    rewrite IH. intuition.
Qed.

Lemma group_keys_In k dates : In k (group_keys dates) <-> In k dates.
Proof.
  unfold group_keys. induction dates as [|d dates IH]; cbn [fold_right In].
  - reflexivity.
  - rewrite insert_key_In, IH. intuition.
Qed.


Lemma map_filter_comm {A B : Type} (f : A -> B) (p : B -> bool) (l : list A) :
  map f (filter (fun x => p (f x)) l) = filter p (map f l).
Proof.
  induction l as [|a l IH]; [reflexivity|].
  cbn [filter map]. destruct (p (f a)); cbn [map]; now rewrite IH.
Qed.

(** The rows of a grid of [n] days that carry date [d]: one if the day is in
    the grid, none otherwise. *)
Lemma filter_grid_date df initial init d : forall n,
  filter (fun x => d_date x =? d) (map (reconciled_day df initial init) (seq 0 n))
  = if (init <=? d) && (d <? init + Z.of_nat n)
    then [reconciled_day df initial init (Z.to_nat (d - init))]
    else [].
Proof.
  induction n as [|n IH].
  - cbn [seq map filter].
    destruct (Z.leb_spec init d); destruct (Z.ltb_spec d (init + Z.of_nat 0));
      cbn [andb]; try reflexivity; lia.
  - rewrite seq_S, map_app, filter_app, IH. cbn [map filter Nat.add d_date reconciled_day].
    destruct (Z.leb_spec init d); destruct (Z.ltb_spec d (init + Z.of_nat n));
      destruct (Z.ltb_spec d (init + Z.of_nat (S n)));
      destruct (Z.eqb_spec (init + Z.of_nat n) d);
      cbn [andb app]; try reflexivity; try lia.
    replace (Z.to_nat (d - init)) with n by lia. reflexivity.
Qed.

Lemma map_g_day_global_frame df initial init id name n :
  map g_day (global_frame df initial init id name n)
  = map (reconciled_day df initial init) (seq 0 n).
Proof. unfold global_frame. rewrite map_map. reflexivity. Qed.

Lemma group_of_frame ss today r d :
  map g_day (group_of d (frame_of ss today r))
  = if (r_init_date r <=? d) && (d <=? today) then [room_row ss r d] else [].
Proof.
  unfold group_of, frame_of.
  rewrite (map_filter_comm g_day (fun x => d_date x =? d)).
  rewrite map_g_day_global_frame, filter_grid_date. unfold room_row.
  unfold grid_days.
  destruct (Z.leb_spec (r_init_date r) d); destruct (Z.leb_spec d today);
    destruct (Z.ltb_spec d (r_init_date r + Z.of_nat (Z.to_nat (today - r_init_date r + 1))));
    cbn [andb]; try reflexivity; lia.
Qed.

Lemma group_of_frames ss today d : forall rs,
  d <= today ->
  map g_day (group_of d (List.concat (map (frame_of ss today)
               (filter (fun r => r_init_date r <=? today) rs))))
  = map (fun r => room_row ss r d) (active_rooms rs d).
Proof.
  intros rs Hd. unfold active_rooms.
  induction rs as [|r rs IH]; [reflexivity|].
  cbn [filter].
  destruct (Z.leb_spec (r_init_date r) today) as [Hle|Hgt].
  - cbn [map List.concat]. unfold group_of in *.
    rewrite filter_app, map_app, IH.
    fold (group_of d (frame_of ss today r)). rewrite group_of_frame.
    replace (d <=? today) with true by (symmetry; apply Z.leb_le; lia).
    rewrite andb_true_r.
    destruct (r_init_date r <=? d); reflexivity.
  - replace (r_init_date r <=? d) with false by (symmetry; apply Z.leb_gt; lia).
    exact IH.
Qed.

Lemma find_hd_filter {A : Type} (p : A -> bool) (l : list A) :
  find p l = hd_error (filter p l).
Proof.
  induction l as [|a l IH]; [reflexivity|].
  cbn [find filter]. destruct (p a); [reflexivity|exact IH].
Qed.

(** The reconciled row of a room on a day of its grid, and none before its
    start date. *)
Lemma reconciled_at_active ss today r d :
  unique_keys ss = true ->
  r_init_date r <= d <= today ->
  reconciled_at ss today r d = Some (room_row ss r d).
Proof.
  intros Hu Hd. unfold reconciled_at.
  rewrite process_room_data_spec.
  2:{ apply (unique_keys_room_dates _ (r_id r)); [|exact Hu].
      intros s Hs. now apply Z.eqb_eq. }
  2:{ lia. }
  rewrite find_hd_filter, filter_grid_date. unfold grid_days, room_row.
  replace (r_init_date r <=? d) with true by (symmetry; apply Z.leb_le; lia).
  replace (d <? r_init_date r + Z.of_nat (Z.to_nat (today - r_init_date r + 1)))
    with true by (symmetry; apply Z.ltb_lt; lia).
  reflexivity.
Qed.

Lemma reconciled_at_before_start ss today r d :
  d < r_init_date r -> reconciled_at ss today r d = None.
Proof.
  intros Hd. unfold reconciled_at.
  destruct (process_room_data _ _ _ _) as [rows|e] eqn:E; [|reflexivity].
  destruct (find (fun x => d_date x =? d) rows) as [x|] eqn:F; [|reflexivity].
  apply find_some in F. destruct F as [Hin Hx]. apply Z.eqb_eq in Hx.
  exfalso.
  destruct (Z_le_gt_dec (r_init_date r) today) as [Hle|Hgt].
  - destruct (is_unique (map s_date
                (filter (fun s => s_room_id s =? r_id r) ss))) eqn:U.
    + rewrite process_room_data_spec in E by assumption.
      inversion E; subst rows. apply in_map_iff in Hin.
      destruct Hin as (i & <- & _). cbn [d_date reconciled_day] in Hx. lia.
    + unfold process_room_data, reindex in E. rewrite U in E. discriminate.
  - destruct (process_room_data_empty_grid
                (filter (fun s => s_room_id s =? r_id r) ss)
                (r_initial_bankroll r) (r_init_date r) today) as [(e' & He) _];
      [lia|]. rewrite He in E. discriminate.
Qed.

Lemma sum_skipna_g_day (col : day -> cell) (g : list global_day) :
  sum_skipna (map (fun x => col (g_day x)) g) = sum_skipna (map col (map g_day g)).
Proof. now rewrite map_map. Qed.

Lemma in_frame_of ss today r x :
  In x (frame_of ss today r) ->
  g_room_id x = r_id r /\ g_room_name x = r_name r /\
  r_init_date r <= d_date (g_day x) <= today.
Proof.
  unfold frame_of, global_frame. intros H. apply in_map_iff in H.
  destruct H as (i & <- & Hi). apply in_seq in Hi.
  cbn [g_room_id g_room_name g_day d_date reconciled_day].
  unfold grid_days in Hi. repeat split; lia.
Qed.

(** The dates of the concatenated frames are the days on which a room is
    open. *)
Lemma concat_frames_dates ss today d rs :
  In d (map (fun x => d_date (g_day x))
          (List.concat (map (frame_of ss today)
             (filter (fun r => r_init_date r <=? today) rs))))
  <-> exists r, In r rs /\ r_init_date r <= d <= today.
Proof.
  rewrite in_map_iff. split.
  - intros (x & Hx & Hin). apply in_concat in Hin.
    destruct Hin as (f & Hf & Hxf). apply in_map_iff in Hf.
    destruct Hf as (r & <- & Hr). apply filter_In in Hr.
    destruct Hr as [Hr _]. apply in_frame_of in Hxf.
    exists r. split; [exact Hr|]. rewrite <- Hx. tauto.
  - intros (r & Hr & Hd).
    exists (mk_global_day (room_row ss r d)
              (negb (isna (option_map s_bankroll
                 (obs_at (filter (fun s => s_room_id s =? r_id r) ss)
                    (r_init_date r + Z.of_nat (Z.to_nat (d - r_init_date r)))))))
              (Some (filled (filter (fun s => s_room_id s =? r_id r) ss)
                       (r_initial_bankroll r) (r_init_date r)
                       (Z.to_nat (d - r_init_date r))
                     - previous (filter (fun s => s_room_id s =? r_id r) ss)
                         (r_initial_bankroll r) (r_init_date r)
                         (Z.to_nat (d - r_init_date r))))
              (r_id r) (r_name r)).
    split; [cbn [g_day room_row reconciled_day d_date]; lia|].
    apply in_concat. exists (frame_of ss today r). split.
    + apply in_map. apply filter_In. split; [exact Hr|]. apply Z.leb_le. lia.
    + unfold frame_of, global_frame. apply in_map_iff.
      exists (Z.to_nat (d - r_init_date r)). split; [reflexivity|].
      apply in_seq. unfold grid_days. lia.
Qed.

(** No room passes the test of the loop exactly when every room starts after
    [today]. *)
Lemma no_room_started (rs : list room) (today : date) :
  filter (fun r => r_init_date r <=? today) rs = []
  <-> forall r, In r rs -> today < r_init_date r.
Proof.
  induction rs as [|r0 rs IH]; cbn [filter].
  - split; [intros _ r []|reflexivity].
  - destruct (Z.leb_spec (r_init_date r0) today) as [Hle|Hgt].
    + split; [discriminate|]. intros H.
      specialize (H r0 (or_introl eq_refl)). lia.
    + rewrite IH. split.
      * intros H r [<-|Hr]; [exact Hgt|now apply H].
      * intros H r Hr. apply H. now right.
Qed.

(** C6: [global_stats] returns, and it returns a frame unless no room has
    started by [today]; each row of its frame is for a day on which
    at least one room is open, every such day has a row, and the three totals
    of the row are the sums, over the rooms that started on or before that
    day, of the balance, profit and tournaments [process_room_data] gives the
    room for that day.  A room contributes no row to its frame, and has no
    reconciled row, for a day before its start date. *)
Theorem global_stats_totals (rs : list room) (ss : list session) (today : date) :
  unique_keys ss = true ->
  exists res dfs,
    processed_room_dfs rs ss today = Ok dfs /\
    global_stats rs ss today = Ok res /\
    (res = None <-> forall r, In r rs -> today < r_init_date r) /\
    (forall f x, In f dfs -> In x f ->
       exists r, In r rs /\ g_room_id x = r_id r /\ g_room_name x = r_name r /\
                 r_init_date r <= d_date (g_day x) <= today) /\
    (forall r d, d < r_init_date r -> reconciled_at ss today r d = None) /\
    (forall data, res = Some data ->
       (forall d, In d (map t_date data)
                  <-> exists r, In r rs /\ r_init_date r <= d <= today) /\
       (forall t, In t data ->
          exists days,
            map (fun r => reconciled_at ss today r (t_date t))
                (active_rooms rs (t_date t)) = map Some days /\
            t_total_bankroll t = sum_skipna (map d_bankroll days) /\
            t_pure_profit t = sum_skipna (map d_pure_profit days) /\
            t_total_tournaments t = sum_skipna (map d_tournaments days))).
Proof.
  intros Hu.
  set (frames := map (frame_of ss today)
                   (filter (fun r => r_init_date r <=? today) rs)).
  assert (Hdfs : processed_room_dfs rs ss today = Ok frames)
    by (now apply processed_room_dfs_spec).
  exists (match rs with
          | [] => None
          | _ :: _ => match frames with
                      | [] => None
                      | _ :: _ => Some (groupby_date_sum (List.concat frames))
                      end
          end), frames.
  split; [exact Hdfs|]. split.
  { unfold global_stats. destruct rs as [|r0 rs']; [reflexivity|].
    rewrite Hdfs. cbn [bind]. destruct frames; reflexivity. }
  split.
  { rewrite <- no_room_started. unfold frames.
    destruct rs as [|r0 rs']; [split; reflexivity|].
    destruct (filter (fun r => r_init_date r <=? today) (r0 :: rs'));
      cbn [map]; split; intros H; try reflexivity; discriminate. }
  split.
  { intros f x Hf Hx. apply in_map_iff in Hf. destruct Hf as (r & <- & Hr).
    apply filter_In in Hr. destruct Hr as [Hr _].
    exists r. split; [exact Hr|]. exact (in_frame_of ss today r x Hx). }
  split; [intros r d; apply reconciled_at_before_start|].
  intros data Hdata.
  assert (Hd : data = groupby_date_sum (List.concat frames)).
  { destruct rs; [discriminate|]. destruct frames; [discriminate|].
    now inversion Hdata. }
  clear Hdata. subst data.
  assert (Hdates : forall d,
             In d (map t_date (groupby_date_sum (List.concat frames)))
             <-> exists r, In r rs /\ r_init_date r <= d <= today).
  { intros d. unfold groupby_date_sum. rewrite map_map. cbn [t_date].
    rewrite map_id, group_keys_In. apply concat_frames_dates. }
  split; [exact Hdates|].
  intros t Ht.
  assert (Hactive : exists r, In r rs /\ r_init_date r <= t_date t <= today)
    by (apply Hdates; now apply in_map).
  destruct Hactive as (r0 & _ & Hr0).
  unfold groupby_date_sum in Ht. apply in_map_iff in Ht.
  destruct Ht as (d & <- & _). cbn [t_date t_total_bankroll t_pure_profit
                                     t_total_tournaments] in *.
  exists (map (fun r => room_row ss r d) (active_rooms rs d)).
  split.
  { rewrite map_map. apply map_ext_in. intros r Hr.
    apply filter_In in Hr. destruct Hr as [_ Hr]. apply Z.leb_le in Hr.
    apply reconciled_at_active; [exact Hu|lia]. }
  rewrite !sum_skipna_g_day.
  unfold frames. rewrite group_of_frames by lia.
  repeat split.
Qed.

Lemma global_stats_totals_witness :
  unique_keys sample_sessions = true /\
  exists res dfs,
    processed_room_dfs sample_rooms sample_sessions 19726 = Ok dfs /\
    global_stats sample_rooms sample_sessions 19726 = Ok res /\
    (res = None <-> forall r, In r sample_rooms -> 19726 < r_init_date r) /\
    (forall f x, In f dfs -> In x f ->
       exists r, In r sample_rooms /\ g_room_id x = r_id r /\
                 g_room_name x = r_name r /\
                 r_init_date r <= d_date (g_day x) <= 19726) /\
    (forall r d, d < r_init_date r ->
       reconciled_at sample_sessions 19726 r d = None) /\
    (forall data, res = Some data ->
       (forall d, In d (map t_date data)
                  <-> exists r, In r sample_rooms /\ r_init_date r <= d <= 19726) /\
       (forall t, In t data ->
          exists days,
            map (fun r => reconciled_at sample_sessions 19726 r (t_date t))
                (active_rooms sample_rooms (t_date t)) = map Some days /\
            t_total_bankroll t = sum_skipna (map d_bankroll days) /\
            t_pure_profit t = sum_skipna (map d_pure_profit days) /\
            t_total_tournaments t = sum_skipna (map d_tournaments days))).
Proof.
  split; [reflexivity|].
  apply (global_stats_totals sample_rooms sample_sessions 19726). reflexivity.
Defined.

(** The merged frame of the sample: room 2 opens on the third day and adds
    nothing to the first two rows. *)
Example global_stats_sample :
  global_stats sample_rooms sample_sessions 19726
  = Ok (Some [mk_total 19723 100 0 0; mk_total 19724 100 0 0;
              mk_total 19725 180 20 0; mk_total 19726 200 20 1]).
Proof. reflexivity. Qed.

(** * Further properties *)

(** ** The constraints of the tables under the mutations *)

Lemma next_rowid_above (ids : list Z) x : In x ids -> x < next_rowid ids.
Proof.
  destruct ids as [|i rest]; [contradiction|]. intros Hx. cbn [next_rowid].
  destruct (list_max_ge rest i) as [H1 H2].
  destruct Hx as [<-|Hx]; [lia|]. specialize (H2 _ Hx). lia.
Qed.

Lemma next_rowid_fresh (ids : list Z) : ~ In (next_rowid ids) ids.
Proof. intros H. apply next_rowid_above in H. lia. Qed.

Lemma NoDup_app_fresh {A : Type} (l : list A) (x : A) :
  NoDup l -> ~ In x l -> NoDup (l ++ [x]).
Proof.
  intros Hl Hx. apply NoDup_app; [exact Hl|repeat constructor; auto|].
  intros y Hy [<-|[]]. contradiction.
Qed.

(** The UNIQUE constraint only looks at room and date. *)
Lemma unique_keys_map (f : session -> session) (ss : list session) :
  (forall s, s_room_id (f s) = s_room_id s /\ s_date (f s) = s_date s) ->
  unique_keys (map f ss) = unique_keys ss.
Proof.
  intros Hf.
  assert (Hex : forall r d l,
             existsb (same_key r d) (map f l) = existsb (same_key r d) l).
  { intros r d l. induction l as [|x l IHl]; [reflexivity|].
    cbn [map existsb]. rewrite IHl. f_equal.
    unfold same_key. now destruct (Hf x) as [-> ->]. }
  induction ss as [|a rest IH]; [reflexivity|].
  cbn [map unique_keys]. rewrite IH, Hex.
  now destruct (Hf a) as [-> ->].
Qed.

Lemma unique_keys_filter (p : session -> bool) (ss : list session) :
  unique_keys ss = true -> unique_keys (filter p ss) = true.
Proof.
  induction ss as [|a rest IH]; intros H; [reflexivity|].
  cbn [unique_keys] in H. apply andb_true_iff in H. destruct H as [Ha Hrest].
  cbn [filter]. destruct (p a); [|now apply IH].
  cbn [unique_keys]. rewrite (IH Hrest), andb_true_r.
  apply negb_true_iff. apply negb_true_iff in Ha.
  destruct (existsb (same_key (s_room_id a) (s_date a)) (filter p rest)) eqn:E;
    [|reflexivity].
  apply existsb_exists in E. destruct E as (x & Hx & Hk).
  apply filter_In in Hx. destruct Hx as [Hx _].
  assert (existsb (same_key (s_room_id a) (s_date a)) rest = true)
    by (apply existsb_exists; now exists x).
  congruence.
Qed.

Lemma NoDup_map_filter {Row Key : Type} (key : Row -> Key) (keep : Row -> bool)
    (rows : list Row) :
  NoDup (map key rows) -> NoDup (map key (filter keep rows)).
Proof.
  induction rows as [|row rows IH]; intros Hkeys; [constructor|].
  cbn [map] in Hkeys. inversion Hkeys as [|? ? Hfresh Hrest]; subst.
  cbn [filter]. destruct (keep row); [|now apply IH].
  cbn [map]. constructor; [|now apply IH].
  intros Hin. apply Hfresh. apply in_map_iff in Hin.
  destruct Hin as (x & Hx & Hxin). apply filter_In in Hxin.
  apply in_map_iff. exists x. tauto.
Qed.

Lemma extends_refl (h : list edit) : extends h h.
Proof. exists []. now rewrite app_nil_r. Qed.

Lemma extends_app (h added : list edit) : extends h (h ++ added).
Proof. now exists added. Qed.

Lemma upsert_session_ids ss room_id d t c b :
  NoDup (map s_id ss) ->
  NoDup (map s_id (fst (upsert_session ss room_id d t c b))).
Proof.
  intros H. unfold upsert_session.
  destruct (existsb (same_key room_id d) ss); cbn [fst].
  - rewrite map_map.
    replace (map (fun x => s_id (if same_key room_id d x
                                 then mk_session (s_id x) (s_room_id x) (s_date x)
                                        (s_tournaments x + t) (s_cashflow x + c) b
                                 else x)) ss)
      with (map s_id ss); [exact H|].
    apply map_ext. intros x. now destruct (same_key room_id d x).
  - rewrite map_app. cbn [map s_id]. apply NoDup_app_fresh; [exact H|].
    apply next_rowid_fresh.
Qed.

Lemma upsert_session_keys ss room_id d t c b :
  unique_keys ss = true ->
  unique_keys (fst (upsert_session ss room_id d t c b)) = true.
Proof.
  intros H. unfold upsert_session.
  destruct (existsb (same_key room_id d) ss) eqn:E; cbn [fst].
  - rewrite unique_keys_map; [exact H|].
    intros s. now destruct (same_key room_id d s).
  - now apply unique_keys_insert.
Qed.

(** X1: [add_session] keeps the constraints of the tables (in particular
    at most one session per room and date), leaves the rooms as they are and
    appends exactly one entry to the history. *)
Theorem add_session_keeps_constraints (st : db) (room_id : Z) (d : date)
    (t c b : Z) :
  wf_db st ->
  wf_db (add_session st room_id d t c b) /\
  rooms (add_session st room_id d t c b) = rooms st /\
  exists e, edits_history (add_session st room_id d t c b)
            = edits_history st ++ [e].
Proof.
  intros (Hk & Hs & Hr & Hn).
  destruct (add_session_always_create st room_id d t c b) as [id ->].
  cbn [rooms sessions edits_history]. split; [|split; [reflexivity|eauto]].
  unfold wf_db. cbn [rooms sessions].
  split; [now apply upsert_session_keys|].
  split; [now apply upsert_session_ids|]. split; assumption.
Qed.

Lemma sample_db_wf : wf_db sample_db.
Proof.
  unfold wf_db. cbn.
  split; [reflexivity|].
  repeat split; repeat constructor; cbn; intuition discriminate.
Qed.

Lemma add_session_keeps_constraints_witness :
  wf_db sample_db /\
  wf_db (add_session sample_db 1 19725 2 10 190) /\
  rooms (add_session sample_db 1 19725 2 10 190) = rooms sample_db /\
  exists e, edits_history (add_session sample_db 1 19725 2 10 190)
            = edits_history sample_db ++ [e].
Proof.
  split; [exact sample_db_wf|].
  apply (add_session_keeps_constraints sample_db 1 19725 2 10 190).
  exact sample_db_wf.
Defined.

Lemma total_of_app {A : Type} (value : A -> Z) (l1 l2 : list A) :
  total_of value (l1 ++ l2) = total_of value l1 + total_of value l2.
Proof.
  induction l1 as [|a l1 IH]; [reflexivity|].
  cbn [app]. rewrite !total_of_cons, IH. lia.
Qed.

Lemma sessions_add_session st room_id d t c b :
  sessions (add_session st room_id d t c b)
  = fst (upsert_session (sessions st) room_id d t c b).
Proof.
  destruct (add_session_always_create st room_id d t c b) as [id ->].
  reflexivity.
Qed.

(** The merge of the upsert, summed over the sessions of the room: a column
    [col] to which the upsert adds [v] grows by [v]. *)
Lemma upsert_session_total (col : session -> Z) (v : Z) ss room_id d t c b :
  (forall s, col (mk_session (s_id s) (s_room_id s) (s_date s)
                    (s_tournaments s + t) (s_cashflow s + c) b)
             = col s + v) ->
  (forall id, col (mk_session id room_id d t c b) = v) ->
  unique_keys ss = true ->
  total_of col (filter (fun s => s_room_id s =? room_id)
                       (fst (upsert_session ss room_id d t c b)))
  = total_of col (filter (fun s => s_room_id s =? room_id) ss) + v.
Proof.
  intros Hupd Hnew Hu. unfold upsert_session.
  destruct (existsb (same_key room_id d) ss) eqn:E; cbn [fst].
  - set (upd := fun s => if same_key room_id d s
                         then mk_session (s_id s) (s_room_id s) (s_date s)
                                (s_tournaments s + t) (s_cashflow s + c) b
                         else s).
    induction ss as [|a rest IH]; [discriminate|].
    cbn [unique_keys] in Hu. apply andb_true_iff in Hu. destruct Hu as [Ha Hrest].
    apply negb_true_iff in Ha.
    cbn [existsb] in E. cbn [map filter].
    destruct (same_key room_id d a) eqn:Ka.
    + apply same_key_spec in Ka. destruct Ka as [Kr Kd].
      assert (Hsame : map upd rest = rest).
      { rewrite <- (map_id rest) at 2. apply map_ext_in. intros x Hx.
        unfold upd. destruct (same_key room_id d x) eqn:Kx; [|reflexivity].
        apply same_key_spec in Kx. destruct Kx as [Kxr Kxd].
        assert (existsb (same_key (s_room_id a) (s_date a)) rest = true).
        { apply existsb_exists. exists x. split; [exact Hx|].
          apply same_key_spec. split; congruence. }
        congruence. }
      rewrite Hsame. unfold upd at 1 2.
      assert (Ka : same_key room_id d a = true) by (now apply same_key_spec).
      assert (Hroom : (s_room_id a =? room_id) = true) by (now apply Z.eqb_eq).
      rewrite Ka. cbn [s_room_id]. rewrite Hroom.
      rewrite !total_of_cons, Hupd. lia.
    + cbn [orb] in E. unfold upd at 1 2. rewrite Ka.
      destruct (s_room_id a =? room_id); rewrite ?total_of_cons, (IH Hrest E); lia.
  - rewrite filter_app. cbn [filter s_room_id]. rewrite Z.eqb_refl.
    rewrite total_of_app, total_of_cons, Hnew. cbn. lia.
Qed.

(** X2: under the UNIQUE constraint, one call of [add_session] raises the
    room's total cashflow by the cashflow given and its total of tournaments
    by the tournaments given, whether the day already had a session or not;
    the sessions of the other rooms are left as they are. *)
Theorem add_session_adds_flows (st : db) (room_id : Z) (d : date) (t c b : Z) :
  unique_keys (sessions st) = true ->
  total_of s_cashflow (sessions_of (add_session st room_id d t c b) room_id)
  = total_of s_cashflow (sessions_of st room_id) + c /\
  total_of s_tournaments (sessions_of (add_session st room_id d t c b) room_id)
  = total_of s_tournaments (sessions_of st room_id) + t /\
  forall other, other <> room_id ->
    sessions_of (add_session st room_id d t c b) other = sessions_of st other.
Proof.
  intros Hu. unfold sessions_of. rewrite sessions_add_session.
  split; [|split].
  - apply (upsert_session_total s_cashflow c); auto.
  - apply (upsert_session_total s_tournaments t); auto.
  - intros other Hne. clear Hu. unfold upsert_session.
    destruct (existsb (same_key room_id d) (sessions st)); cbn [fst].
    + induction (sessions st) as [|a rest IH]; [reflexivity|].
      cbn [map filter]. rewrite IH.
      destruct (same_key room_id d a) eqn:Ka; [|reflexivity].
      apply same_key_spec in Ka. destruct Ka as [Kr _].
      cbn [s_room_id]. rewrite Kr.
      destruct (Z.eqb_spec room_id other); [congruence|reflexivity].
    + rewrite filter_app. cbn [filter s_room_id].
      destruct (Z.eqb_spec room_id other); [congruence|].
      now rewrite app_nil_r.
Qed.

Lemma add_session_adds_flows_witness :
  unique_keys (sessions sample_db) = true /\
  total_of s_cashflow (sessions_of (add_session sample_db 1 19725 2 10 190) 1)
  = total_of s_cashflow (sessions_of sample_db 1) + 10 /\
  total_of s_tournaments (sessions_of (add_session sample_db 1 19725 2 10 190) 1)
  = total_of s_tournaments (sessions_of sample_db 1) + 2 /\
  forall other, other <> 1 ->
    sessions_of (add_session sample_db 1 19725 2 10 190) other
    = sessions_of sample_db other.
Proof.
  split; [reflexivity|].
  apply (add_session_adds_flows sample_db 1 19725 2 10 190). reflexivity.
Defined.

Lemma existsb_name_false (name : string) (rs : list room) :
  existsb (fun r => String.eqb (r_name r) name) rs = false ->
  ~ In name (map r_name rs).
Proof.
  intros H Hin. apply in_map_iff in Hin. destruct Hin as (r & Hr & Hin).
  assert (existsb (fun r => String.eqb (r_name r) name) rs = true).
  { apply existsb_exists. exists r. split; [exact Hin|].
    now apply String.eqb_eq. }
  congruence.
Qed.

Lemma existsb_name_true (name : string) (rs : list room) :
  In name (map r_name rs) ->
  existsb (fun r => String.eqb (r_name r) name) rs = true.
Proof.
  intros Hin. apply in_map_iff in Hin. destruct Hin as (r & Hr & Hin).
  apply existsb_exists. exists r. split; [exact Hin|].
  now apply String.eqb_eq.
Qed.

(** X3: [setup_rooms] is all or nothing.  With a name that is already
    taken it changes nothing and warns; whatever the outcome it keeps the
    constraints of the tables, a refusal leaves the database as it was, and
    it never writes to the history. *)
Theorem setup_rooms_all_or_nothing (st : db) (room : string) (br : Z)
    (init_date : date) :
  wf_db st ->
  (In room (map r_name (rooms st)) ->
   setup_rooms st room br init_date = (st, false)) /\
  wf_db (fst (setup_rooms st room br init_date)) /\
  (snd (setup_rooms st room br init_date) = false ->
   fst (setup_rooms st room br init_date) = st) /\
  edits_history (fst (setup_rooms st room br init_date)) = edits_history st.
Proof.
  intros Hwf. pose proof Hwf as (Hk & Hs & Hr & Hn).
  unfold setup_rooms, insert_room, insert_session.
  destruct (existsb (fun r => String.eqb (r_name r) room) (rooms st)) eqn:En;
    cbn [bind fst snd].
  { repeat split; auto. }
  apply existsb_name_false in En.
  destruct (existsb (same_key (next_rowid (map r_id (rooms st))) init_date)
              (sessions st)) eqn:Ek; cbn [bind fst snd].
  { repeat split; auto. }
  split; [intros Hin; contradiction|].
  split; [|split; [discriminate|reflexivity]].
  unfold wf_db. cbn [rooms sessions].
  split; [now apply unique_keys_insert|].
  rewrite !map_app. cbn [map s_id r_id r_name].
  split; [apply NoDup_app_fresh; [exact Hs|apply next_rowid_fresh]|].
  split; [apply NoDup_app_fresh; [exact Hr|apply next_rowid_fresh]|].
  now apply NoDup_app_fresh.
Qed.

Lemma setup_rooms_all_or_nothing_witness :
  wf_db sample_db /\
  (In "PMU"%string (map r_name (rooms sample_db)) ->
   setup_rooms sample_db "PMU" 30 19730 = (sample_db, false)) /\
  wf_db (fst (setup_rooms sample_db "PMU" 30 19730)) /\
  (snd (setup_rooms sample_db "PMU" 30 19730) = false ->
   fst (setup_rooms sample_db "PMU" 30 19730) = sample_db) /\
  edits_history (fst (setup_rooms sample_db "PMU" 30 19730))
  = edits_history sample_db.
Proof.
  split; [exact sample_db_wf|].
  apply (setup_rooms_all_or_nothing sample_db "PMU" 30 19730).
  exact sample_db_wf.
Defined.

(** X4: [delete_room] keeps the constraints of the tables and touches no
    other room: the remaining rooms are the rooms with another id, in the
    same order, and each keeps its sessions. *)
Theorem delete_room_keeps_others (st : db) (room_id : Z) :
  wf_db st ->
  wf_db (delete_room st room_id) /\
  rooms (delete_room st room_id)
  = filter (fun r => negb (r_id r =? room_id)) (rooms st) /\
  forall other, other <> room_id ->
    sessions_of (delete_room st room_id) other = sessions_of st other.
Proof.
  intros (Hk & Hs & Hr & Hn). unfold delete_room, sessions_of.
  cbn [rooms sessions]. split; [|split; [reflexivity|]].
  - unfold wf_db. cbn [rooms sessions].
    split; [now apply unique_keys_filter|].
    split; [now apply NoDup_map_filter|].
    split; now apply NoDup_map_filter.
  - intros other Hne. clear Hk Hs.
    induction (sessions st) as [|a rest IH]; [reflexivity|].
    cbn [filter].
    destruct (Z.eqb_spec (s_room_id a) room_id) as [E|E]; cbn [negb filter].
    + rewrite E. destruct (Z.eqb_spec room_id other); [congruence|].
      apply IH.
    + destruct (s_room_id a =? other); [f_equal|]; apply IH.
Qed.

Lemma delete_room_keeps_others_witness :
  wf_db sample_db /\
  wf_db (delete_room sample_db 1) /\
  rooms (delete_room sample_db 1)
  = filter (fun r => negb (r_id r =? 1)) (rooms sample_db) /\
  forall other, other <> 1 ->
    sessions_of (delete_room sample_db 1) other = sessions_of sample_db other.
Proof.
  split; [exact sample_db_wf|].
  apply (delete_room_keeps_others sample_db 1). exact sample_db_wf.
Defined.

(** ** [session_history]: correcting and deleting a session *)

Lemma update_session_row_raise ss sid nd t c b :
  date_taken ss sid nd ->
  update_session_row ss sid nd t c b = Raise IntegrityError.
Proof.
  intros (s & o & Hs & Ho & Hid & Hoid & Hr & Hd).
  unfold update_session_row.
  replace (existsb _ ss) with true; [reflexivity|].
  symmetry. apply existsb_exists. exists s. split; [exact Hs|].
  apply andb_true_iff. split; [now apply Z.eqb_eq|].
  apply existsb_exists. exists o. split; [exact Ho|].
  apply andb_true_iff. split.
  - apply negb_true_iff. now apply Z.eqb_neq.
  - now apply same_key_spec.
Qed.

Lemma update_session_row_ok ss sid nd t c b :
  ~ date_taken ss sid nd ->
  update_session_row ss sid nd t c b
  = Ok (map (fun s => if s_id s =? sid
                      then mk_session (s_id s) (s_room_id s) nd t c b
                      else s) ss).
Proof.
  intros Hn. unfold update_session_row.
  destruct (existsb _ ss) eqn:E; [|reflexivity].
  exfalso. apply Hn.
  apply existsb_exists in E. destruct E as (s & Hs & E).
  apply andb_true_iff in E. destruct E as [Hid E].
  apply existsb_exists in E. destruct E as (o & Ho & E).
  apply andb_true_iff in E. destruct E as [Hoid Hk].
  apply negb_true_iff, Z.eqb_neq in Hoid. apply Z.eqb_eq in Hid.
  apply same_key_spec in Hk. exists s, o. tauto.
Qed.

Lemma date_taken_dec ss sid nd : date_taken ss sid nd \/ ~ date_taken ss sid nd.
Proof.
  destruct (update_session_row ss sid nd 0 0 0) as [l|e] eqn:E.
  - right. intros H. rewrite (update_session_row_raise _ _ _ _ _ _ H) in E.
    discriminate.
  - left. unfold update_session_row in E.
    destruct (existsb _ ss) eqn:X; [|discriminate].
    apply existsb_exists in X. destruct X as (s & Hs & X).
    apply andb_true_iff in X. destruct X as [Hid X].
    apply existsb_exists in X. destruct X as (o & Ho & X).
    apply andb_true_iff in X. destruct X as [Hoid Hk].
    apply negb_true_iff, Z.eqb_neq in Hoid. apply Z.eqb_eq in Hid.
    apply same_key_spec in Hk. exists s, o. tauto.
Qed.

(** An accepted UPDATE keeps the UNIQUE constraint. *)
Lemma update_keeps_unique_keys ss sid nd t c b :
  ~ date_taken ss sid nd ->
  NoDup (map s_id ss) ->
  forall l, incl l ss -> unique_keys l = true -> NoDup (map s_id l) ->
    unique_keys (map (fun s => if s_id s =? sid
                               then mk_session (s_id s) (s_room_id s) nd t c b
                               else s) l) = true.
Proof.
  intros Hn _. set (upd := fun s => if s_id s =? sid
                                    then mk_session (s_id s) (s_room_id s) nd t c b
                                    else s).
  induction l as [|a rest IH]; intros Hincl Hu Hnd; [reflexivity|].
  cbn [unique_keys] in Hu. apply andb_true_iff in Hu. destruct Hu as [Ha Hrest].
  apply negb_true_iff in Ha.
  cbn [map] in Hnd. inversion Hnd as [|? ? Hnotin Hnd']; subst.
  cbn [map unique_keys].
  rewrite IH; [|intros x Hx; apply Hincl; now right|exact Hrest|exact Hnd'].
  rewrite andb_true_r. apply negb_true_iff.
  destruct (existsb (same_key (s_room_id (upd a)) (s_date (upd a))) (map upd rest))
    eqn:E; [|reflexivity].
  exfalso. apply existsb_exists in E. destruct E as (o' & Ho' & Hk).
  apply in_map_iff in Ho'. destruct Ho' as (o & <- & Ho).
  apply same_key_spec in Hk. destruct Hk as [Hkr Hkd].
  assert (Hain : In a ss) by (apply Hincl; now left).
  assert (Hoin : In o ss) by (apply Hincl; now right).
  unfold upd in Hkr, Hkd.
  destruct (Z.eqb_spec (s_id a) sid) as [Ea|Ea];
    destruct (Z.eqb_spec (s_id o) sid) as [Eo|Eo];
    cbn [s_room_id s_date] in Hkr, Hkd.
  - apply Hnotin. apply in_map_iff. exists o. split; [congruence|exact Ho].
  - apply Hn. exists a, o. tauto.
  - apply Hn. exists o, a. repeat split; auto.
  - assert (existsb (same_key (s_room_id a) (s_date a)) rest = true).
    { apply existsb_exists. exists o. split; [exact Ho|]. now apply same_key_spec. }
    congruence.
Qed.

(** X5: saving a correction is all or nothing and keeps the constraints of
    the tables.  When another session of the same room already has the new
    date nothing is written, not even the history entry inserted before the
    UPDATE; otherwise one UPDATE entry is appended and the session with the
    id in the input field, and only it, takes the new date and values. *)
Theorem save_session_all_or_nothing
    (str_view : date -> string -> Z -> Z -> Z -> value)
    (str_new : date -> Z -> Z -> Z -> value)
    (st : db) (session_data : session_view) (session_id : Z) (new_date : date)
    (t c b : Z) :
  wf_db st ->
  wf_db (save_session str_view str_new st session_data session_id new_date t c b) /\
  (date_taken (sessions st) session_id new_date ->
   save_session str_view str_new st session_data session_id new_date t c b = st) /\
  (~ date_taken (sessions st) session_id new_date ->
   save_session str_view str_new st session_data session_id new_date t c b
   = mk_db (rooms st)
       (map (fun s => if s_id s =? session_id
                      then mk_session (s_id s) (s_room_id s) new_date t c b
                      else s) (sessions st))
       (edits_history st ++
        [mk_edit "sessions" session_id
           (str_view (v_date session_data) (v_room session_data)
              (v_tournaments session_data) (v_cashflow session_data)
              (v_bankroll session_data))
           (str_new new_date t c b) "UPDATE"])).
Proof.
  intros Hwf. pose proof Hwf as (Hk & Hs & Hr & Hn).
  assert (Hraise : date_taken (sessions st) session_id new_date ->
                   save_session str_view str_new st session_data session_id
                     new_date t c b = st).
  { intros H. unfold save_session. now rewrite update_session_row_raise. }
  assert (Hok : ~ date_taken (sessions st) session_id new_date ->
                save_session str_view str_new st session_data session_id
                  new_date t c b
                = mk_db (rooms st)
                    (map (fun s => if s_id s =? session_id
                                   then mk_session (s_id s) (s_room_id s) new_date t c b
                                   else s) (sessions st))
                    (edits_history st ++
                     [mk_edit "sessions" session_id
                        (str_view (v_date session_data) (v_room session_data)
                           (v_tournaments session_data) (v_cashflow session_data)
                           (v_bankroll session_data))
                        (str_new new_date t c b) "UPDATE"])).
  { intros H. unfold save_session. now rewrite update_session_row_ok. }
  split; [|split; assumption].
  destruct (date_taken_dec (sessions st) session_id new_date) as [H|H].
  - now rewrite Hraise.
  - rewrite (Hok H). unfold wf_db. cbn [rooms sessions].
    split; [apply (update_keeps_unique_keys (sessions st)); auto;
            intros x Hx; exact Hx|].
    split; [|split; assumption].
    rewrite map_map.
    replace (map (fun x => s_id (if s_id x =? session_id
                                 then mk_session (s_id x) (s_room_id x) new_date t c b
                                 else x)) (sessions st))
      with (map s_id (sessions st)); [exact Hs|].
    apply map_ext. intros x. now destruct (s_id x =? session_id).
Qed.

Lemma save_session_all_or_nothing_witness :
  wf_db sample_db /\
  wf_db (save_session (fun d _ t c b => SessionDict d t c b) SessionDict
           sample_db (mk_session_view 3 19726 "PMU" 1 0 30) 3 19725 1 0 30) /\
  (date_taken (sessions sample_db) 3 19725 ->
   save_session (fun d _ t c b => SessionDict d t c b) SessionDict
     sample_db (mk_session_view 3 19726 "PMU" 1 0 30) 3 19725 1 0 30
   = sample_db) /\
  (~ date_taken (sessions sample_db) 3 19725 ->
   save_session (fun d _ t c b => SessionDict d t c b) SessionDict
     sample_db (mk_session_view 3 19726 "PMU" 1 0 30) 3 19725 1 0 30
   = mk_db (rooms sample_db)
       (map (fun s => if s_id s =? 3
                      then mk_session (s_id s) (s_room_id s) 19725 1 0 30
                      else s) (sessions sample_db))
       (edits_history sample_db ++
        [mk_edit "sessions" 3 (SessionDict 19726 1 0 30)
           (SessionDict 19725 1 0 30) "UPDATE"])).
Proof.
  split; [exact sample_db_wf|].
  apply (save_session_all_or_nothing (fun d _ t c b => SessionDict d t c b)
           SessionDict sample_db (mk_session_view 3 19726 "PMU" 1 0 30)
           3 19725 1 0 30).
  exact sample_db_wf.
Defined.

(** In the sample, moving session 3 of room 2 onto the day of session 2 of
    the same room is refused and leaves the database as it was. *)
Example save_session_refused_sample :
  save_session (fun d _ t c b => SessionDict d t c b) SessionDict
    sample_db (mk_session_view 3 19726 "PMU" 1 0 30) 3 19725 1 0 30
  = sample_db.
Proof. reflexivity. Qed.

Lemma find_unique_id (ss : list session) (s : session) :
  NoDup (map s_id ss) -> In s ss ->
  find (fun x => s_id x =? s_id s) ss = Some s.
Proof.
  induction ss as [|a rest IH]; intros Hnd Hin; [contradiction|].
  cbn [map] in Hnd. inversion Hnd as [|? ? Hnotin Hnd']; subst.
  cbn [find]. destruct Hin as [->|Hin].
  - now rewrite Z.eqb_refl.
  - destruct (Z.eqb_spec (s_id a) (s_id s)) as [E|E]; [|now apply IH].
    exfalso. apply Hnotin. rewrite E. now apply in_map.
Qed.

Lemma filter_out_one (ss : list session) (s : session) :
  NoDup (map s_id ss) -> In s ss ->
  S (List.length (filter (fun x => negb (s_id x =? s_id s)) ss)) = List.length ss.
Proof.
  induction ss as [|a rest IH]; intros Hnd Hin; [contradiction|].
  cbn [map] in Hnd. inversion Hnd as [|? ? Hnotin Hnd']; subst.
  cbn [filter]. destruct Hin as [->|Hin].
  - rewrite Z.eqb_refl. cbn [negb List.length]. f_equal.
    f_equal. apply filter_all. intros x Hx.
    apply negb_true_iff, Z.eqb_neq. intros E. apply Hnotin.
    rewrite <- E. now apply in_map.
  - destruct (Z.eqb_spec (s_id a) (s_id s)) as [E|E].
    + exfalso. apply Hnotin. rewrite E. now apply in_map.
    + cbn [negb List.length]. f_equal. now apply IH.
Qed.

(** X6: "Supprimer la session" removes the session with the given id and it
    alone, after writing its row (date, room name, tournaments, cashflow,
    bankroll) to the history as a DELETE entry; it keeps the constraints of
    the tables.  An unknown id, or a session whose room is missing, changes
    nothing and gives the warning. *)
Theorem delete_session_exactly_one
    (str_view : date -> string -> Z -> Z -> Z -> value) (st : db) (id : Z) :
  wf_db st ->
  wf_db (fst (delete_session str_view st id)) /\
  (~ In id (map s_id (sessions st)) ->
   delete_session str_view st id = (st, false)) /\
  (forall s, In s (sessions st) -> s_id s = id ->
     ~ In (s_room_id s) (map r_id (rooms st)) ->
     delete_session str_view st id = (st, false)) /\
  (forall s r, In s (sessions st) -> s_id s = id ->
     In r (rooms st) -> r_id r = s_room_id s ->
     delete_session str_view st id
     = (mk_db (rooms st)
          (filter (fun x => negb (s_id x =? id)) (sessions st))
          (edits_history st ++
           [mk_edit "sessions" id
              (str_view (s_date s) (r_name r) (s_tournaments s)
                 (s_cashflow s) (s_bankroll s))
              (Literal "DELETED") "DELETE"]),
        true) /\
     ~ In s (sessions (fst (delete_session str_view st id))) /\
     S (List.length (sessions (fst (delete_session str_view st id))))
     = List.length (sessions st)).
Proof.
  intros (Hk & Hs & Hr & Hn). split; [|split; [|split]].
  - unfold delete_session. destruct (load_session st id); cbn [fst]; unfold wf_db.
    + cbn [rooms sessions].
      split; [now apply unique_keys_filter|].
      split; [now apply NoDup_map_filter|]. split; assumption.
    + repeat split; assumption.
  - intros Hnot. unfold delete_session, load_session.
    destruct (find (fun s => s_id s =? id) (sessions st)) as [s|] eqn:E;
      [|reflexivity].
    apply find_some in E. destruct E as [Hin Hid]. apply Z.eqb_eq in Hid.
    exfalso. apply Hnot. rewrite <- Hid. now apply in_map.
  - intros s Hin Hid Horphan. unfold delete_session, load_session.
    subst id. rewrite (find_unique_id _ _ Hs Hin).
    destruct (find (fun r => r_id r =? s_room_id s) (rooms st)) as [r|] eqn:E;
      [|reflexivity].
    apply find_some in E. destruct E as [Hrin Hrid]. apply Z.eqb_eq in Hrid.
    exfalso. apply Horphan. rewrite <- Hrid. now apply in_map.
  - intros s r Hin Hid Hrin Hrid. subst id.
    assert (Hfr : find (fun x => r_id x =? s_room_id s) (rooms st) = Some r).
    { clear Hn. induction (rooms st) as [|a rest IH]; [contradiction|].
      cbn [map] in Hr. inversion Hr as [|? ? Hnotin Hr']; subst.
      cbn [find]. destruct Hrin as [->|Hrin].
      - rewrite Hrid. now rewrite Z.eqb_refl.
      - destruct (Z.eqb_spec (r_id a) (s_room_id s)) as [E|E]; [|now apply IH].
        exfalso. apply Hnotin. rewrite E, <- Hrid. now apply in_map. }
    assert (Hdel : delete_session str_view st (s_id s)
                   = (mk_db (rooms st)
                        (filter (fun x => negb (s_id x =? s_id s)) (sessions st))
                        (edits_history st ++
                         [mk_edit "sessions" (s_id s)
                            (str_view (s_date s) (r_name r) (s_tournaments s)
                               (s_cashflow s) (s_bankroll s))
                            (Literal "DELETED") "DELETE"]),
                      true)).
    { unfold delete_session, load_session.
      rewrite (find_unique_id _ _ Hs Hin), Hfr. reflexivity. }
    rewrite Hdel. cbn [fst sessions].
    split; [reflexivity|]. split.
    + intros H. apply filter_In in H. destruct H as [_ H].
      rewrite Z.eqb_refl in H. discriminate.
    + now apply filter_out_one.
Qed.

Lemma delete_session_exactly_one_witness :
  wf_db sample_db /\
  wf_db (fst (delete_session (fun d _ t c b => SessionDict d t c b) sample_db 3)) /\
  (~ In 3 (map s_id (sessions sample_db)) ->
   delete_session (fun d _ t c b => SessionDict d t c b) sample_db 3
   = (sample_db, false)) /\
  (forall s, In s (sessions sample_db) -> s_id s = 3 ->
     ~ In (s_room_id s) (map r_id (rooms sample_db)) ->
     delete_session (fun d _ t c b => SessionDict d t c b) sample_db 3
     = (sample_db, false)) /\
  (forall s r, In s (sessions sample_db) -> s_id s = 3 ->
     In r (rooms sample_db) -> r_id r = s_room_id s ->
     delete_session (fun d _ t c b => SessionDict d t c b) sample_db 3
     = (mk_db (rooms sample_db)
          (filter (fun x => negb (s_id x =? 3)) (sessions sample_db))
          (edits_history sample_db ++
           [mk_edit "sessions" 3
              (SessionDict (s_date s) (s_tournaments s) (s_cashflow s)
                 (s_bankroll s))
              (Literal "DELETED") "DELETE"]),
        true) /\
     ~ In s (sessions (fst (delete_session
                              (fun d _ t c b => SessionDict d t c b) sample_db 3))) /\
     S (List.length (sessions (fst (delete_session
                                     (fun d _ t c b => SessionDict d t c b)
                                     sample_db 3))))
     = List.length (sessions sample_db)).
Proof.
  split; [exact sample_db_wf|].
  apply (delete_session_exactly_one (fun d _ t c b => SessionDict d t c b)
           sample_db 3).
  exact sample_db_wf.
Defined.

(** ** [edit_initial_bankroll] *)

(** X7: correcting the initial bankroll and start date of a room keeps the
    constraints of the tables, rewrites the row of that room only (same id
    and name), appends one UPDATE_INITIAL_BR_DATE entry holding the old and
    the new pair, and touches no session: the session [setup_rooms] inserted
    on the old start date stays as it is. *)
Theorem edit_initial_bankroll_only_room (str_initial : Z -> date -> value)
    (st : db) (room_data : room) (new_br : Z) (new_date : date) :
  wf_db st -> In room_data (rooms st) ->
  wf_db (edit_initial_bankroll str_initial st room_data new_br new_date) /\
  sessions (edit_initial_bankroll str_initial st room_data new_br new_date)
  = sessions st /\
  In (mk_room (r_id room_data) (r_name room_data) new_br new_date)
     (rooms (edit_initial_bankroll str_initial st room_data new_br new_date)) /\
  (forall r, In r (rooms st) -> r_id r <> r_id room_data ->
     In r (rooms (edit_initial_bankroll str_initial st room_data new_br new_date))) /\
  map r_id (rooms (edit_initial_bankroll str_initial st room_data new_br new_date))
  = map r_id (rooms st) /\
  edits_history (edit_initial_bankroll str_initial st room_data new_br new_date)
  = edits_history st ++
    [mk_edit "rooms" (r_id room_data)
       (str_initial (r_initial_bankroll room_data) (r_init_date room_data))
       (str_initial new_br new_date) "UPDATE_INITIAL_BR_DATE"].
Proof.
  intros (Hk & Hs & Hr & Hn) Hin. unfold edit_initial_bankroll.
  cbn [rooms sessions edits_history].
  set (upd := fun r => if r_id r =? r_id room_data
                       then mk_room (r_id r) (r_name r) new_br new_date
                       else r).
  assert (Hids : map r_id (map upd (rooms st)) = map r_id (rooms st)).
  { rewrite map_map. apply map_ext. intros r. unfold upd.
    now destruct (r_id r =? r_id room_data). }
  assert (Hnames : map r_name (map upd (rooms st)) = map r_name (rooms st)).
  { rewrite map_map. apply map_ext. intros r. unfold upd.
    now destruct (r_id r =? r_id room_data). }
  split; [|split; [reflexivity|split; [|split; [|split; [exact Hids|reflexivity]]]]].
  - unfold wf_db. cbn [rooms sessions]. rewrite Hids, Hnames. tauto.
  - apply in_map_iff. exists room_data. split; [|exact Hin].
    unfold upd. now rewrite Z.eqb_refl.
  - intros r Hrin Hne. apply in_map_iff. exists r. split; [|exact Hrin].
    unfold upd. destruct (Z.eqb_spec (r_id r) (r_id room_data)); [contradiction|].
    reflexivity.
Qed.

Lemma edit_initial_bankroll_only_room_witness :
  wf_db sample_db /\ In (mk_room 2 "PMU" 10 19725) (rooms sample_db) /\
  wf_db (edit_initial_bankroll (fun br d => SessionDict d 0 0 br) sample_db
           (mk_room 2 "PMU" 10 19725) 20 19724) /\
  sessions (edit_initial_bankroll (fun br d => SessionDict d 0 0 br) sample_db
              (mk_room 2 "PMU" 10 19725) 20 19724)
  = sessions sample_db /\
  In (mk_room (r_id (mk_room 2 "PMU" 10 19725))
        (r_name (mk_room 2 "PMU" 10 19725)) 20 19724)
     (rooms (edit_initial_bankroll (fun br d => SessionDict d 0 0 br) sample_db
               (mk_room 2 "PMU" 10 19725) 20 19724)) /\
  (forall r, In r (rooms sample_db) -> r_id r <> r_id (mk_room 2 "PMU" 10 19725) ->
     In r (rooms (edit_initial_bankroll (fun br d => SessionDict d 0 0 br)
                    sample_db (mk_room 2 "PMU" 10 19725) 20 19724))) /\
  map r_id (rooms (edit_initial_bankroll (fun br d => SessionDict d 0 0 br)
                     sample_db (mk_room 2 "PMU" 10 19725) 20 19724))
  = map r_id (rooms sample_db) /\
  edits_history (edit_initial_bankroll (fun br d => SessionDict d 0 0 br)
                   sample_db (mk_room 2 "PMU" 10 19725) 20 19724)
  = edits_history sample_db ++
    [mk_edit "rooms" (r_id (mk_room 2 "PMU" 10 19725))
       (SessionDict (r_init_date (mk_room 2 "PMU" 10 19725)) 0 0
          (r_initial_bankroll (mk_room 2 "PMU" 10 19725)))
       (SessionDict 19724 0 0 20) "UPDATE_INITIAL_BR_DATE"].
Proof.
  split; [exact sample_db_wf|].
  split; [cbn; tauto|].
  apply (edit_initial_bankroll_only_room (fun br d => SessionDict d 0 0 br)
           sample_db (mk_room 2 "PMU" 10 19725) 20 19724);
    [exact sample_db_wf|cbn; tauto].
Defined.

(** The session inserted by [setup_rooms] is found on the start date of the
    room, and the sessions read for the room have different dates. *)
Lemma initial_session_found (ss : list session) (id room_id : Z)
    (init_date : date) (br : Z) :
  unique_keys ss = true ->
  existsb (same_key room_id init_date) ss = false ->
  let s := mk_session id room_id init_date 0 0 br in
  let mine := filter (fun x => (s_room_id x =? room_id) && (init_date <=? s_date x))
                     (ss ++ [s]) in
  obs_at mine init_date = Some s /\ is_unique (map s_date mine) = true.
Proof.
  intros Hu Hfree s mine. subst mine. split.
  - unfold obs_at. rewrite filter_app. cbn [filter s s_room_id s_date].
    rewrite Z.eqb_refl, Z.leb_refl. cbn [andb].
    apply find_app_none; [|cbn [s_date]; apply Z.eqb_refl].
    destruct (existsb (fun x => s_date x =? init_date)
                (filter (fun x => (s_room_id x =? room_id) && (init_date <=? s_date x))
                        ss)) eqn:E; [|reflexivity].
    apply existsb_exists in E. destruct E as (x & Hx & Hd).
    apply filter_In in Hx. destruct Hx as [Hin Hx].
    apply andb_true_iff in Hx. destruct Hx as [Hx _].
    assert (Hex : existsb (same_key room_id init_date) ss = true).
    { apply existsb_exists. exists x. split; [exact Hin|].
      unfold same_key. now rewrite Hx, Hd. }
    congruence.
  - apply (unique_keys_room_dates _ room_id).
    + intros x Hx. apply andb_true_iff in Hx. now apply Z.eqb_eq.
    + now apply unique_keys_insert.
Qed.

(** X8: a room is set up with initial bankroll [br], then only its initial
    bankroll is corrected to [new_br] (same start date).  The session of the
    start date still records [br], so the first reconciled day shows a
    profit of [br - new_br] that no play produced. *)
Theorem initial_correction_leaves_first_day_profit
    (str_initial : Z -> date -> value) (st st1 : db) (room : string)
    (br new_br : Z) (init_date today : date) :
  unique_keys (sessions st) = true ->
  setup_rooms st room br init_date = (st1, true) ->
  init_date <= today ->
  exists r,
    In r (rooms st1) /\ r = mk_room (r_id r) room br init_date /\
    In (mk_room (r_id r) room new_br init_date)
       (rooms (edit_initial_bankroll str_initial st1 r new_br init_date)) /\
    exists rows,
      room_stats (edit_initial_bankroll str_initial st1 r new_br init_date)
        (mk_room (r_id r) room new_br init_date) today
      = Ok (mk_day init_date (Some br) (Some 0) (Some 0) (Some (br - new_br))
            :: rows).
Proof.
  intros Hu Hsetup Hle.
  destruct (setup_rooms_success _ _ _ _ _ Hsetup) as (_ & Hfree & ->).
  set (room_id := next_rowid (map r_id (rooms st))) in *.
  set (s := mk_session (next_rowid (map s_id (sessions st))) room_id init_date 0 0 br).
  exists (mk_room room_id room br init_date). cbn [rooms r_id].
  split; [apply in_or_app; right; now left|]. split; [reflexivity|].
  split.
  { unfold edit_initial_bankroll. cbn [rooms r_id].
    apply in_map_iff. exists (mk_room room_id room br init_date).
    cbn [r_id r_name]. rewrite Z.eqb_refl.
    split; [reflexivity|apply in_or_app; right; now left]. }
  destruct (initial_session_found (sessions st)
              (next_rowid (map s_id (sessions st))) room_id init_date br
              Hu Hfree) as [Hobs Huniq].
  fold s in Hobs, Huniq. cbv zeta in Hobs, Huniq.
  destruct (grid_days_pos init_date today Hle) as [m Hm].
  unfold room_stats, room_sessions, edit_initial_bankroll.
  cbn [sessions r_id r_init_date r_initial_bankroll].
  rewrite process_room_data_spec by assumption.
  rewrite Hm. cbn [seq map]. eexists. f_equal. f_equal.
  unfold reconciled_day, flow_at, activity_at. cbn [filled previous].
  replace (init_date + Z.of_nat 0) with init_date by (simpl; lia).
  rewrite Hobs. cbn [s s_bankroll s_cashflow s_tournaments].
  do 2 f_equal. lia.
Qed.

Lemma initial_correction_leaves_first_day_profit_witness :
  unique_keys (sessions empty_db) = true /\
  setup_rooms empty_db "Winamax" 100 19723
  = (mk_db [mk_room 1 "Winamax" 100 19723] [mk_session 1 1 19723 0 0 100] [], true) /\
  19723 <= 19725 /\
  exists r,
    In r (rooms (mk_db [mk_room 1 "Winamax" 100 19723]
                       [mk_session 1 1 19723 0 0 100] [])) /\
    r = mk_room (r_id r) "Winamax" 100 19723 /\
    In (mk_room (r_id r) "Winamax" 80 19723)
       (rooms (edit_initial_bankroll (fun br d => SessionDict d 0 0 br)
                 (mk_db [mk_room 1 "Winamax" 100 19723]
                        [mk_session 1 1 19723 0 0 100] []) r 80 19723)) /\
    exists rows,
      room_stats (edit_initial_bankroll (fun br d => SessionDict d 0 0 br)
                    (mk_db [mk_room 1 "Winamax" 100 19723]
                           [mk_session 1 1 19723 0 0 100] []) r 80 19723)
        (mk_room (r_id r) "Winamax" 80 19723) 19725
      = Ok (mk_day 19723 (Some 100) (Some 0) (Some 0) (Some (100 - 80)) :: rows).
Proof.
  split; [reflexivity|]. split; [reflexivity|]. split; [lia|].
  apply (initial_correction_leaves_first_day_profit
           (fun br d => SessionDict d 0 0 br) empty_db
           (mk_db [mk_room 1 "Winamax" 100 19723] [mk_session 1 1 19723 0 0 100] [])
           "Winamax" 100 80 19723 19725);
    [reflexivity|reflexivity|lia].
Defined.

(** ** [get_room_bankroll] and [dashboard] *)

Lemma latest_session_none (ss : list session) :
  latest_session ss = None <-> ss = [].
Proof.
  split; [|intros ->; reflexivity].
  destruct ss as [|a rest]; [reflexivity|]. cbn [latest_session].
  destruct (latest_session rest) as [t|]; [|discriminate].
  destruct (s_date a <? s_date t); discriminate.
Qed.

Lemma latest_session_max (ss : list session) (s : session) :
  latest_session ss = Some s ->
  In s ss /\ forall t, In t ss -> s_date t <= s_date s.
Proof.
  revert s. induction ss as [|a rest IH]; intros s H; [discriminate|].
  cbn [latest_session] in H.
  destruct (latest_session rest) as [t|] eqn:E.
  - destruct (IH t eq_refl) as [Hin Hmax].
    destruct (Z.ltb_spec (s_date a) (s_date t)); inversion H; subst s.
    + split; [now right|]. intros x [<-|Hx]; [lia|now apply Hmax].
    + split; [now left|]. intros x [<-|Hx]; [lia|].
      specialize (Hmax x Hx). lia.
  - inversion H; subst s. apply latest_session_none in E. subst rest.
    split; [now left|]. intros x [<-|[]]. lia.
Qed.

(** X9: [get_room_bankroll] is 0 for a room without session, and otherwise
    the bankroll of a session of the room that no other session of the room
    postdates; in that case it is also the current bankroll of the room's
    row in [dashboard], which for a room without session shows the initial
    bankroll instead. *)
Theorem get_room_bankroll_latest (st : db) (r : room) :
  (sessions_of st (r_id r) = [] ->
   get_room_bankroll st (r_id r) = 0 /\
   k_current_bankroll (dashboard_row_of st r) = r_initial_bankroll r) /\
  (sessions_of st (r_id r) <> [] ->
   exists s, In s (sessions st) /\ s_room_id s = r_id r /\
             (forall t, In t (sessions st) -> s_room_id t = r_id r ->
                        s_date t <= s_date s) /\
             get_room_bankroll st (r_id r) = s_bankroll s /\
             k_current_bankroll (dashboard_row_of st r) = s_bankroll s).
Proof.
  unfold get_room_bankroll, dashboard_row_of. cbn [k_current_bankroll].
  split.
  - intros ->. cbn [latest_session]. split; reflexivity.
  - intros Hne.
    destruct (latest_session (sessions_of st (r_id r))) as [s|] eqn:E.
    + destruct (latest_session_max _ _ E) as [Hin Hmax].
      unfold sessions_of in Hin. apply filter_In in Hin.
      destruct Hin as [Hin Hroom]. apply Z.eqb_eq in Hroom.
      exists s. repeat split; auto.
      intros t Ht Hrt. apply Hmax. unfold sessions_of. apply filter_In.
      split; [exact Ht|now apply Z.eqb_eq].
    + apply latest_session_none in E. contradiction.
Qed.

(** ** More on the reconciled series *)

Lemma find_filter_implied {A : Type} (p q : A -> bool) (l : list A) :
  (forall x, In x l -> p x = true -> q x = true) ->
  find p (filter q l) = find p l.
Proof.
  induction l as [|a l IH]; intros H; [reflexivity|].
  assert (IH' : find p (filter q l) = find p l)
    by (apply IH; intros x Hx; apply H; now right).
  cbn [filter find]. destruct (q a) eqn:Eq; cbn [find].
  - now rewrite IH'.
  - destruct (p a) eqn:Ep; [|exact IH'].
    rewrite (H a (or_introl eq_refl) Ep) in Eq. discriminate.
Qed.

(** The reconciled rows only depend on the sessions found on the days of the
    grid. *)
Lemma filled_ext df1 df2 initial init (i : nat) :
  (forall j, (j <= i)%nat ->
     obs_at df1 (init + Z.of_nat j) = obs_at df2 (init + Z.of_nat j)) ->
  filled df1 initial init i = filled df2 initial init i.
Proof.
  induction i as [|i IH]; intros H; cbn [filled]; rewrite (H _ (le_n _)).
  - reflexivity.
  - destruct (obs_at df2 (init + Z.of_nat (S i))); [reflexivity|].
    apply IH. intros j Hj. apply H. lia.
Qed.

Lemma reconciled_day_ext df1 df2 initial init (n : nat) :
  (forall j, (j < n)%nat ->
     obs_at df1 (init + Z.of_nat j) = obs_at df2 (init + Z.of_nat j)) ->
  map (reconciled_day df1 initial init) (seq 0 n)
  = map (reconciled_day df2 initial init) (seq 0 n).
Proof.
  intros H. apply map_ext_in. intros i Hi. apply in_seq in Hi.
  unfold reconciled_day, flow_at, activity_at.
  rewrite (H i) by lia.
  rewrite (filled_ext df1 df2 initial init i) by (intros j Hj; apply H; lia).
  destruct i as [|i]; cbn [previous]; [reflexivity|].
  rewrite (filled_ext df1 df2 initial init i) by (intros j Hj; apply H; lia).
  reflexivity.
Qed.

Lemma is_unique_filter (p : session -> bool) (df : list session) :
  is_unique (map s_date df) = true ->
  is_unique (map s_date (filter p df)) = true.
Proof.
  induction df as [|a rest IH]; intros H; [reflexivity|].
  cbn [map is_unique] in H. apply andb_true_iff in H. destruct H as [Ha Hrest].
  cbn [filter]. destruct (p a); [|now apply IH].
  cbn [map is_unique]. rewrite (IH Hrest), andb_true_r.
  apply negb_true_iff. apply negb_true_iff in Ha.
  destruct (existsb (Z.eqb (s_date a)) (map s_date (filter p rest))) eqn:E;
    [|reflexivity].
  apply existsb_exists in E. destruct E as (x & Hx & Hxa).
  apply in_map_iff in Hx. destruct Hx as (s & <- & Hs).
  apply filter_In in Hs. destruct Hs as [Hs _].
  assert (existsb (Z.eqb (s_date a)) (map s_date rest) = true).
  { apply existsb_exists. exists (s_date s). split; [now apply in_map|exact Hxa]. }
  congruence.
Qed.

(** X10: [process_room_data] ignores the sessions dated outside the grid:
    dropping any sessions that are not on a day from [init] to [stop] gives
    the same frame.  So the date filter of the query of [room_stats] does
    not change what the room's frame shows. *)
Theorem process_room_data_ignores_outside (p : session -> bool)
    (df : list session) (initial : Z) (init stop : date) :
  is_unique (map s_date df) = true ->
  init <= stop ->
  (forall s, In s df -> init <= s_date s <= stop -> p s = true) ->
  process_room_data (filter p df) initial init stop
  = process_room_data df initial init stop.
Proof.
  intros Hu Hle Hp.
  rewrite !process_room_data_spec by (auto using is_unique_filter).
  f_equal. apply reconciled_day_ext. intros j Hj.
  unfold obs_at. apply find_filter_implied.
  intros x Hx Hd. apply Z.eqb_eq in Hd. apply Hp; [exact Hx|].
  unfold grid_days in Hj. lia.
Qed.

Lemma process_room_data_ignores_outside_witness :
  is_unique (map s_date [mk_session 1 1 19720 0 0 90; mk_session 2 1 19725 0 50 170])
  = true /\
  19723 <= 19725 /\
  (forall s, In s [mk_session 1 1 19720 0 0 90; mk_session 2 1 19725 0 50 170] ->
     19723 <= s_date s <= 19725 -> (19723 <=? s_date s) = true) /\
  process_room_data
    (filter (fun s => 19723 <=? s_date s)
       [mk_session 1 1 19720 0 0 90; mk_session 2 1 19725 0 50 170])
    100 19723 19725
  = process_room_data
      [mk_session 1 1 19720 0 0 90; mk_session 2 1 19725 0 50 170]
      100 19723 19725.
Proof.
  assert (H : forall s,
             In s [mk_session 1 1 19720 0 0 90; mk_session 2 1 19725 0 50 170] ->
             19723 <= s_date s <= 19725 -> (19723 <=? s_date s) = true).
  { intros s _ Hd. apply Z.leb_le. lia. }
  split; [reflexivity|]. split; [lia|]. split; [exact H|].
  apply (process_room_data_ignores_outside (fun s => 19723 <=? s_date s)
           [mk_session 1 1 19720 0 0 90; mk_session 2 1 19725 0 50 170]
           100 19723 19725); [reflexivity|lia|exact H].
Defined.

Lemma obs_at_app_fresh (df : list session) (s : session) (d : date) :
  obs_at df (s_date s) = None ->
  obs_at (df ++ [s]) d = if s_date s =? d then Some s else obs_at df d.
Proof.
  unfold obs_at. induction df as [|a rest IH]; cbn [app find]; intros H.
  - reflexivity.
  - destruct (Z.eqb_spec (s_date a) (s_date s)) as [E|E]; [discriminate|].
    destruct (Z.eqb_spec (s_date a) d) as [Ed|Ed].
    + destruct (Z.eqb_spec (s_date s) d); [congruence|reflexivity].
    + now apply IH.
Qed.

Lemma is_unique_app_fresh (df : list session) (s : session) :
  is_unique (map s_date df) = true ->
  obs_at df (s_date s) = None ->
  is_unique (map s_date (df ++ [s])) = true.
Proof.
  unfold obs_at. induction df as [|a rest IH]; intros Hu Hn; [reflexivity|].
  cbn [map is_unique] in Hu. apply andb_true_iff in Hu. destruct Hu as [Ha Hrest].
  cbn [find] in Hn.
  destruct (Z.eqb_spec (s_date a) (s_date s)) as [E|E]; [discriminate|].
  cbn [app map is_unique]. rewrite (IH Hrest Hn), andb_true_r.
  rewrite map_app, existsb_app.
  apply negb_true_iff in Ha. apply negb_true_iff.
  apply orb_false_intro; [exact Ha|].
  cbn [map existsb]. rewrite orb_false_r. now apply Z.eqb_neq.
Qed.

(** X11: recording, on a day of the grid that has no session, a session
    with no cashflow, no tournament and the balance the day already shows
    (the forward-filled one) changes nothing in the reconciled series. *)
Theorem redundant_session_changes_nothing (df : list session) (initial : Z)
    (init stop : date) (k : nat) (id room_id : Z) :
  is_unique (map s_date df) = true ->
  init <= stop ->
  (k < grid_days init stop)%nat ->
  obs_at df (init + Z.of_nat k) = None ->
  process_room_data
    (df ++ [mk_session id room_id (init + Z.of_nat k) 0 0
              (filled df initial init k)])
    initial init stop
  = process_room_data df initial init stop.
Proof.
  intros Hu Hle Hk Hnone.
  set (s := mk_session id room_id (init + Z.of_nat k) 0 0 (filled df initial init k)).
  assert (Hfresh : obs_at df (s_date s) = None) by exact Hnone.
  rewrite !process_room_data_spec by (auto using is_unique_app_fresh).
  f_equal.
  assert (Hfilled : forall i,
             filled (df ++ [s]) initial init i = filled df initial init i).
  { induction i as [|i IH]; cbn [filled]; rewrite (obs_at_app_fresh df s _ Hfresh);
      cbn [s s_date].
    - destruct (Z.eqb_spec (init + Z.of_nat k) (init + Z.of_nat 0)) as [E|E].
      + assert (k = O) by lia. subst k. cbn [s s_bankroll filled].
        now rewrite Hnone.
      + reflexivity.
    - destruct (Z.eqb_spec (init + Z.of_nat k) (init + Z.of_nat (S i))) as [E|E].
      + assert (k = S i) by lia. subst k. cbn [s s_bankroll].
        cbn [filled]. rewrite Hnone. reflexivity.
      + now rewrite IH. }
  apply map_ext. intros i.
  unfold reconciled_day, flow_at, activity_at.
  rewrite (obs_at_app_fresh df s _ Hfresh), Hfilled. cbn [s s_date].
  assert (Hprev : previous (df ++ [s]) initial init i = previous df initial init i).
  { destruct i; cbn [previous]; [reflexivity|apply Hfilled]. }
  rewrite Hprev.
  destruct (Z.eqb_spec (init + Z.of_nat k) (init + Z.of_nat i)) as [E|E];
    [|reflexivity].
  assert (k = i) by lia. subst i. rewrite Hnone. reflexivity.
Qed.

Lemma redundant_session_changes_nothing_witness :
  is_unique (map s_date [mk_session 1 1 19725 0 50 170]) = true /\
  19723 <= 19726 /\
  (1 < grid_days 19723%Z 19726%Z)%nat /\
  obs_at [mk_session 1 1 19725 0 50 170] (19723 + Z.of_nat 1) = None /\
  process_room_data
    ([mk_session 1 1 19725 0 50 170]
     ++ [mk_session 2 1 (19723 + Z.of_nat 1) 0 0
           (filled [mk_session 1 1 19725 0 50 170] 100 19723 1)])
    100 19723 19726
  = process_room_data [mk_session 1 1 19725 0 50 170] 100 19723 19726.
Proof.
  split; [reflexivity|]. split; [lia|].
  split; [vm_compute; lia|]. split; [reflexivity|].
  apply (redundant_session_changes_nothing [mk_session 1 1 19725 0 50 170]
           100 19723 19726 1 2 1); [reflexivity|lia|vm_compute; lia|reflexivity].
Defined.

(** ** The cumulative profit of a room *)

Lemma sum_skipna_app (a b : list cell) :
  sum_skipna (a ++ b) = sum_skipna a + sum_skipna b.
Proof.
  unfold sum_skipna. induction a as [|x a IH]; cbn [app fold_right]; lia.
Qed.

(** A cell of [cumsum] holds the sum of the cells up to it, and NaN where the
    column has NaN. *)
Lemma cumsum_from_nth (c : list cell) : forall acc i,
  nth_error (cumsum_from acc c) i
  = option_map (fun x => match x with
                         | Some _ => Some (acc + sum_skipna (firstn (S i) c))
                         | None => None
                         end)
               (nth_error c i).
Proof.
  induction c as [|x c IH]; intros acc i.
  - destruct i; reflexivity.
  - destruct x as [v|]; destruct i as [|i]; cbn [cumsum_from nth_error option_map].
    + cbn [firstn sum_skipna fold_right cell_value]. do 2 f_equal. lia.
    + rewrite IH. destruct (nth_error c i) as [[w|]|]; cbn [option_map]; try reflexivity.
      do 2 f_equal. change (firstn (S (S i)) (Some v :: c)) with (Some v :: firstn (S i) c).
      cbn [sum_skipna fold_right cell_value].
      change (fold_right (fun x acc0 => cell_value x + acc0) 0 (firstn (S i) c))
        with (sum_skipna (firstn (S i) c)). lia.
    + reflexivity.
    + rewrite IH. destruct (nth_error c i) as [[w|]|]; reflexivity.
Qed.

Lemma cumsum_from_length (c : list cell) : forall acc,
  List.length (cumsum_from acc c) = List.length c.
Proof.
  induction c as [|[v|] c IH]; intros acc; cbn [cumsum_from List.length];
    [reflexivity| |]; now rewrite IH.
Qed.

(** The profits of the first [m] days of the grid add up to the change of the
    balance since [initial], less the cashflows of these days. *)
Lemma pure_profit_telescopes df initial init (m : nat) :
  sum_skipna (map d_pure_profit (map (reconciled_day df initial init) (seq 0 m)))
  = previous df initial init m - initial
    - sum_skipna (map d_cashflow (map (reconciled_day df initial init) (seq 0 m))).
Proof.
  induction m as [|m IH].
  - cbn [seq map sum_skipna fold_right previous]. lia.
  - rewrite seq_S, !map_app, !sum_skipna_app, IH.
    cbn [Nat.add map reconciled_day d_pure_profit d_cashflow sum_skipna fold_right
         cell_value previous].
    lia.
Qed.

Lemma firstn_grid {A : Type} (f : nat -> A) (k n : nat) :
  (k <= n)%nat -> firstn k (map f (seq 0 n)) = map f (seq 0 k).
Proof.
  revert n. generalize 0%nat as s.
  induction k as [|k IH]; intros s n H; [reflexivity|].
  destruct n as [|n]; [lia|].
  cbn [seq map firstn]. f_equal. apply IH. lia.
Qed.

(** X12: the column [cumulative_pure_profit] of the daily profit chart has
    one cell per day, and the cell of a day is the balance of that day, less
    the initial bankroll, less the cashflows of the days up to it. *)
Theorem cumulative_profit_is_balance_change (df : list session) (initial : Z)
    (init stop : date) :
  is_unique (map s_date df) = true ->
  init <= stop ->
  exists rows,
    process_room_data df initial init stop = Ok rows /\
    List.length (cumulative_pure_profit rows) = List.length rows /\
    forall i x, nth_error rows i = Some x ->
      exists b, d_bankroll x = Some b /\
        nth_error (cumulative_pure_profit rows) i
        = Some (Some (b - initial
                      - sum_skipna (map d_cashflow (firstn (S i) rows)))).
Proof.
  intros Hu Hle. eexists. split; [now apply process_room_data_spec|].
  set (n := grid_days init stop).
  unfold cumulative_pure_profit, cumsum. split.
  { now rewrite cumsum_from_length, length_map. }
  intros i x Hx.
  destruct (nth_error_map_seq _ _ _ _ Hx) as [Hi ->].
  exists (filled df initial init i). split; [reflexivity|].
  rewrite cumsum_from_nth, nth_error_map, (nth_error_map_seq_lt _ n i Hi).
  cbn [option_map d_pure_profit reconciled_day].
  rewrite firstn_map, !firstn_grid by lia.
  rewrite pure_profit_telescopes. cbn [previous]. do 2 f_equal; lia.
Qed.

Lemma cumulative_profit_is_balance_change_witness :
  is_unique (map s_date [mk_session 1 1 19725 0 50 170]) = true /\
  19723 <= 19726 /\
  exists rows,
    process_room_data [mk_session 1 1 19725 0 50 170] 100 19723 19726 = Ok rows /\
    List.length (cumulative_pure_profit rows) = List.length rows /\
    forall i x, nth_error rows i = Some x ->
      exists b, d_bankroll x = Some b /\
        nth_error (cumulative_pure_profit rows) i
        = Some (Some (b - 100
                      - sum_skipna (map d_cashflow (firstn (S i) rows)))).
Proof.
  split; [reflexivity|]. split; [lia|].
  apply (cumulative_profit_is_balance_change
           [mk_session 1 1 19725 0 50 170] 100 19723 19726); [reflexivity|lia].
Defined.

(** The chart of the sample room: nothing for two days, then the 20 won on
    the third day (a balance of 170 after a deposit of 50). *)
Example cumulative_pure_profit_sample :
  option_map cumulative_pure_profit
    (match process_room_data [mk_session 1 1 19725 0 50 170] 100 19723 19726 with
     | Ok rows => Some rows
     | Raise _ => None
     end)
  = Some [Some 0; Some 0; Some 20; Some 20].
Proof. reflexivity. Qed.

(** ** [dashboard] against [room_stats] *)

Lemma obs_at_fresh (d : date) (df : list session) :
  existsb (Z.eqb d) (map s_date df) = false -> obs_at df d = None.
Proof.
  unfold obs_at. induction df as [|a rest IH]; intros H; [reflexivity|].
  cbn [map existsb] in H. apply orb_false_iff in H. destruct H as [Ha Hrest].
  cbn [find]. rewrite Z.eqb_sym, Ha. now apply IH.
Qed.

(** With unique dates, the session found on the date of a session is that
    session. *)
Lemma obs_at_own (df : list session) (s : session) :
  is_unique (map s_date df) = true -> In s df -> obs_at df (s_date s) = Some s.
Proof.
  induction df as [|a rest IH]; intros Hu Hin; [contradiction|].
  cbn [map is_unique] in Hu. apply andb_true_iff in Hu. destruct Hu as [Ha Hrest].
  apply negb_true_iff in Ha. unfold obs_at. cbn [find].
  destruct Hin as [->|Hin]; [now rewrite Z.eqb_refl|].
  destruct (Z.eqb_spec (s_date a) (s_date s)) as [E|E].
  - apply obs_at_fresh in Ha. rewrite E in Ha.
    rewrite (IH Hrest Hin) in Ha. discriminate.
  - now apply IH.
Qed.

Lemma grid_single (init d v : Z) (n : nat) :
  total_of (fun i => if init + Z.of_nat i =? d then v else 0) (seq 0 n)
  = if (init <=? d) && (d <? init + Z.of_nat n) then v else 0.
Proof.
  induction n as [|n IH].
  - cbn [seq]. destruct (Z.leb_spec init d); destruct (Z.ltb_spec d (init + Z.of_nat 0));
      cbn [andb]; try reflexivity; lia.
  - rewrite seq_S, total_of_app, IH. cbn [Nat.add]. unfold total_of at 1. cbn [map fold_right].
    destruct (Z.leb_spec init d); destruct (Z.ltb_spec d (init + Z.of_nat n));
      destruct (Z.ltb_spec d (init + Z.of_nat (S n)));
      destruct (Z.eqb_spec (init + Z.of_nat n) d); cbn [andb]; lia.
Qed.

(** A column of the sessions, summed over the days of a grid that holds all
    their dates, is the column summed over the sessions. *)
Lemma grid_column_total (col : session -> Z) (init : date) (n : nat) :
  forall df,
  is_unique (map s_date df) = true ->
  (forall s, In s df -> init <= s_date s < init + Z.of_nat n) ->
  total_of (fun i => match obs_at df (init + Z.of_nat i) with
                     | Some s => col s
                     | None => 0
                     end) (seq 0 n)
  = total_of col df.
Proof.
  induction df as [|a rest IH]; intros Hu Hin.
  - cbn [obs_at find]. apply total_of_zero.
  - cbn [map is_unique] in Hu. apply andb_true_iff in Hu. destruct Hu as [Ha Hrest].
    apply negb_true_iff in Ha. apply obs_at_fresh in Ha.
    rewrite total_of_cons, <- IH by (auto; intros s Hs; apply Hin; now right).
    rewrite <- (Z.add_0_r (col a)) at 1.
    replace (col a + 0) with
      (if (init <=? s_date a) && (s_date a <? init + Z.of_nat n) then col a else 0).
    2:{ specialize (Hin a (or_introl eq_refl)).
        replace (init <=? s_date a) with true by (symmetry; apply Z.leb_le; lia).
        replace (s_date a <? init + Z.of_nat n) with true
          by (symmetry; apply Z.ltb_lt; lia).
        cbn [andb]. lia. }
    rewrite <- grid_single, <- total_of_add. apply total_of_ext. intros i _.
    unfold obs_at at 1. cbn [find]. rewrite (Z.eqb_sym (s_date a)).
    destruct (Z.eqb_spec (init + Z.of_nat i) (s_date a)) as [E|E].
    + rewrite E, Ha. lia.
    + reflexivity.
Qed.

(** When every session lies on the grid, the balance of its last day is the
    balance of the latest session, and [initial] without session. *)
Lemma filled_last_day df initial init (m : nat) :
  is_unique (map s_date df) = true ->
  (forall s, In s df -> init <= s_date s <= init + Z.of_nat m) ->
  filled df initial init m
  = match latest_session df with
    | Some s => s_bankroll s
    | None => initial
    end.
Proof.
  intros Hu Hin.
  assert (Hobs : forall t, In t df ->
            exists j, (j <= m)%nat /\ s_date t = init + Z.of_nat j /\
                      obs_at df (init + Z.of_nat j) = Some t).
  { intros t Ht. exists (Z.to_nat (s_date t - init)).
    specialize (Hin t Ht). split; [lia|].
    assert (E : s_date t = init + Z.of_nat (Z.to_nat (s_date t - init))) by lia.
    split; [exact E|]. rewrite <- E. now apply obs_at_own. }
  destruct (filled_latest_session df initial init m)
    as [(k & s & Hk & Hs & Hgap & ->)|[Hall ->]].
  - destruct (latest_session df) as [l|] eqn:El.
    + destruct (latest_session_max _ _ El) as [Hl Hmax].
      assert (Hsin : In s df) by (apply find_some in Hs; tauto).
      assert (Hsd : s_date s = init + Z.of_nat k).
      { apply find_some in Hs. destruct Hs as [_ Hs]. now apply Z.eqb_eq in Hs. }
      destruct (Hobs l Hl) as (j & Hj & Hjd & Hjo).
      assert (j <= k)%nat.
      { destruct (Nat.le_gt_cases j k) as [|Hgt]; [assumption|].
        rewrite Hgap in Hjo by lia. discriminate. }
      specialize (Hmax s Hsin).
      assert (j = k) by lia. subst j. congruence.
    + apply latest_session_none in El. subst df. discriminate.
  - destruct (latest_session df) as [l|] eqn:El; [|reflexivity].
    destruct (latest_session_max _ _ El) as [Hl _].
    destruct (Hobs l Hl) as (j & Hj & _ & Hjo).
    rewrite Hall in Hjo by exact Hj. discriminate.
Qed.

Lemma room_sessions_all (st : db) (r : room) :
  (forall s, In s (sessions st) -> s_room_id s = r_id r ->
             r_init_date r <= s_date s) ->
  room_sessions st r = sessions_of st (r_id r).
Proof.
  intros H. unfold room_sessions, sessions_of. apply filter_ext_in.
  intros s Hs. destruct (Z.eqb_spec (s_room_id s) (r_id r)) as [E|E]; [|reflexivity].
  cbn [andb]. apply Z.leb_le. now apply H.
Qed.

(** X13: for a room all of whose sessions are dated from its start date to
    today, the two pages agree: the daily profits of [room_stats] add up to
    the net profit of the room's row in [dashboard], its tournaments to the
    row's tournaments, and the balance of the last day is the row's current
    bankroll. *)
Theorem dashboard_agrees_with_room_stats (st : db) (r : room) (today : date) :
  unique_keys (sessions st) = true ->
  r_init_date r <= today ->
  (forall s, In s (sessions st) -> s_room_id s = r_id r ->
             r_init_date r <= s_date s <= today) ->
  exists rows,
    room_stats st r today = Ok rows /\
    sum_skipna (map d_pure_profit rows) = k_net_profit (dashboard_row_of st r) /\
    sum_skipna (map d_tournaments rows)
    = k_total_tournaments (dashboard_row_of st r) /\
    option_map d_bankroll (nth_error rows (List.length rows - 1))
    = Some (Some (k_current_bankroll (dashboard_row_of st r))).
Proof.
  intros Hu Hle Hin. unfold room_stats.
  rewrite room_sessions_all by (intros s Hs Hr; apply (Hin s Hs Hr)).
  set (df := sessions_of st (r_id r)).
  set (init := r_init_date r) in *. set (initial := r_initial_bankroll r).
  assert (Hud : is_unique (map s_date df) = true).
  { apply (unique_keys_room_dates _ (r_id r)); [|exact Hu].
    intros s Hs. now apply Z.eqb_eq. }
  destruct (grid_days_pos init today Hle) as [m Hm].
  assert (Hgrid : forall s, In s df -> init <= s_date s <= init + Z.of_nat m).
  { intros s Hs. unfold df, sessions_of in Hs. apply filter_In in Hs.
    destruct Hs as [Hs Hr]. apply Z.eqb_eq in Hr. specialize (Hin s Hs Hr).
    pose proof (grid_days_length init today Hle). lia. }
  eexists. split; [now apply process_room_data_spec|].
  rewrite Hm.
  assert (Hlast : filled df initial init m
                  = k_current_bankroll (dashboard_row_of st r)).
  { rewrite (filled_last_day df initial init m Hud Hgrid). reflexivity. }
  split; [|split].
  - rewrite pure_profit_telescopes. cbn [previous]. rewrite Hlast.
    rewrite map_map, sum_skipna_total. cbn [d_cashflow reconciled_day cell_value].
    unfold flow_at.
    rewrite (grid_column_total s_cashflow init (S m) df Hud)
      by (intros s Hs; specialize (Hgrid s Hs); lia).
    change (k_net_profit (dashboard_row_of st r))
      with (k_current_bankroll (dashboard_row_of st r) - total_of s_cashflow df
            - initial).
    lia.
  - rewrite map_map, sum_skipna_total. cbn [d_tournaments reconciled_day cell_value].
    unfold activity_at.
    rewrite (grid_column_total s_tournaments init (S m) df Hud)
      by (intros s Hs; specialize (Hgrid s Hs); lia).
    reflexivity.
  - rewrite length_map, length_seq. replace (S m - 1)%nat with m by lia.
    rewrite nth_error_map_seq_lt by lia.
    cbn [option_map d_bankroll reconciled_day]. now rewrite Hlast.
Qed.

Lemma dashboard_agrees_with_room_stats_witness :
  unique_keys (sessions sample_db) = true /\
  r_init_date (mk_room 1 "Winamax" 100 19723) <= 19726 /\
  (forall s, In s (sessions sample_db) ->
     s_room_id s = r_id (mk_room 1 "Winamax" 100 19723) ->
     r_init_date (mk_room 1 "Winamax" 100 19723) <= s_date s <= 19726) /\
  exists rows,
    room_stats sample_db (mk_room 1 "Winamax" 100 19723) 19726 = Ok rows /\
    sum_skipna (map d_pure_profit rows)
    = k_net_profit (dashboard_row_of sample_db (mk_room 1 "Winamax" 100 19723)) /\
    sum_skipna (map d_tournaments rows)
    = k_total_tournaments
        (dashboard_row_of sample_db (mk_room 1 "Winamax" 100 19723)) /\
    option_map d_bankroll (nth_error rows (List.length rows - 1))
    = Some (Some (k_current_bankroll
                    (dashboard_row_of sample_db (mk_room 1 "Winamax" 100 19723)))).
Proof.
  assert (H : forall s, In s (sessions sample_db) ->
     s_room_id s = r_id (mk_room 1 "Winamax" 100 19723) ->
     r_init_date (mk_room 1 "Winamax" 100 19723) <= s_date s <= 19726).
  { intros s [<-|[<-|[<-|[]]]] Hr; cbn in *; lia. }
  split; [reflexivity|]. split; [cbn; lia|]. split; [exact H|].
  apply (dashboard_agrees_with_room_stats sample_db
           (mk_room 1 "Winamax" 100 19723) 19726); [reflexivity|cbn; lia|exact H].
Defined.

(** A session dated before the start date of its room is counted by
    [dashboard] and left out by [room_stats]: the two pages then show
    different profits (70 against 0 here). *)
Example dashboard_differs_from_room_stats :
  let st := mk_db [mk_room 1 "Winamax" 100 19725]
                  [mk_session 1 1 19723 2 0 170] [] in
  k_net_profit (dashboard_row_of st (mk_room 1 "Winamax" 100 19725)) = 70 /\
  option_map (fun rows => sum_skipna (map d_pure_profit rows))
    (match room_stats st (mk_room 1 "Winamax" 100 19725) 19726 with
     | Ok rows => Some rows
     | Raise _ => None
     end) = Some 0.
Proof. split; reflexivity. Qed.

(** ** The rows and the totals of [dashboard] *)

Lemma insert_by_name_perm (x : dashboard_row) (l : list dashboard_row) :
  Permutation (insert_by_name x l) (x :: l).
Proof.
  induction l as [|y l IH]; cbn [insert_by_name]; [apply Permutation_refl|].
  destruct (String.leb (k_name x) (k_name y)); [apply Permutation_refl|].
  apply (Permutation_trans (perm_skip y IH)). apply perm_swap.
Qed.

Lemma order_by_name_perm (l : list dashboard_row) :
  Permutation (order_by_name l) l.
Proof.
  unfold order_by_name. induction l as [|x l IH]; cbn [fold_right]; [constructor|].
  apply (Permutation_trans (insert_by_name_perm x _)). now constructor.
Qed.

Lemma insert_by_name_sorted (x : dashboard_row) (l : list dashboard_row) :
  Sorted (fun a b => String.leb (k_name a) (k_name b) = true) l ->
  Sorted (fun a b => String.leb (k_name a) (k_name b) = true) (insert_by_name x l).
Proof.
  induction l as [|y l IH]; intros Hs; cbn [insert_by_name].
  - repeat constructor.
  - destruct (String.leb (k_name x) (k_name y)) eqn:E.
    + constructor; [exact Hs|]. now constructor.
    + inversion Hs as [|? ? Hs' Hhd]; subst.
      constructor; [now apply IH|].
      assert (Hyx : String.leb (k_name y) (k_name x) = true).
      { destruct (String.leb_total (k_name x) (k_name y)); congruence. }
      destruct l as [|z l]; cbn [insert_by_name].
      * now constructor.
      * destruct (String.leb (k_name x) (k_name z)); constructor; [exact Hyx|].
        now inversion Hhd.
Qed.

Lemma order_by_name_sorted (l : list dashboard_row) :
  Sorted (fun a b => String.leb (k_name a) (k_name b) = true) (order_by_name l).
Proof.
  unfold order_by_name. induction l as [|x l IH]; cbn [fold_right]; [constructor|].
  now apply insert_by_name_sorted.
Qed.

Lemma total_of_perm {A : Type} (value : A -> Z) (l1 l2 : list A) :
  Permutation l1 l2 -> total_of value l1 = total_of value l2.
Proof.
  induction 1 as [|x l l' _ IH|x y l|l l' l'' _ IH1 _ IH2];
    rewrite ?total_of_cons; lia.
Qed.

Lemma total_of_map {A B : Type} (f : A -> B) (value : B -> Z) (l : list A) :
  total_of value (map f l) = total_of (fun x => value (f x)) l.
Proof. unfold total_of. now rewrite map_map. Qed.

Lemma net_profit_total (st : db) (rs : list room) :
  total_of (fun r => k_net_profit (dashboard_row_of st r)) rs
  = total_of (fun r => k_current_bankroll (dashboard_row_of st r)) rs
    - total_of (fun r => total_of s_cashflow (sessions_of st (r_id r))) rs
    - total_of r_initial_bankroll rs.
Proof.
  induction rs as [|r rs IH]; [reflexivity|].
  rewrite !total_of_cons, IH.
  change (k_net_profit (dashboard_row_of st r))
    with (k_current_bankroll (dashboard_row_of st r)
          - total_of s_cashflow (sessions_of st (r_id r))
          - r_initial_bankroll r).
  lia.
Qed.

(** X14: [dashboard] shows one row per room, in the order of the names, and
    its totals are sums over the rooms: the total net profit is the total
    current bankroll, less the cashflows of all the sessions of the rooms,
    less the total initial bankroll. *)
Theorem dashboard_rows_and_totals (st : db) :
  Permutation (dashboard st) (map (dashboard_row_of st) (rooms st)) /\
  Sorted (fun a b => String.leb (k_name a) (k_name b) = true) (dashboard st) /\
  dashboard_totals st
  = (total_of r_initial_bankroll (rooms st),
     total_of (fun r => k_current_bankroll (dashboard_row_of st r)) (rooms st),
     total_of (fun r => k_current_bankroll (dashboard_row_of st r)) (rooms st)
     - total_of (fun r => total_of s_cashflow (sessions_of st (r_id r))) (rooms st)
     - total_of r_initial_bankroll (rooms st),
     total_of (fun r => total_of s_tournaments (sessions_of st (r_id r)))
       (rooms st)).
Proof.
  assert (Hp : Permutation (dashboard st) (map (dashboard_row_of st) (rooms st)))
    by apply order_by_name_perm.
  split; [exact Hp|]. split; [apply order_by_name_sorted|].
  unfold dashboard_totals.
  rewrite !(total_of_perm _ _ _ Hp), !total_of_map.
  rewrite (net_profit_total st (rooms st)).
  reflexivity.
Qed.

Example dashboard_sample :
  map k_name (dashboard sample_db) = ["PMU"; "Winamax"]%string /\
  dashboard_totals sample_db = (110, 200, 40, 1).
Proof. split; reflexivity. Qed.

(** ** The figures of "Synthèse Globale" *)

Lemma insert_key_hd (k d : date) (keys : list date) :
  k < d -> HdRel Z.lt k keys -> HdRel Z.lt k (insert_key d keys).
Proof.
  intros Hkd Hhd. destruct keys as [|x keys]; cbn [insert_key].
  - now constructor.
  - inversion Hhd; subst.
    destruct (d <? x); [now constructor|].
    destruct (d =? x); now constructor.
Qed.

Lemma insert_key_sorted (d : date) (keys : list date) :
  Sorted Z.lt keys -> Sorted Z.lt (insert_key d keys).
Proof.
  induction keys as [|x keys IH]; intros Hs; cbn [insert_key].
  - repeat constructor.
  - inversion Hs as [|? ? Hs' Hhd]; subst.
    destruct (Z.ltb_spec d x) as [Hlt|Hge].
    + constructor; [exact Hs|now constructor].
    + destruct (Z.eqb_spec d x) as [E|E]; [exact Hs|].
      constructor; [now apply IH|]. apply insert_key_hd; [lia|exact Hhd].
Qed.

(** The keys of [groupby] come in increasing order, each once. *)
Lemma group_keys_sorted (dates : list date) : Sorted Z.lt (group_keys dates).
Proof.
  unfold group_keys. induction dates as [|d dates IH]; cbn [fold_right];
    [constructor|now apply insert_key_sorted].
Qed.

Lemma sorted_lt_NoDup (l : list Z) : Sorted Z.lt l -> NoDup l.
Proof.
  intros Hs. apply Sorted_StronglySorted in Hs; [|exact Z.lt_trans].
  induction Hs as [|a l _ IH Hall]; constructor; [|exact IH].
  intros Hin. rewrite Forall_forall in Hall. specialize (Hall a Hin). lia.
Qed.

Lemma sorted_lt_last (l : list Z) (x d : Z) :
  Sorted Z.lt l -> In x l -> (forall y, In y l -> y <= x) -> last l d = x.
Proof.
  induction l as [|a l IH]; intros Hs Hin Hmax; [contradiction|].
  destruct l as [|b l].
  - destruct Hin as [->|[]]. reflexivity.
  - change (last (a :: b :: l) d) with (last (b :: l) d).
    inversion Hs as [|? ? Hs' Hhd]; subst. inversion Hhd; subst.
    apply IH; [exact Hs'| |intros y Hy; apply Hmax; now right].
    destruct Hin as [->|Hin]; [|exact Hin].
    specialize (Hmax b (or_intror (or_introl eq_refl))). lia.
Qed.

Lemma last_map_cons {A B : Type} (f : A -> B) (l : list A) : forall a d,
  last (map f l) (f a) = f (last (a :: l) d).
Proof.
  induction l as [|b l IH]; intros a d; [reflexivity|].
  change (last (a :: b :: l) d) with (last (b :: l) d).
  cbn [map]. destruct l as [|c l]; [reflexivity|].
  change (last (f b :: map f (c :: l)) (f a)) with (last (map f (c :: l)) (f a)).
  change (last (b :: c :: l) d) with (last (c :: l) d).
  specialize (IH b d).
  change (last (b :: c :: l) d) with (last (c :: l) d) in IH.
  rewrite <- IH. cbn [map].
  clear. revert c. induction l as [|e l IHl]; intros c; [reflexivity|].
  change (last (f c :: map f (e :: l)) (f a)) with (last (map f (e :: l)) (f a)).
  change (last (f c :: map f (e :: l)) (f b)) with (last (map f (e :: l)) (f b)).
  cbn [map]. apply IHl.
Qed.

Lemma total_of_concat {A : Type} (value : A -> Z) (ls : list (list A)) :
  total_of value (List.concat ls) = total_of (total_of value) ls.
Proof.
  induction ls as [|l ls IH]; [reflexivity|].
  cbn [List.concat]. now rewrite total_of_app, total_of_cons, IH.
Qed.

(** On the days of the grid up to [today], the sessions of the period are
    the sessions found. *)
Lemma obs_at_in_period (df : list session) (init today : date) (i : nat) :
  init + Z.of_nat i <= today ->
  obs_at (filter (fun s => (init <=? s_date s) && (s_date s <=? today)) df)
         (init + Z.of_nat i)
  = obs_at df (init + Z.of_nat i).
Proof.
  intros Hi. unfold obs_at. apply find_filter_implied.
  intros x _ Hx. apply Z.eqb_eq in Hx. apply andb_true_iff.
  split; [apply Z.leb_le|apply Z.leb_le]; lia.
Qed.

Lemma total_of_g_day (col : day -> cell) (g : list global_day) :
  total_of (fun x => cell_value (col (g_day x))) g
  = sum_skipna (map col (map g_day g)).
Proof. now rewrite sum_skipna_total, total_of_map. Qed.

(** What a room adds to the figures: its balance on [today], the profit of
    its frame and the tournaments of its frame. *)
Lemma room_frame_totals (ss : list session) (today : date) (r : room) :
  unique_keys ss = true ->
  r_init_date r <= today ->
  cell_value (d_bankroll (room_row ss r today)) = balance_on ss today r /\
  total_of (fun x => cell_value (d_pure_profit (g_day x))) (frame_of ss today r)
  = balance_on ss today r - r_initial_bankroll r
    - total_of s_cashflow (in_period ss today r) /\
  total_of (fun x => cell_value (d_tournaments (g_day x))) (frame_of ss today r)
  = total_of s_tournaments (in_period ss today r).
Proof.
  intros Hu Hle. unfold balance_on, in_period, room_row, frame_of.
  set (df := filter (fun s => s_room_id s =? r_id r) ss).
  set (init := r_init_date r) in *. set (initial := r_initial_bankroll r).
  set (df' := filter (fun s => (init <=? s_date s) && (s_date s <=? today)) df).
  assert (Hud : is_unique (map s_date df) = true).
  { apply (unique_keys_room_dates _ (r_id r)); [|exact Hu].
    intros s Hs. now apply Z.eqb_eq. }
  assert (Hud' : is_unique (map s_date df') = true) by now apply is_unique_filter.
  destruct (grid_days_pos init today Hle) as [m Hm].
  pose proof (grid_days_length init today Hle) as Hlen. rewrite Hm in Hlen.
  assert (Hin' : forall s, In s df' -> init <= s_date s <= init + Z.of_nat m).
  { intros s Hs. apply filter_In in Hs. destruct Hs as [_ Hs].
    apply andb_true_iff in Hs. destruct Hs as [H1 H2].
    apply Z.leb_le in H1. apply Z.leb_le in H2. lia. }
  assert (Hobs : forall j, (j < S m)%nat ->
             obs_at df (init + Z.of_nat j) = obs_at df' (init + Z.of_nat j)).
  { intros j Hj. symmetry. apply obs_at_in_period. lia. }
  assert (Hlast : filled df initial init m
                  = match latest_session df' with
                    | Some s => s_bankroll s
                    | None => initial
                    end).
  { rewrite (filled_ext df df' initial init m) by (intros j Hj; apply Hobs; lia).
    now apply filled_last_day. }
  replace (Z.to_nat (today - init)) with m by lia.
  split; [cbn [d_bankroll reconciled_day cell_value]; exact Hlast|].
  rewrite (total_of_g_day d_pure_profit), (total_of_g_day d_tournaments).
  rewrite map_g_day_global_frame, Hm.
  split.
  - rewrite pure_profit_telescopes. cbn [previous]. rewrite Hlast.
    rewrite map_map, sum_skipna_total. cbn [d_cashflow reconciled_day cell_value].
    unfold flow_at.
    rewrite (total_of_ext _ (fun i => match obs_at df' (init + Z.of_nat i) with
                                      | Some s => s_cashflow s
                                      | None => 0
                                      end))
      by (intros i Hi; apply in_seq in Hi; rewrite Hobs by lia; reflexivity).
    rewrite (grid_column_total s_cashflow init (S m) df' Hud')
      by (intros s Hs; specialize (Hin' s Hs); lia).
    reflexivity.
  - rewrite map_map, sum_skipna_total. cbn [d_tournaments reconciled_day cell_value].
    unfold activity_at.
    rewrite (total_of_ext _ (fun i => match obs_at df' (init + Z.of_nat i) with
                                      | Some s => s_tournaments s
                                      | None => 0
                                      end))
      by (intros i Hi; apply in_seq in Hi; rewrite Hobs by lia; reflexivity).
    rewrite (grid_column_total s_tournaments init (S m) df' Hud')
      by (intros s Hs; specialize (Hin' s Hs); lia).
    reflexivity.
Qed.

Lemma global_synthesis_map (F : date -> total) (keys : list date) :
  keys <> [] ->
  global_synthesis (map F keys)
  = Some (t_total_bankroll (F (last keys 0)),
          total_of t_pure_profit (map F keys),
          total_of t_total_tournaments (map F keys)).
Proof.
  destruct keys as [|k0 ks]; [congruence|]. intros _.
  cbn [map global_synthesis]. now rewrite (last_map_cons F ks k0 0).
Qed.

(** X15: when some room has started by [today], [global_stats] shows the
    three figures, and they add up over the rooms that have started: the
    current bankroll is the sum of their balances on [today], the tournaments
    are those of their sessions of the period, and the net profit is the
    current bankroll, less their initial bankrolls, less the cashflows of
    their sessions of the period. *)
Theorem global_synthesis_accounts (rs : list room) (ss : list session)
    (today : date) :
  unique_keys ss = true ->
  (exists r, In r rs /\ r_init_date r <= today) ->
  exists data current_bankroll pure_profit_total_period total_tournaments,
    global_stats rs ss today = Ok (Some data) /\
    global_synthesis data
    = Some (current_bankroll, pure_profit_total_period, total_tournaments) /\
    current_bankroll = total_of (balance_on ss today) (active_rooms rs today) /\
    pure_profit_total_period
    = current_bankroll
      - total_of r_initial_bankroll (active_rooms rs today)
      - total_of (fun r => total_of s_cashflow (in_period ss today r))
          (active_rooms rs today) /\
    total_tournaments
    = total_of (fun r => total_of s_tournaments (in_period ss today r))
        (active_rooms rs today).
Proof.
  intros Hu (r0 & Hr0 & Hr0d).
  set (started := active_rooms rs today).
  set (frames := map (frame_of ss today) started).
  set (df := List.concat frames).
  set (keys := group_keys (map (fun x => d_date (g_day x)) df)).
  assert (Hstarted : In r0 started).
  { apply filter_In. split; [exact Hr0|now apply Z.leb_le]. }
  assert (Hstats : global_stats rs ss today = Ok (Some (groupby_date_sum df))).
  { unfold global_stats. destruct rs as [|r1 rs']; [contradiction|].
    rewrite processed_room_dfs_spec by exact Hu. cbn [bind].
    fold (active_rooms (r1 :: rs') today). fold started. fold frames.
    destruct frames as [|f fs] eqn:Ef; [|reflexivity].
    unfold frames in Ef. destruct started; [contradiction|discriminate]. }
  assert (Hkeys : forall d, In d keys <-> exists r, In r rs /\ r_init_date r <= d <= today).
  { intros d. unfold keys. rewrite group_keys_In. apply concat_frames_dates. }
  assert (Htoday : In today keys) by (apply Hkeys; exists r0; split; [exact Hr0|lia]).
  assert (Hsorted : Sorted Z.lt keys) by apply group_keys_sorted.
  assert (Hstarted_dates : forall r, In r started -> r_init_date r <= today).
  { intros r Hr. apply filter_In in Hr. destruct Hr as [_ Hr]. now apply Z.leb_le. }
  assert (Hsum : forall (col : day -> cell),
             total_of (fun d => sum_skipna (map (fun x => col (g_day x)) (group_of d df))) keys
             = total_of (fun r => total_of (fun x => cell_value (col (g_day x)))
                                    (frame_of ss today r)) started).
  { intros col.
    rewrite (total_of_ext _ (fun d => total_of (fun x => cell_value (col (g_day x)))
                                        (filter (fun x => d_date (g_day x) =? d) df)))
      by (intros d _; apply sum_skipna_total).
    rewrite (total_of_bins (fun x => d_date (g_day x))).
    - unfold df, frames. now rewrite total_of_concat, total_of_map.
    - now apply sorted_lt_NoDup.
    - intros x Hx. unfold keys. apply group_keys_In.
      exact (in_map (fun y => d_date (g_day y)) df x Hx). }
  assert (Hlastkey : last keys 0 = today).
  { apply sorted_lt_last; [exact Hsorted|exact Htoday|].
    intros y Hy. apply Hkeys in Hy. destruct Hy as (r & _ & Hy). lia. }
  assert (Hne : keys <> []) by (intros E; rewrite E in Htoday; contradiction).
  set (F := fun d => mk_total d
              (sum_skipna (map (fun x => d_bankroll (g_day x)) (group_of d df)))
              (sum_skipna (map (fun x => d_pure_profit (g_day x)) (group_of d df)))
              (sum_skipna (map (fun x => d_tournaments (g_day x)) (group_of d df)))).
  assert (Hcur : t_total_bankroll (F (last keys 0))
                 = total_of (balance_on ss today) started).
  { rewrite Hlastkey. unfold F. cbn [t_total_bankroll].
    rewrite sum_skipna_g_day. unfold df, frames, started, active_rooms.
    rewrite group_of_frames by lia. fold (active_rooms rs today). fold started.
    rewrite map_map, sum_skipna_total.
    apply total_of_ext. intros r Hr.
    apply (room_frame_totals ss today r Hu (Hstarted_dates r Hr)). }
  exists (map F keys), (t_total_bankroll (F (last keys 0))),
    (total_of t_pure_profit (map F keys)),
    (total_of t_total_tournaments (map F keys)).
  split; [exact Hstats|].
  split; [now apply global_synthesis_map|].
  split; [exact Hcur|].
  split.
  - rewrite Hcur. rewrite total_of_map. unfold F. cbn [t_pure_profit].
    rewrite (Hsum d_pure_profit).
    rewrite (total_of_ext _ (fun r => balance_on ss today r + (- r_initial_bankroll r
                                       + - total_of s_cashflow (in_period ss today r)))).
    2:{ intros r Hr.
        destruct (room_frame_totals ss today r Hu (Hstarted_dates r Hr)) as (_ & H & _).
        rewrite H. lia. }
    rewrite !total_of_add.
    assert (Hneg : forall (f : room -> Z) l,
               total_of (fun x => - f x) l = - total_of f l).
    { intros f l. induction l as [|a l IH]; [reflexivity|].
      rewrite !total_of_cons, IH. lia. }
    rewrite !Hneg. lia.
  - rewrite total_of_map. unfold F. cbn [t_total_tournaments].
    rewrite (Hsum d_tournaments).
    apply total_of_ext. intros r Hr.
    apply (room_frame_totals ss today r Hu (Hstarted_dates r Hr)).
Qed.

Lemma global_synthesis_accounts_witness :
  unique_keys sample_sessions = true /\
  (exists r, In r sample_rooms /\ r_init_date r <= 19726) /\
  exists data current_bankroll pure_profit_total_period total_tournaments,
    global_stats sample_rooms sample_sessions 19726 = Ok (Some data) /\
    global_synthesis data
    = Some (current_bankroll, pure_profit_total_period, total_tournaments) /\
    current_bankroll
    = total_of (balance_on sample_sessions 19726) (active_rooms sample_rooms 19726) /\
    pure_profit_total_period
    = current_bankroll
      - total_of r_initial_bankroll (active_rooms sample_rooms 19726)
      - total_of (fun r => total_of s_cashflow (in_period sample_sessions 19726 r))
          (active_rooms sample_rooms 19726) /\
    total_tournaments
    = total_of (fun r => total_of s_tournaments (in_period sample_sessions 19726 r))
        (active_rooms sample_rooms 19726).
Proof.
  assert (H : exists r, In r sample_rooms /\ r_init_date r <= 19726).
  { exists (mk_room 1 "Winamax" 100 19723). split; [now left|cbn; lia]. }
  split; [reflexivity|]. split; [exact H|].
  apply (global_synthesis_accounts sample_rooms sample_sessions 19726);
    [reflexivity|exact H].
Defined.

Example global_synthesis_sample :
  option_map global_synthesis
    (match global_stats sample_rooms sample_sessions 19726 with
     | Ok (Some data) => Some data
     | _ => None
     end)
  = Some (Some (200, 40, 1)).
Proof. reflexivity. Qed.

(** ** The profits of [session_history] against those of [room_stats] *)

Lemma obs_at_before (df : list session) (bound d : date) :
  d < bound ->
  obs_at (filter (fun o => s_date o <? bound) df) d = obs_at df d.
Proof.
  intros Hd. unfold obs_at. apply find_filter_implied.
  intros x _ Hx. apply Z.eqb_eq in Hx. apply Z.ltb_lt. lia.
Qed.

(** The balance a grid day is compared with is the balance of the latest
    earlier session, when every session is dated on or after [init]. *)
Lemma previous_is_latest_before df initial init (i : nat) :
  is_unique (map s_date df) = true ->
  (forall s, In s df -> init <= s_date s) ->
  previous df initial init i
  = match latest_session (filter (fun o => s_date o <? init + Z.of_nat i) df) with
    | Some p => s_bankroll p
    | None => initial
    end.
Proof.
  intros Hu Hge.
  set (df' := filter (fun o => s_date o <? init + Z.of_nat i) df).
  assert (Hin' : forall s, In s df' -> init <= s_date s < init + Z.of_nat i).
  { intros s Hs. apply filter_In in Hs. destruct Hs as [Hs Hlt].
    apply Z.ltb_lt in Hlt. specialize (Hge s Hs). lia. }
  destruct i as [|i]; cbn [previous].
  - destruct (latest_session df') as [p|] eqn:E; [|reflexivity].
    apply latest_session_max in E. destruct E as [Hp _].
    specialize (Hin' p Hp). lia.
  - rewrite (filled_ext df df' initial init i).
    + apply filled_last_day; [now apply is_unique_filter|].
      intros s Hs. specialize (Hin' s Hs). lia.
    + intros j Hj. symmetry. apply obs_at_before. lia.
Qed.

(** X16: the table of [session_history] against the daily series of
    [room_stats], for a session of a room whose sessions are all dated from
    its start date on.  The series has a row for the day of the session; the
    "session_profit" of the table is the profit of that row plus the cashflow
    of the session, and the "pure_profit" of the table is the profit of that
    row plus the cashflow of the previous session of the room: the two pages
    show the same profit only when the previous session had no cashflow. *)
Theorem history_profit_against_room_stats (st : db) (r : room) (s : session)
    (today : date) :
  unique_keys (sessions st) = true ->
  In s (sessions st) ->
  s_room_id s = r_id r ->
  (forall o, In o (sessions st) -> s_room_id o = r_id r ->
             r_init_date r <= s_date o) ->
  s_date s <= today ->
  exists rows x,
    room_stats st r today = Ok rows /\
    nth_error rows (Z.to_nat (s_date s - r_init_date r)) = Some x /\
    d_date x = s_date s /\
    h_session_profit (history_row_of st r s)
    = cell_value (d_pure_profit x) + s_cashflow s /\
    h_pure_profit (history_row_of st r s)
    = cell_value (d_pure_profit x)
      + match previous_session (sessions st) s with
        | Some p => s_cashflow p
        | None => 0
        end.
Proof.
  intros Hu Hs Hr Hge Htoday. unfold room_stats.
  rewrite room_sessions_all by exact Hge.
  unfold history_row_of, previous_session. cbn [h_session_profit h_pure_profit].
  rewrite Hr. fold (sessions_of st (r_id r)).
  set (df := sessions_of st (r_id r)).
  set (init := r_init_date r) in *. set (initial := r_initial_bankroll r).
  assert (Hsdf : In s df).
  { apply filter_In. split; [exact Hs|now apply Z.eqb_eq]. }
  assert (Hud : is_unique (map s_date df) = true).
  { apply (unique_keys_room_dates _ (r_id r)); [|exact Hu].
    intros o Ho. now apply Z.eqb_eq. }
  assert (Hdf : forall o, In o df -> init <= s_date o).
  { intros o Ho. apply filter_In in Ho. destruct Ho as [Ho Hro].
    apply Z.eqb_eq in Hro. now apply Hge. }
  pose proof (Hdf s Hsdf) as Hsd.
  set (i := Z.to_nat (s_date s - init)).
  assert (Hi : s_date s = init + Z.of_nat i) by (unfold i; lia).
  assert (Hin : (i < grid_days init today)%nat) by (unfold grid_days, i; lia).
  assert (Hobs : obs_at df (init + Z.of_nat i) = Some s).
  { rewrite <- Hi. now apply obs_at_own. }
  assert (Hfilled : filled df initial init i = s_bankroll s).
  { destruct i; cbn [filled]; now rewrite Hobs. }
  pose proof (previous_is_latest_before df initial init i Hud Hdf) as Hprev.
  rewrite <- Hi in Hprev.
  exists (map (reconciled_day df initial init) (seq 0 (grid_days init today))),
    (reconciled_day df initial init i).
  split; [apply process_room_data_spec; [exact Hud|lia]|].
  split; [now apply nth_error_map_seq_lt|].
  split; [cbn [d_date reconciled_day]; lia|].
  cbn [d_pure_profit reconciled_day cell_value].
  unfold flow_at. rewrite Hobs, Hfilled, Hprev.
  destruct (latest_session (filter (fun o => s_date o <? s_date s) df));
    split; lia.
Qed.

Lemma history_profit_against_room_stats_witness :
  unique_keys (sessions deposit_db) = true /\
  In deposit_session (sessions deposit_db) /\
  s_room_id deposit_session = r_id deposit_room /\
  (forall o, In o (sessions deposit_db) -> s_room_id o = r_id deposit_room ->
             r_init_date deposit_room <= s_date o) /\
  s_date deposit_session <= 19726 /\
  exists rows x,
    room_stats deposit_db deposit_room 19726 = Ok rows /\
    nth_error rows (Z.to_nat (s_date deposit_session - r_init_date deposit_room))
    = Some x /\
    d_date x = s_date deposit_session /\
    h_session_profit (history_row_of deposit_db deposit_room deposit_session)
    = cell_value (d_pure_profit x) + s_cashflow deposit_session /\
    h_pure_profit (history_row_of deposit_db deposit_room deposit_session)
    = cell_value (d_pure_profit x)
      + match previous_session (sessions deposit_db) deposit_session with
        | Some p => s_cashflow p
        | None => 0
        end.
Proof.
  assert (Hs : In deposit_session (sessions deposit_db)) by (right; now left).
  assert (Hge : forall o, In o (sessions deposit_db) ->
                          s_room_id o = r_id deposit_room ->
                          r_init_date deposit_room <= s_date o).
  { intros o [<-|[<-|[]]] _; cbn; lia. }
  split; [reflexivity|]. split; [exact Hs|]. split; [reflexivity|].
  split; [exact Hge|]. split; [cbn; lia|].
  apply (history_profit_against_room_stats deposit_db deposit_room
           deposit_session 19726);
    [reflexivity|exact Hs|reflexivity|exact Hge|cbn; lia].
Defined.

(** The daily series shows a profit of 10 for the second day, the table
    shows 60. *)
Example history_profit_sample :
  map h_pure_profit (session_history deposit_db) = [0; 60] /\
  option_map (map d_pure_profit)
    (match room_stats deposit_db deposit_room 19724 with
     | Ok rows => Some rows
     | Raise _ => None
     end) = Some [Some 0; Some 10].
Proof. split; reflexivity. Qed.

(** ** When [global_stats] has nothing to show *)

(** X17: under the UNIQUE constraint of the sessions, [global_stats] never
    raises, and it stops on a warning, showing no figure and no chart,
    exactly when no room has started by [today] (in particular when there is
    no room). *)
Theorem global_stats_nothing_to_show (rs : list room) (ss : list session)
    (today : date) :
  unique_keys ss = true ->
  (exists res, global_stats rs ss today = Ok res) /\
  (global_stats rs ss today = Ok None
   <-> forall r, In r rs -> today < r_init_date r).
Proof.
  intros Hu. unfold global_stats.
  destruct rs as [|r0 rs'].
  { split; [now exists None|]. split; [intros _ r []|reflexivity]. }
  rewrite processed_room_dfs_spec by exact Hu. cbn [bind].
  set (rs := r0 :: rs').
  destruct (filter (fun r => r_init_date r <=? today) rs) as [|r1 started] eqn:E.
  - split; [now exists None|]. split; [|reflexivity].
    intros _ r Hr.
    destruct (Z.leb_spec (r_init_date r) today) as [Hle|Hgt]; [|exact Hgt].
    assert (Hin : In r (filter (fun r => r_init_date r <=? today) rs)).
    { apply filter_In. split; [exact Hr|now apply Z.leb_le]. }
    rewrite E in Hin. contradiction.
  - cbn [map]. split; [eexists; reflexivity|]. split; [discriminate|].
    intros Hall.
    assert (Hin : In r1 (filter (fun r => r_init_date r <=? today) rs))
      by (rewrite E; now left).
    apply filter_In in Hin. destruct Hin as [Hin Hle]. apply Z.leb_le in Hle.
    specialize (Hall r1 Hin). lia.
Qed.

Lemma global_stats_nothing_to_show_witness :
  unique_keys sample_sessions = true /\
  (exists res, global_stats sample_rooms sample_sessions 19720 = Ok res) /\
  (global_stats sample_rooms sample_sessions 19720 = Ok None
   <-> forall r, In r sample_rooms -> 19720 < r_init_date r).
Proof.
  split; [reflexivity|].
  apply (global_stats_nothing_to_show sample_rooms sample_sessions 19720).
  reflexivity.
Defined.
